(** * python-terraform: the option encoder and the command executor

    A shallow embedding of [python_terraform/terraform.py]: the class
    [Terraform] (the argument encoder [generate_cmd_string], the executor
    [cmd], the shims [apply], [plan] and [output], [read_state_file]) and
    the class [VariableFiles] (the temporary variable files).

    Python text is modelled by [string], one character per code point
    below 256.  The file system, the temporary-name generator and the
    child processes are an explicit [World] that every method threads
    through a state-and-exception monad. *)

From Stdlib Require Import ZArith Ascii String List Lia.
From Stdlib.Strings Require Import Byte.
From stdpp Require Import base option list gmap strings pretty.

Set Warnings "-register-all".

Open Scope string_scope.
Open Scope Z_scope.
Open Scope list_scope.

(** ** Python text primitives *)

Module Py.

(** [str.isspace] on one character (code points below 256). *)
Definition isspace (c : ascii) : bool :=
  let n := N_of_ascii c in
  ((9 <=? n) && (n <=? 13) || (28 <=? n) && (n <=? 32)
   || (n =? 133) || (n =? 160))%N.

Definition is_empty (s : string) : bool :=
  match s with EmptyString => true | _ => false end.

(** [str.split()] without arguments: the maximal runs of non-blank
    characters, in order. [cur] is the run read so far. *)
Fixpoint split_from (cur s : string) : list string :=
  match s with
  | EmptyString => if is_empty cur then [] else [cur]
  | String c s' =>
      if isspace c
      then (if is_empty cur then split_from "" s'
            else cur :: split_from "" s')
      else split_from (cur +:+ String c "") s'
  end.

Definition split (s : string) : list string := split_from "" s.

(** [str.lstrip()] without arguments. *)
Fixpoint lstrip (s : string) : string :=
  match s with
  | String c s' => if isspace c then lstrip s' else s
  | EmptyString => EmptyString
  end.

(** [sep.join(l)]. *)
Fixpoint join (sep : string) (l : list string) : string :=
  match l with
  | [] => ""
  | [x] => x
  | x :: rest => x +:+ sep +:+ join sep rest
  end.

(** [sub in s] on text. *)
Fixpoint contains (sub s : string) : bool :=
  String.prefix sub s
  || match s with
     | EmptyString => false
     | String _ s' => contains sub s'
     end.

(** [s.replace(a, b)] for one-character [a] and [b]. *)
Fixpoint replace_char (a b : ascii) (s : string) : string :=
  match s with
  | EmptyString => EmptyString
  | String c s' =>
      String (if Ascii.eqb c a then b else c) (replace_char a b s')
  end.

(** [s.endswith(suffix)]. *)
Definition endswith (suffix s : string) : bool :=
  let n := String.length s in
  let k := String.length suffix in
  (k <=? n)%nat && String.eqb (String.substring (n - k) k s) suffix.

(** [s[:-k]]. *)
Definition drop_last (k : nat) (s : string) : string :=
  String.substring 0 (String.length s - k) s.

(** The double quote character. *)
Abbreviation dquote := ("034"%char) (only parsing).

Definition hex_digit (n : N) : ascii :=
  ascii_of_N (if (n <? 10)%N then 48 + n else 87 + n).

(** The two lower-case hexadecimal digits of a character code. *)
Definition hex2 (c : ascii) : string :=
  let n := N_of_ascii c in
  String (hex_digit (n / 16)) (String (hex_digit (n mod 16)) "").

(** [str.isprintable] on one character, as [repr] uses it. *)
Definition isprintable (c : ascii) : bool :=
  let n := N_of_ascii c in
  ((32 <=? n) && (n <=? 126) || (161 <=? n) && negb (n =? 173))%N.

Definition repr_char (quote c : ascii) : string :=
  if Ascii.eqb c "\" then "\\"
  else if Ascii.eqb c quote then String "\" (String quote "")
  else if Ascii.eqb c "009" then "\t"
  else if Ascii.eqb c "010" then "\n"
  else if Ascii.eqb c "013" then "\r"
  else if isprintable c then String c ""
  else "\x" +:+ hex2 c.

Fixpoint repr_body (quote : ascii) (s : string) : string :=
  match s with
  | EmptyString => EmptyString
  | String c s' => repr_char quote c +:+ repr_body quote s'
  end.

(** [repr(s)] of a text: single quotes, unless the text holds a single
    quote and no double quote. *)
Definition repr_str (s : string) : string :=
  let q : ascii :=
    if contains "'" s && negb (contains (String dquote "") s) then dquote
    else "'"%char in
  String q (repr_body q s) +:+ String q "".

End Py.

(** ** Option values *)

(** [class TerraformFlag] and its two subclasses; the classes themselves
    are passed as option values. *)
Inductive TerraformFlag := IsFlagged | IsNotFlagged.

(** The scalars an option can hold. *)
Inductive scalar :=
| PyNone
| PyBool (b : bool)
| PyInt (n : Z)
| PyStr (s : string).

(** A Python [dict] with text keys: the entries in insertion order, every
    key at most once. *)
Definition dict (V : Type) : Type := list (string * V).

(** What a keyword argument can hold: a flag class, a scalar, a [list] of
    scalars (the sequences [isinstance(value, list)] accepts), a [tuple]
    of scalars (a sequence that is no [list]) or a [dict] from text to
    text. *)
Inductive value :=
| VFlag (f : TerraformFlag)
| VScalar (x : scalar)
| VList (l : list scalar)
| VTuple (l : list scalar)
| VDict (d : dict string).

(** The mapping bound to a keyword parameter such as [**kwargs]. Python
    binds no name of a named parameter of the callee there: a call whose
    keywords name [self] or a positional parameter raises [TypeError]
    before the body runs, so the bodies below never see such a key. *)
Definition kwargs : Type := dict value.

Module Dict.
Section Ops.
Context {V : Type}.

(** [d.get(k)]. *)
Fixpoint get (k : string) (d : dict V) : option V :=
  match d with
  | [] => None
  | (k', v) :: rest => if String.eqb k' k then Some v else get k rest
  end.

(** [d[k] = v]: an existing key keeps its place, a new key goes last. *)
Fixpoint set (k : string) (v : V) (d : dict V) : dict V :=
  match d with
  | [] => [(k, v)]
  | (k', v') :: rest =>
      if String.eqb k' k then (k', v) :: rest
      else (k', v') :: set k v rest
  end.

(** [d.update(other)], also [{**d, **other}]. *)
Definition update (d other : dict V) : dict V :=
  fold_left (fun acc kv => set (fst kv) (snd kv) acc) other d.

(** [d] without the key [k] (a keyword bound to a named parameter). *)
Fixpoint remove (k : string) (d : dict V) : dict V :=
  match d with
  | [] => []
  | (k', v) :: rest =>
      if String.eqb k' k then remove k rest else (k', v) :: remove k rest
  end.

Definition keys (d : dict V) : list string := map fst d.

(** Every key occurs once, as in a Python [dict]. *)
Definition wf (d : dict V) : Prop := NoDup (keys d).
End Ops.
End Dict.

(** [str(x)] as an f-string renders a scalar. *)
Definition str_scalar (x : scalar) : string :=
  match x with
  | PyNone => "None"
  | PyBool true => "True"
  | PyBool false => "False"
  | PyInt n => pretty n
  | PyStr s => s
  end.

(** [str(d)] of a [dict] from text to text. *)
Definition str_dict (d : dict string) : string :=
  "{" +:+ Py.join ", "
            (map (fun kv => Py.repr_str (fst kv) +:+ ": " +:+ Py.repr_str (snd kv)) d)
      +:+ "}".

(** [repr(x)] of a scalar, as [str] of a [tuple] renders its elements. *)
Definition repr_scalar (x : scalar) : string :=
  match x with
  | PyStr s => Py.repr_str s
  | _ => str_scalar x
  end.

(** [str(t)] of a [tuple] of scalars: [()], [(x,)], [(x, y)]. *)
Definition str_tuple (l : list scalar) : string :=
  "(" +:+ Py.join ", " (map repr_scalar l)
      +:+ (match l with [_] => "," | _ => "" end) +:+ ")".

(** Truth value of a keyword argument ([if x:], [not x]). *)
Definition truthy (v : value) : bool :=
  match v with
  | VFlag _ => true
  | VScalar PyNone => false
  | VScalar (PyBool b) => b
  | VScalar (PyInt n) => negb (n =? 0)
  | VScalar (PyStr s) => negb (Py.is_empty s)
  | VList l => match l with [] => false | _ => true end
  | VTuple l => match l with [] => false | _ => true end
  | VDict d => match d with [] => false | _ => true end
  end.


(** ** The [json] module on variable maps

    [dumps] is [json.dumps] (default separators, [ensure_ascii]) on a
    [dict] from text to text, which is what a variable file receives.
    [loads_flat] is [json.loads] on the documents that denote such a
    [dict]: [Some d] says that [json.loads] returns [d]; on every other
    document, valid or not, it is [None]. *)

Module Json.

(** [py_encode_basestring_ascii], one character. *)
Definition escape_char (c : ascii) : string :=
  let n := N_of_ascii c in
  if Ascii.eqb c Py.dquote then String "\" (String Py.dquote "")
  else if Ascii.eqb c "\" then "\\"
  else if Ascii.eqb c "008" then "\b"
  else if Ascii.eqb c "012" then "\f"
  else if Ascii.eqb c "010" then "\n"
  else if Ascii.eqb c "013" then "\r"
  else if Ascii.eqb c "009" then "\t"
  else if ((32 <=? n) && (n <=? 126))%N then String c ""
  else "\u00" +:+ Py.hex2 c.

Fixpoint escape (s : string) : string :=
  match s with
  | EmptyString => EmptyString
  | String c s' => escape_char c +:+ escape s'
  end.

Definition dumps_str (s : string) : string :=
  String Py.dquote (escape s +:+ String Py.dquote "").

Definition dumps_item (kv : string * string) : string :=
  dumps_str (fst kv) +:+ ": " +:+ dumps_str (snd kv).

Definition dumps (d : dict string) : string :=
  "{" +:+ Py.join ", " (map dumps_item d) +:+ "}".

(** JSON white space. *)
Definition is_ws (c : ascii) : bool :=
  Ascii.eqb c " " || Ascii.eqb c "009" || Ascii.eqb c "010"
  || Ascii.eqb c "013".

Fixpoint skip_ws (s : string) : string :=
  match s with
  | String c s' => if is_ws c then skip_ws s' else s
  | EmptyString => EmptyString
  end.

Definition hex_val (c : ascii) : option N :=
  let n := N_of_ascii c in
  if ((48 <=? n) && (n <=? 57))%N then Some (n - 48)%N
  else if ((97 <=? n) && (n <=? 102))%N then Some (n - 87)%N
  else if ((65 <=? n) && (n <=? 70))%N then Some (n - 55)%N
  else None.

(** The character a [\uXXXX] escape denotes; code points from 256 on
    are outside the modelled text. *)
Definition unicode_escape (a b c d : ascii) : option ascii :=
  match hex_val a, hex_val b, hex_val c, hex_val d with
  | Some x, Some y, Some z, Some w =>
      let n := (((x * 16 + y) * 16 + z) * 16 + w)%N in
      if (n <? 256)%N then Some (ascii_of_N n) else None
  | _, _, _, _ => None
  end.

(** The character a two-character escape denotes. *)
Definition simple_escape (e : ascii) : option ascii :=
  if Ascii.eqb e Py.dquote then Some Py.dquote
  else if Ascii.eqb e "\" then Some "\"%char
  else if Ascii.eqb e "/" then Some "/"%char
  else if Ascii.eqb e "b" then Some "008"%char
  else if Ascii.eqb e "f" then Some "012"%char
  else if Ascii.eqb e "n" then Some "010"%char
  else if Ascii.eqb e "r" then Some "013"%char
  else if Ascii.eqb e "t" then Some "009"%char
  else None.

Definition push (c : ascii) (r : option (string * string))
  : option (string * string) :=
  match r with
  | Some (t, rest) => Some (String c t, rest)
  | None => None
  end.

(** [py_scanstring] (strict): [s] starts after the opening quote; the
    result is the decoded text and what follows the closing quote. *)
Fixpoint scan_string (s : string) : option (string * string) :=
  match s with
  | EmptyString => None
  | String c rest =>
      if Ascii.eqb c Py.dquote then Some (EmptyString, rest)
      else if Ascii.eqb c "\" then
        match rest with
        | String e rest1 =>
            if Ascii.eqb e "u" then
              match rest1 with
              | String h1 (String h2 (String h3 (String h4 rest2))) =>
                  match unicode_escape h1 h2 h3 h4 with
                  | Some ch => push ch (scan_string rest2)
                  | None => None
                  end
              | _ => None
              end
            else
              match simple_escape e with
              | Some ch => push ch (scan_string rest1)
              | None => None
              end
        | EmptyString => None
        end
      else if (N_of_ascii c <? 32)%N then None
      else push c (scan_string rest)
  end.

(** The members of an object whose values are all strings; [s] starts
    at the opening quote of a key, [acc] holds the members read so far.
    Every round consumes input, so the length of the document is enough
    [fuel]. *)
Fixpoint members (fuel : nat) (acc : dict string) (s : string)
  : option (dict string * string) :=
  match fuel with
  | O => None
  | S fuel' =>
      match s with
      | String q s1 =>
          if negb (Ascii.eqb q Py.dquote) then None else
          match scan_string s1 with
          | None => None
          | Some (k, s2) =>
              match skip_ws s2 with
              | String ":" s3 =>
                  match skip_ws s3 with
                  | String q' s4 =>
                      if negb (Ascii.eqb q' Py.dquote) then None else
                      match scan_string s4 with
                      | None => None
                      | Some (v, s5) =>
                          let acc' := Dict.set k v acc in
                          match skip_ws s5 with
                          | String "," s6 => members fuel' acc' (skip_ws s6)
                          | String "}" s6 => Some (acc', s6)
                          | _ => None
                          end
                      end
                  | EmptyString => None
                  end
              | _ => None
              end
          end
      | EmptyString => None
      end
  end.

Definition loads_flat (s : string) : option (dict string) :=
  match skip_ws s with
  | String "{" s1 =>
      match skip_ws s1 with
      | String "}" s2 =>
          if Py.is_empty (skip_ws s2) then Some [] else None
      | s1' =>
          match members (String.length s) [] s1' with
          | Some (d, rest) =>
              if Py.is_empty (skip_ws rest) then Some d else None
          | None => None
          end
      end
  | _ => None
  end.

End Json.


(** ** Exceptions, the world and the monad *)

(** A parsed JSON document, as [json.loads] returns it. *)
Inductive Json :=
| JNull
| JBool (b : bool)
| JNumber (literal : string)
| JString (s : string)
| JArray (l : list Json)
| JObject (members : list (string * Json)).

(** The exceptions these methods raise or let through. *)
Inductive exn :=
| IndexError
| FileExistsError
| FileNotFoundError (path : string)
| OSError (msg : string)
| UnicodeDecodeError
| JSONDecodeError
| AttributeError
| ValueError (msg : string)
| TerraformCommandError (ret_code : Z) (cmd : string)
                        (out err : option string).

(** What a finished child process leaves: its return code (negative when
    a signal ended it), what it wrote to its two streams and the files on
    disk after it. *)
Record Completed := mkCompleted {
  returncode : Z;
  out_bytes : list Byte.byte;
  err_bytes : list Byte.byte;
  disk_after : gmap string string;
}.

(** [subprocess.Popen(...)]: it raises, or a child runs. *)
Inductive Spawn :=
| SpawnError (e : exn)
| Spawned (c : Completed).

(** Calls into collaborators, recorded in order. *)
Inductive event :=
| EvCreate (path : string)
| EvUnlink (path : string)
| EvCleanUp
| EvReadState (path : string)
| EvPopen (cmds : list string).

(** The operating system as the methods see it: the files (path to
    content), the directory and the candidate names of [tempfile], what a
    command line does when spawned (given the working folder, whether the
    environment is passed on, and the files), and the calls made so far. *)
Record World := mkWorld {
  disk : gmap string string;
  tempdir : string;
  tmp_names : list string;
  os_popen : list string -> option string -> bool -> gmap string string -> Spawn;
  trace : list event;
}.

Definition set_disk (d : gmap string string) (w : World) : World :=
  mkWorld d (tempdir w) (tmp_names w) (os_popen w) (trace w).

Definition set_tmp_names (l : list string) (w : World) : World :=
  mkWorld (disk w) (tempdir w) l (os_popen w) (trace w).

Definition log (e : event) (w : World) : World :=
  mkWorld (disk w) (tempdir w) (tmp_names w) (os_popen w) (trace w ++ [e]).

(** [Tfstate], the persisted state as read back. *)
Inductive Tfstate :=
| TfstateEmpty
| TfstateLoaded (tfstate_file : string) (data : Json).

(** [class VariableFiles]: the names of the files created and not yet
    cleaned up. *)
Record VariableFiles := mkVariableFiles { files : list string }.

(** The attributes of a [Terraform] object. [targets] holds what the
    constructor was given (a [list], or another sequence such as a
    [tuple]); it goes into the option mapping as it is. *)
Record Terraform := mkTerraform {
  is_env_vars_included : bool;
  working_dir : option string;
  state : option string;
  targets : value;
  variables : dict string;
  parallelism : option string;
  terraform_bin_path : string;
  var_file : value;
  temp_var_files : VariableFiles;
  tfstate : option Tfstate;
}.

Definition set_temp_var_files (f : VariableFiles) (t : Terraform) : Terraform :=
  mkTerraform (is_env_vars_included t) (working_dir t) (state t) (targets t)
    (variables t) (parallelism t) (terraform_bin_path t) (var_file t)
    f (tfstate t).

Definition set_tfstate (s : option Tfstate) (t : Terraform) : Terraform :=
  mkTerraform (is_env_vars_included t) (working_dir t) (state t) (targets t)
    (variables t) (parallelism t) (terraform_bin_path t) (var_file t)
    (temp_var_files t) s.

(** The object and the world, mutated in place by every method. *)
Record St := mkSt { self : Terraform; world : World }.

Inductive result (A : Type) :=
| Ok (a : A)
| Raise (e : exn).
Arguments Ok {A} a.
Arguments Raise {A} e.

(** A method body: it returns or raises, and leaves a state either way. *)
Definition M (A : Type) : Type := St -> result A * St.

Definition ret {A} (a : A) : M A := fun st => (Ok a, st).

Definition raise {A} (e : exn) : M A := fun st => (Raise e, st).

Definition bind {A B} (m : M A) (k : A -> M B) : M B :=
  fun st =>
    match m st with
    | (Ok a, st') => k a st'
    | (Raise e, st') => (Raise e, st')
    end.

Definition gets {A} (f : St -> A) : M A := fun st => (Ok (f st), st).

Definition modify_world (f : World -> World) : M unit :=
  fun st => (Ok tt, mkSt (self st) (f (world st))).

Definition modify_self (f : Terraform -> Terraform) : M unit :=
  fun st => (Ok tt, mkSt (f (self st)) (world st)).

Declare Scope py_scope.
Delimit Scope py_scope with py.
Notation "'let*' x := m 'in' k" := (bind m (fun x => k))
  (at level 10, x pattern, m at level 100, k at level 200) : py_scope.
Notation "m ;; k" := (bind m (fun _ => k))
  (at level 100, k at level 200, right associativity) : py_scope.
Open Scope py_scope.

(** The events a run appended to the trace it started from. *)
Definition new_events (w w' : World) : list event :=
  drop (length (trace w)) (trace w').

Definition count_event (p : event -> bool) (l : list event) : nat :=
  length (filter (fun e => p e = true) l).

Definition is_clean_up (e : event) : bool :=
  match e with EvCleanUp => true | _ => false end.

Definition is_read_state (e : event) : bool :=
  match e with EvReadState _ => true | _ => false end.

(** ** [os.path] and [tempfile] *)

(** [os.path.join(a, b)] (POSIX). *)
Definition path_join (a b : string) : string :=
  if String.prefix "/" b && negb (Py.is_empty b) then b
  else if Py.is_empty a || Py.endswith "/" a then a +:+ b
  else a +:+ "/" +:+ b.

(** [os.path.exists]. *)
Definition path_exists (p : string) (d : gmap string string) : bool :=
  bool_decide (is_Some (d !! p)).

(** The path [tempfile] gives to a variable file named [name]. *)
Definition tmp_path (w : World) (name : string) : string :=
  path_join (tempdir w) ("tmp" +:+ name +:+ ".tfvars.json").

(** Some candidate name is still free. *)
Definition tmp_available (w : World) : Prop :=
  exists name, name ∈ tmp_names w /\ disk w !! tmp_path w name = None.

(** [tempfile._mkstemp_inner]: the first candidate name whose path is
    free, with the candidates left; [None] when every candidate is taken
    ([FileExistsError]). *)
Fixpoint mkstemp_inner (dir pre suf : string) (names : list string)
    (d : gmap string string) : option (string * list string) :=
  match names with
  | [] => None
  | name :: rest =>
      let file := path_join dir (pre +:+ name +:+ suf) in
      if path_exists file d then mkstemp_inner dir pre suf rest d
      else Some (file, rest)
  end.

(** ** [class VariableFiles] *)

Module VarFiles.

(** [VariableFiles.create]: a new file with the suffix [.tfvars.json]
    is made (never removed here), remembered in [files] and filled with
    the JSON text of [variables]; its name is returned. *)
Definition create (variables : dict string) : M string :=
  fun st =>
    let w := world st in
    match mkstemp_inner (tempdir w) "tmp" ".tfvars.json" (tmp_names w) (disk w) with
    | None => (Raise FileExistsError, st)
    | Some (name, rest) =>
        let fs := files (temp_var_files (self st)) in
        (Ok name,
         mkSt (set_temp_var_files (mkVariableFiles (fs ++ [name])) (self st))
              (log (EvCreate name)
                 (set_disk (<[name := Json.dumps variables]> (disk w))
                    (set_tmp_names rest w))))
    end.

(** [os.unlink(path)]. *)
Definition unlink (path : string) : M unit :=
  fun st =>
    let w := world st in
    if path_exists path (disk w)
    then (Ok tt, mkSt (self st) (log (EvUnlink path) (set_disk (delete path (disk w)) w)))
    else (Raise (FileNotFoundError path), st).

(** [for f in self.files: os.unlink(f.name)]. *)
Fixpoint unlink_all (fs : list string) : M unit :=
  match fs with
  | [] => ret tt
  | f :: rest => unlink f ;; unlink_all rest
  end.

(** [VariableFiles.clean_up]. *)
Definition clean_up : M unit :=
  modify_world (log EvCleanUp) ;;
  let* fs := gets (fun st => files (temp_var_files (self st))) in
  unlink_all fs ;;
  modify_self (set_temp_var_files (mkVariableFiles [])).

End VarFiles.

(** ** [class Terraform] *)

Definition COMMAND_WITH_SUBCOMMANDS : gset string := {[ "workspace" ]}.

(** [CommandOutput]. *)
Definition CommandOutput : Type := option Z * option string * option string.

(** How [cmd] wires the two streams of the child. *)
Inductive stream := PIPE | NoRedirect | SysStream.

Module Tf.
Section Methods.

(** [bytes.decode()]; [None] is [UnicodeDecodeError]. *)
Variable decode : list Byte.byte -> option string.

(** [json.loads]; [None] is [JSONDecodeError]. *)
Variable json_loads : string -> option Json.

(** Modelled from the spec: [Tfstate.load_file]
    ([python_terraform/tfstate.py] is not among the sources). Given a
    path it returns the parsed state, or the empty state when the file
    does not exist; malformed JSON is an error that is passed on. *)
Definition load_file (file_path : string) : M Tfstate :=
  fun st =>
    match disk (world st) !! file_path with
    | None => (Ok TfstateEmpty, st)
    | Some text =>
        match json_loads text with
        | Some data => (Ok (TfstateLoaded file_path data), st)
        | None => (Raise JSONDecodeError, st)
        end
    end.

(** [o or ""] where [o] is text or [None]. *)
Definition or_empty (o : option string) : string :=
  match o with
  | Some s => s
  | None => ""
  end.

(** [a or b] on optional text: [a] unless it is [None] or empty. *)
Definition or_else (a b : option string) : option string :=
  match a with
  | Some s => if Py.is_empty s then b else a
  | None => b
  end.

(** The path [read_state_file] loads: lines 411 to 424 of the method,
    which only read the object and test one path for existence. *)
Definition state_path (file_path : option string) (st : St) : string :=
  let working_dir := or_empty (or_else (working_dir (self st)) (Some "")) in
  let file_path :=
    or_empty (or_else (or_else file_path (state (self st))) (Some "")) in
  let file_path :=
    if Py.is_empty file_path then
      let backend_path :=
        path_join (path_join file_path ".terraform") "terraform.tfstate" in
      if path_exists (path_join working_dir backend_path) (disk (world st))
      then backend_path
      else path_join file_path "terraform.tfstate"
    else file_path in
  path_join working_dir file_path.

(** [Terraform.read_state_file]. *)
Definition read_state_file (file_path : option string) : M unit :=
  let* file_path := gets (state_path file_path) in
  modify_world (log (EvReadState file_path)) ;;
  let* t := load_file file_path in
  modify_self (set_tfstate (Some t)).

(** [if "_" in option: option = option.replace("_", "-")]. *)
Definition normalize (option : string) : string :=
  if Py.contains "_" option then Py.replace_char "_" "-" option
  else option.

(** The body of the loop of [generate_cmd_string]: the tokens one
    option adds. *)
Definition encode_option (option : string) (value : value) : M (list string) :=
  let option := normalize option in
  match value with
  | VList l =>
      ret (map (fun sub_v => "-" +:+ option +:+ "=" +:+ str_scalar sub_v) l)
  | VDict d =>
      if Py.contains "backend-config" option then
        ret (map (fun kv => "-backend-config=" +:+ fst kv +:+ "=" +:+ snd kv) d)
      else if String.eqb option "var" then
        if truthy value then
          let* filename := VarFiles.create d in
          ret ["-var-file=" +:+ filename]
        else ret []
      else ret ["-" +:+ option +:+ "=" +:+ str_dict d]
  | VFlag IsFlagged => ret ["-" +:+ option]
  | VFlag IsNotFlagged => ret []
  | VScalar PyNone => ret []
  | VScalar (PyBool b) =>
      ret ["-" +:+ option +:+ "=" +:+ (if b then "true" else "false")]
  | VScalar x => ret ["-" +:+ option +:+ "=" +:+ str_scalar x]
  | VTuple t => ret ["-" +:+ option +:+ "=" +:+ str_tuple t]
  end.

(** [for option, value in kwargs.items(): ...]. *)
Fixpoint encode_options (kw : kwargs) : M (list string) :=
  match kw with
  | [] => ret []
  | (option, value) :: rest =>
      let* tokens := encode_option option value in
      let* more := encode_options rest in
      ret (tokens ++ more)%list
  end.

(** [Terraform.generate_cmd_string]. *)
Definition generate_cmd_string (cmd : string) (args : list string)
    (kw : kwargs) : M (list string) :=
  let* bin := gets (fun st => terraform_bin_path (self st)) in
  let cmds := bin :: Py.split cmd in
  let* ca :=
    (if bool_decide (cmd ∈ COMMAND_WITH_SUBCOMMANDS) then
       match args with
       | [] => raise IndexError
       | subcommand :: args' => ret ((cmds ++ [subcommand])%list, args')
       end
     else ret (cmds, args)) in
  let* opts := encode_options kw in
  ret (fst ca ++ opts ++ snd ca)%list.


(** The stream wiring [cmd] selects from [capture_output]. *)
Definition stream_of (capture_output : value) : stream :=
  match capture_output with
  | VScalar (PyBool true) => PIPE
  | VScalar (PyStr s) => if String.eqb s "framework" then NoRedirect else SysStream
  | _ => SysStream
  end.

Definition is_True (v : value) : bool :=
  match v with
  | VScalar (PyBool true) => true
  | _ => false
  end.

(** [subprocess.Popen(cmds, ..., cwd=working_folder, env=environ_vars)]. *)
Definition Popen (cmds : list string) (cwd : option string) (env : bool)
  : M Completed :=
  fun st =>
    let w := log (EvPopen cmds) (world st) in
    match os_popen w cmds cwd env (disk w) with
    | SpawnError e => (Raise e, mkSt (self st) w)
    | Spawned c => (Ok c, mkSt (self st) w)
    end.

(** [p.communicate()] followed by [p.returncode]: the child has run to
    its end; a stream is returned only when it was piped. *)
Definition communicate (c : Completed) (s : stream)
  : M (option (list Byte.byte) * option (list Byte.byte) * Z) :=
  modify_world (set_disk (disk_after c)) ;;
  match s with
  | PIPE => ret (Some (out_bytes c), Some (err_bytes c), returncode c)
  | _ => ret (None, None, returncode c)
  end.

(** [x.decode()] where [x] may be [None]. *)
Definition decode_stream (x : option (list Byte.byte)) : M string :=
  match x with
  | None => raise AttributeError
  | Some b =>
      match decode b with
      | Some text => ret text
      | None => raise UnicodeDecodeError
      end
  end.

(** [Terraform.cmd], its keyword-only parameters bound. With
    [synchronous] falsy the method returns while the child is running:
    what the child does to the files after that is not part of the
    call. *)
Definition cmd (cmd : string) (args : list string)
    (capture_output raise_on_error synchronous : value) (kw : kwargs)
  : M CommandOutput :=
  let std := stream_of capture_output in
  let* cmds := generate_cmd_string cmd args kw in
  let* working_folder := gets (fun st => or_else (working_dir (self st)) None) in
  let* environ_vars := gets (fun st => is_env_vars_included (self st)) in
  let* p := Popen cmds working_folder environ_vars in
  if negb (truthy synchronous) then ret (None, None, None)
  else
    let* oer := communicate p std in
    let '(out, err, ret_code) := oer in
    (if ret_code =? 0 then read_state_file None else ret tt) ;;
    VarFiles.clean_up ;;
    let* oe :=
      (if is_True capture_output then
         let* out := decode_stream out in
         let* err := decode_stream err in
         ret (Some out, Some err)
       else ret (None, None)) in
    let '(out, err) := oe in
    if (ret_code >? 0) && truthy raise_on_error then
      raise (TerraformCommandError ret_code (Py.join " " cmds) out err)
    else ret (Some ret_code, out, err).

Definition get_default (k : string) (dflt : value) (kw : kwargs) : value :=
  match Dict.get k kw with
  | Some v => v
  | None => dflt
  end.

(** A call [self.cmd(cmd, *args, **kw)]: the keywords [capture_output],
    [raise_on_error] and [synchronous] bind the parameters of that name
    (default [True]), the others are the options. [kw] stands for the
    keywords such a call can pass: with a keyword [cmd] or [self] Python
    raises [TypeError] at the call, which is outside this model. *)
Definition call_cmd (command : string) (args : list string) (kw : kwargs)
  : M CommandOutput :=
  cmd command args
    (get_default "capture_output" (VScalar (PyBool true)) kw)
    (get_default "raise_on_error" (VScalar (PyBool true)) kw)
    (get_default "synchronous" (VScalar (PyBool true)) kw)
    (Dict.remove "capture_output"
       (Dict.remove "raise_on_error" (Dict.remove "synchronous" kw))).

(** [Terraform.__getattr__]: the wrapper it returns, called with the
    positional and keyword arguments. *)
Definition getattr (item : string) (args : list string) (kw : kwargs)
  : M CommandOutput :=
  let cmd_name := if Py.endswith "_cmd" item then Py.drop_last 4 item else item in
  call_cmd cmd_name args kw.

(** [Terraform._generate_default_args]. *)
Definition _generate_default_args (dir_or_plan : option string) : list string :=
  match dir_or_plan with
  | Some d => if Py.is_empty d then [] else [d]
  | None => []
  end.

Definition opt_str (o : option string) : value :=
  match o with
  | Some s => VScalar (PyStr s)
  | None => VScalar PyNone
  end.

(** [Terraform._generate_default_options]. *)
Definition _generate_default_options (input_options : kwargs) : M kwargs :=
  let* t := gets self in
  ret (Dict.update
         [ ("state", opt_str (state t));
           ("target", targets t);
           ("var", VDict (variables t));
           ("var_file", var_file t);
           ("parallelism", opt_str (parallelism t));
           ("no_color", VFlag IsFlagged);
           ("input", VScalar (PyBool false)) ]
         input_options).

(** [Terraform.plan]. *)
Definition plan (dir_or_plan : option string) (detailed_exitcode : value)
    (kw : kwargs) : M CommandOutput :=
  let options := kw in
  let options := Dict.set "detailed_exitcode" detailed_exitcode options in
  let* options := _generate_default_options options in
  let args := _generate_default_args dir_or_plan in
  call_cmd "plan" args options.

(** A call [self.plan(dir_or_plan=d, **kw)]: a keyword
    [detailed_exitcode] binds the parameter (default [IsFlagged]). *)
Definition call_plan (dir_or_plan : option string) (kw : kwargs)
  : M CommandOutput :=
  plan dir_or_plan
    (get_default "detailed_exitcode" (VFlag IsFlagged) kw)
    (Dict.remove "detailed_exitcode" kw).

(** [Terraform.apply]. *)
Definition apply (dir_or_plan : option string) (input : value)
    (skip_plan : bool) (no_color : value) (kw : kwargs) : M CommandOutput :=
  if negb skip_plan then call_plan dir_or_plan kw
  else
    let default := kw in
    let default := Dict.set "input" input default in
    let default := Dict.set "no_color" no_color default in
    let* option_dict := _generate_default_options default in
    let args := _generate_default_args dir_or_plan in
    call_cmd "apply" args option_dict.

(** [Terraform.destroy]. *)
Definition destroy (dir_or_plan : option string) (force : value)
    (kw : kwargs) : M CommandOutput :=
  let default := Dict.set "force" force kw in
  let* options := _generate_default_options default in
  let args := _generate_default_args dir_or_plan in
  call_cmd "destroy" args options.

(** [Terraform.output]; [None] in the result is Python's [None]. *)
Definition output (args : list string) (capture_output : value)
    (kw : kwargs) : M (option Json) :=
  let kw := Dict.set "json" (VFlag IsFlagged) kw in
  match capture_output with
  | VScalar (PyBool false) =>
      raise (ValueError "capture_output is required for this method")
  | _ =>
      let* r := getattr "output_cmd" args kw in
      let '(ret_, out, _) := r in
      let nonzero := match ret_ with Some n => negb (n =? 0) | None => false end in
      if nonzero then ret None
      else
        match out with
        | None => raise AttributeError
        | Some text =>
            match json_loads (Py.lstrip text) with
            | Some j => ret (Some j)
            | None => raise JSONDecodeError
            end
        end
  end.

(** [Terraform.set_workspace]. *)
Definition set_workspace (workspace : string) (args : list string)
    (kw : kwargs) : M CommandOutput :=
  call_cmd "workspace" ("select" :: workspace :: args) kw.

(** [Terraform.create_workspace]. *)
Definition create_workspace (workspace : string) (args : list string)
    (kw : kwargs) : M CommandOutput :=
  call_cmd "workspace" ("new" :: workspace :: args) kw.

(** [Terraform.delete_workspace]. *)
Definition delete_workspace (workspace : string) (args : list string)
    (kw : kwargs) : M CommandOutput :=
  call_cmd "workspace" ("delete" :: workspace :: args) kw.

(** [Terraform.init]. *)
Definition init (dir_or_plan : option string)
    (backend_config reconfigure backend : value) (kw : kwargs)
  : M CommandOutput :=
  let options := kw in
  let options :=
    Dict.update options
      [ ("backend_config", backend_config);
        ("reconfigure", reconfigure);
        ("backend", backend) ] in
  let* options := _generate_default_options options in
  let args := _generate_default_args dir_or_plan in
  call_cmd "init" args options.

(** [Terraform.show_workspace]. *)
Definition show_workspace (kw : kwargs) : M CommandOutput :=
  call_cmd "workspace" ["show"] kw.

(** [Terraform.__exit__]. *)
Definition __exit__ : M unit := VarFiles.clean_up.

(** [Terraform.__init__]: the new object in the world [w], its state file
      read once. *)
Definition __init__ (working_dir : option string)
      (targets : option value) (state : option string)
      (variables : option (dict string)) (parallelism : option string)
      (var_file : value) (terraform_bin_path : option string)
      (is_env_vars_included : bool) (w : World) : result unit * St :=
    read_state_file state
      (mkSt (mkTerraform is_env_vars_included working_dir state
               (match targets with Some v => v | None => VList [] end)
               (match variables with Some d => d | None => [] end)
               parallelism
               (or_empty (or_else terraform_bin_path (Some "terraform")))
               var_file (mkVariableFiles []) None)
            w).

End Methods.
End Tf.


(** ** Vocabulary of the statements *)

(** A list-valued option and its tokens, one per element. *)
Definition list_tokens (option : string) (l : list scalar) : list string :=
  map (fun sub_v => "-" +:+ Tf.normalize option +:+ "=" +:+ str_scalar sub_v) l.

(** The state after some files were created: only the tracked files,
    the disk, the candidate names and the trace differ. *)
Definition after_creates (st : St) (created : list string)
    (d : gmap string string) (names : list string) : St :=
  mkSt (set_temp_var_files
          (mkVariableFiles (files (temp_var_files (self st)) ++ created))
          (self st))
       (mkWorld d (tempdir (world st)) names (os_popen (world st))
          (trace (world st) ++ map EvCreate created)).

(** The disk after the files [fs] were unlinked, first to last. *)
Definition unlinked (fs : list string) (d : gmap string string)
  : gmap string string :=
  fold_left (fun acc f => delete f acc) fs d.

(** Every tracked file is there to be unlinked, and is tracked once. *)
Definition unlinkable (fs : list string) (d : gmap string string) : Prop :=
  NoDup fs /\ forall f, f ∈ fs -> is_Some (d !! f).

(** The state after the files [gone] were unlinked, [d] being the disk
    left. *)
Definition after_unlinks (st : St) (gone : list string)
    (d : gmap string string) : St :=
  mkSt (self st)
       (mkWorld d (tempdir (world st)) (tmp_names (world st))
          (os_popen (world st)) (trace (world st) ++ map EvUnlink gone)).

(** The world after [clean_up] unlinked the files [gone]. *)
Definition after_clean_up (st : St) (gone : list string)
    (d : gmap string string) : World :=
  mkWorld d (tempdir (world st)) (tmp_names (world st)) (os_popen (world st))
    (trace (world st) ++ EvCleanUp :: map EvUnlink gone).

(** The state once the spawned child has run to its end. *)
Definition waited (st1 : St) (cmds : list string) (c : Completed) : St :=
  mkSt (self st1) (set_disk (disk_after c) (log (EvPopen cmds) (world st1))).

(** What [cmd] returns or raises once the state is reloaded and the
    files are cleaned up. *)
Definition outcome (decode : list Byte.byte -> option string)
    (capture_output raise_on_error : value) (cmds : list string)
    (c : Completed) : result CommandOutput :=
  let finish (out err : option string) : result CommandOutput :=
    if (returncode c >? 0) && truthy raise_on_error
    then Raise (TerraformCommandError (returncode c) (Py.join " " cmds) out err)
    else Ok (Some (returncode c), out, err) in
  if Tf.is_True capture_output then
    match decode (out_bytes c) with
    | None => Raise UnicodeDecodeError
    | Some out =>
        match decode (err_bytes c) with
        | None => Raise UnicodeDecodeError
        | Some err => finish (Some out) (Some err)
        end
    end
  else finish None None.

(** The child spawned for [cmds] from the state [st1]. *)
Definition spawn (st1 : St) (cmds : list string) : Spawn :=
  os_popen (world st1) cmds (Tf.or_else (working_dir (self st1)) None)
    (is_env_vars_included (self st1)) (disk (world st1)).

(** The spawn events. *)
Definition is_popen (e : event) : bool :=
  match e with EvPopen _ => true | _ => false end.

(** The defaults [_generate_default_options] starts from. *)
Definition default_options (t : Terraform) : kwargs :=
  [ ("state", Tf.opt_str (state t));
    ("target", targets t);
    ("var", VDict (variables t));
    ("var_file", var_file t);
    ("parallelism", Tf.opt_str (parallelism t));
    ("no_color", VFlag IsFlagged);
    ("input", VScalar (PyBool false)) ].

(** The files [created] are new on the disk [d0] (each path was free, no
    path is made twice), they are on the disk [d], and every other path
    holds in [d] what it held in [d0]. *)
Definition fresh_files (d0 : gmap string string) (created : list string)
    (d : gmap string string) : Prop :=
  NoDup created
  /\ (forall f, f ∈ created -> d0 !! f = None /\ is_Some (d !! f))
  /\ (forall f, f ∉ created -> d !! f = d0 !! f).

(** The command line an error of [cmd] carries: the tokens joined by
    blanks. *)
Definition command_line (cmd : string) (args : list string) (kw : kwargs)
    (st : St) : string :=
  match fst (Tf.generate_cmd_string cmd args kw st) with
  | Ok cmds => Py.join " " cmds
  | Raise _ => ""
  end.

(** The run from [st] to [st'] spawned a process with the command line
    [cmds]. *)
Definition spawned (st st' : St) (cmds : list string) : Prop :=
  EvPopen cmds ∈ new_events (world st) (world st').

(** Lines 236 to 241 of [generate_cmd_string]: the tokens that open the
    line (the binary, the words of the command and, for a command of the
    compound-command set, the first positional argument) and the
    positional arguments left for its end; [None] when a compound command
    has no argument to pop. *)
Definition cmd_frame (cmd : string) (args : list string) (bin : string)
  : option (list string * list string) :=
  if bool_decide (cmd ∈ COMMAND_WITH_SUBCOMMANDS) then
    match args with
    | [] => None
    | subcommand :: args' => Some ((bin :: Py.split cmd) ++ [subcommand], args')
    end
  else Some (bin :: Py.split cmd, args).

(** The options left of the keywords of a call of [cmd]: those that are
    not parameters of [cmd]. *)
Definition options_of (kw : kwargs) : kwargs :=
  Dict.remove "capture_output"
    (Dict.remove "raise_on_error" (Dict.remove "synchronous" kw)).

(** ** Sample objects and worlds

    Concrete inputs on which the statements below are evaluated. *)

Module Demo.

(** [bytes.decode()] for a child that writes ASCII only. *)
Definition decode_ascii (b : list Byte.byte) : option string :=
  if forallb (fun x => (Byte.to_N x <? 128)%N) b
  then Some (string_of_list_byte b) else None.

(** [json.loads] for documents that are flat objects of strings. *)
Definition loads (s : string) : option Json :=
  match Json.loads_flat s with
  | Some d => Some (JObject (map (fun kv => (fst kv, JString (snd kv))) d))
  | None => None
  end.

(** [Terraform()] with every parameter left at its default. *)
Definition tf : Terraform :=
  mkTerraform true None None (VList []) [] None "terraform" (VScalar PyNone)
    (mkVariableFiles []) (Some TfstateEmpty).

(** A child that writes [out] and [err], exits with [code] and leaves
    the files alone. *)
Definition child (code : Z) (out err : string)
  : list string -> option string -> bool -> gmap string string -> Spawn :=
  fun _ _ _ d =>
    Spawned (mkCompleted code (list_byte_of_string out)
               (list_byte_of_string err) d).

(** The binary cannot be started. *)
Definition no_binary
  : list string -> option string -> bool -> gmap string string -> Spawn :=
  fun _ _ _ _ => SpawnError (OSError "No such file or directory: 'terraform'").

Definition world_of (run : list string -> option string -> bool ->
                           gmap string string -> Spawn) : World :=
  mkWorld ∅ "/tmp" ["k3x9q2ab"; "zz81mmp0"] run [].

Definition st_of (run : list string -> option string -> bool ->
                        gmap string string -> Spawn) : St :=
  mkSt tf (world_of run).

(** The path of the first variable file made in [world_of]. *)
Definition var_path : string := "/tmp/tmpk3x9q2ab.tfvars.json".

(** An object that tracks [var_path], in a world with the files [d]. *)
Definition st_tracking (d : gmap string string)
    (run : list string -> option string -> bool ->
           gmap string string -> Spawn) : St :=
  mkSt (set_temp_var_files (mkVariableFiles [var_path]) tf)
       (mkWorld d "/tmp" ["zz81mmp0"] run []).

(** A child that exits with [code] after removing every file. *)
Definition child_wiping (code : Z)
  : list string -> option string -> bool -> gmap string string -> Spawn :=
  fun _ _ _ _ => Spawned (mkCompleted code [] [] ∅).

(** [Terraform(working_dir="infra", state="prod.tfstate",
    targets=["aws_instance.web"])]. *)
Definition tf_configured : Terraform :=
  mkTerraform true (Some "infra") (Some "prod.tfstate")
    (VList [PyStr "aws_instance.web"]) [] None "terraform" (VScalar PyNone)
    (mkVariableFiles []) (Some TfstateEmpty).

Definition st_configured (run : list string -> option string -> bool ->
                                gmap string string -> Spawn) : St :=
  mkSt tf_configured (world_of run).

(** [Terraform(targets=("a", "b"))]: the targets are a [tuple]. *)
Definition tf_tuple : Terraform :=
  mkTerraform true None None (VTuple [PyStr "a"; PyStr "b"]) [] None
    "terraform" (VScalar PyNone) (mkVariableFiles []) (Some TfstateEmpty).

Definition st_tuple (run : list string -> option string -> bool ->
                           gmap string string -> Spawn) : St :=
  mkSt tf_tuple (world_of run).

End Demo.

(** * Properties *)

(** ** Text *)

#[local] Arguments String.append !_ _ : simpl nomatch.

Lemma append_assoc (a b c : string) : (a +:+ b) +:+ c = a +:+ (b +:+ c).
Proof. induction a as [|x a IH]; simpl; [reflexivity | now rewrite IH]. Qed.

Lemma append_nil_r (a : string) : a +:+ "" = a.
Proof. induction a as [|x a IH]; simpl; [reflexivity | now rewrite IH]. Qed.

Lemma length_append (a b : string) :
  String.length (a +:+ b) = (String.length a + String.length b)%nat.
Proof. induction a as [|x a IH]; simpl; [reflexivity | now rewrite IH]. Qed.

(** ** Dictionaries *)

Lemma dict_set_fresh {V} (k : string) (v : V) (d : dict V) :
  k ∉ Dict.keys d -> Dict.set k v d = (d ++ [(k, v)])%list.
Proof.
  induction d as [|[k' v'] d IH]; simpl; intros Hk; [reflexivity|].
  apply not_elem_of_cons in Hk as [Hne Hk].
  destruct (String.eqb_spec k' k) as [->|_]; [congruence|].
  now rewrite IH.
Qed.

Lemma dict_update_wf {V} (acc d : dict V) :
  Dict.wf (acc ++ d)%list -> Dict.update acc d = (acc ++ d)%list.
Proof.
  revert acc. induction d as [|[k v] d IH]; intros acc Hwf.
  - now rewrite app_nil_r.
  - unfold Dict.update; simpl. fold (Dict.update (Dict.set k v acc) d).
    assert (Hk : k ∉ Dict.keys acc).
    { unfold Dict.wf, Dict.keys in Hwf. rewrite map_app in Hwf.
      apply NoDup_app in Hwf as (_ & Hdis & _).
      intros Hin. apply (Hdis k Hin). simpl. left. }
    rewrite (dict_set_fresh k v acc Hk).
    rewrite IH; rewrite <- app_assoc; [reflexivity | exact Hwf].
Qed.

(** ** JSON: reading back what [dumps] wrote *)

Lemma scan_escape_char (c : ascii) (rest : string) :
  Json.scan_string (Json.escape_char c +:+ rest)
  = Json.push c (Json.scan_string rest).
Proof. destruct c as [[] [] [] [] [] [] [] []]; reflexivity. Qed.

Lemma scan_escape (s rest : string) :
  Json.scan_string (Json.escape s +:+ String Py.dquote rest) = Some (s, rest).
Proof.
  induction s as [|c s IH]; simpl.
  - reflexivity.
  - rewrite append_assoc, scan_escape_char, IH. reflexivity.
Qed.

Lemma dumps_item_app (k v rest : string) :
  Json.dumps_item (k, v) +:+ rest
  = String Py.dquote
      (Json.escape k +:+ String Py.dquote
         (String ":" (String " " (String Py.dquote
            (Json.escape v +:+ String Py.dquote rest))))).
Proof.
  unfold Json.dumps_item, Json.dumps_str; simpl.
  rewrite !append_assoc; simpl. rewrite !append_assoc; simpl.
  reflexivity.
Qed.

Lemma join_items_head (kv : string * string) (d : dict string) (rest : string) :
  exists tail,
    Py.join ", " (map Json.dumps_item (kv :: d)) +:+ rest
    = String Py.dquote tail.
Proof.
  destruct kv as [k v]. destruct d as [|kv' d].
  - change (Py.join ", " (map Json.dumps_item [(k, v)]))
      with (Json.dumps_item (k, v)).
    rewrite dumps_item_app. eauto.
  - change (Py.join ", " (map Json.dumps_item ((k, v) :: kv' :: d)))
      with (Json.dumps_item (k, v) +:+ ", "
            +:+ Py.join ", " (map Json.dumps_item (kv' :: d))).
    rewrite append_assoc, dumps_item_app. eauto.
Qed.

Lemma members_step (k v : string) (acc : dict string) (fuel : nat) (X : string) :
  Json.members (S fuel) acc (Json.dumps_item (k, v) +:+ X)
  = match Json.skip_ws X with
    | String "," s6 => Json.members fuel (Dict.set k v acc) (Json.skip_ws s6)
    | String "}" s6 => Some (Dict.set k v acc, s6)
    | _ => None
    end.
Proof.
  rewrite dumps_item_app. simpl. rewrite scan_escape. simpl.
  rewrite scan_escape. reflexivity.
Qed.

Lemma members_dumps (d : dict string) :
  forall (acc : dict string) (fuel : nat) (rest : string),
    d <> [] -> (length d <= fuel)%nat ->
    Json.members fuel acc
      (Py.join ", " (map Json.dumps_item d) +:+ String "}" rest)
    = Some (Dict.update acc d, rest).
Proof.
  induction d as [|[k v] d IH]; intros acc fuel rest Hne Hfuel; [congruence|].
  destruct fuel as [|fuel]; [simpl in Hfuel; lia|].
  destruct d as [|kv' d].
  - change (Py.join ", " (map Json.dumps_item [(k, v)]))
      with (Json.dumps_item (k, v)).
    rewrite members_step. reflexivity.
  - change (Py.join ", " (map Json.dumps_item ((k, v) :: kv' :: d)))
      with (Json.dumps_item (k, v) +:+ ", "
            +:+ Py.join ", " (map Json.dumps_item (kv' :: d))).
    rewrite !append_assoc, members_step.
    destruct (join_items_head kv' d (String "}" rest)) as [tail Htail].
    specialize (IH (Dict.set k v acc) fuel rest).
    remember (Py.join ", " (map Json.dumps_item (kv' :: d)) +:+ String "}" rest)
      as T eqn:HT.
    change (", " +:+ T) with (String "," (String " " T)).
    simpl. rewrite Htail at 1. simpl. rewrite <- Htail.
    rewrite IH; [reflexivity | congruence | simpl in *; lia].
Qed.

Lemma join_items_length (d : dict string) (X : string) :
  (length d <= String.length (Py.join ", " (map Json.dumps_item d) +:+ X))%nat.
Proof.
  induction d as [|[k v] d IH]; [simpl; lia|].
  destruct d as [|kv' d].
  - change (Py.join ", " (map Json.dumps_item [(k, v)]))
      with (Json.dumps_item (k, v)).
    rewrite dumps_item_app. simpl. lia.
  - change (Py.join ", " (map Json.dumps_item ((k, v) :: kv' :: d)))
      with (Json.dumps_item (k, v) +:+ ", "
            +:+ Py.join ", " (map Json.dumps_item (kv' :: d))).
    rewrite !append_assoc, dumps_item_app.
    remember (Py.join ", " (map Json.dumps_item (kv' :: d)) +:+ X) as T.
    cbn [String.length]. rewrite length_append. cbn [String.length].
    rewrite length_append. cbn [String.length].
    change (String.length (", " +:+ T)) with (S (S (String.length T))).
    simpl length in *. lia.
Qed.

Lemma dumps_length (d : dict string) :
  (length d <= String.length (Json.dumps d))%nat.
Proof.
  unfold Json.dumps.
  change ("{" +:+ Py.join ", " (map Json.dumps_item d) +:+ "}")
    with (String "{" (Py.join ", " (map Json.dumps_item d) +:+ "}")).
  cbn [String.length]. pose proof (join_items_length d "}"). lia.
Qed.

(** Reading back a dumped variable map gives the map. *)
Lemma loads_flat_dumps (d : dict string) :
  Dict.wf d -> Json.loads_flat (Json.dumps d) = Some d.
Proof.
  intros Hwf. unfold Json.loads_flat.
  destruct d as [|kv d]; [reflexivity|].
  pose proof (dumps_length (kv :: d)) as Hlen.
  unfold Json.dumps in *.
  destruct (join_items_head kv d "}") as [tail Htail].
  pose proof (members_dumps (kv :: d) [] (String.length
     ("{" +:+ Py.join ", " (map Json.dumps_item (kv :: d)) +:+ "}")) ""
     ltac:(congruence) Hlen) as Hm.
  remember (String.length
     ("{" +:+ Py.join ", " (map Json.dumps_item (kv :: d)) +:+ "}")) as n.
  change ("{" +:+ Py.join ", " (map Json.dumps_item (kv :: d)) +:+ "}")
    with (String "{" (Py.join ", " (map Json.dumps_item (kv :: d)) +:+ "}")).
  remember (Py.join ", " (map Json.dumps_item (kv :: d)) +:+ "}") as T.
  rewrite (dict_update_wf [] (kv :: d)) in Hm by exact Hwf.
  clear HeqT Heqn. subst T. simpl. rewrite Hm. reflexivity.
Qed.

(** ** The temporary-name generator *)

Lemma mkstemp_inner_fresh (dir pre suf : string) (names : list string)
    (d : gmap string string) (file : string) (rest : list string) :
  mkstemp_inner dir pre suf names d = Some (file, rest) ->
  d !! file = None
  /\ exists name, name ∈ names /\ file = path_join dir (pre +:+ name +:+ suf).
Proof.
  induction names as [|name names IH]; simpl; [discriminate|].
  unfold path_exists. case_bool_decide as Hex.
  - intros H. destruct (IH H) as (Hf & n & Hn & Hp).
    split; [exact Hf|]. exists n. split; [now right | exact Hp].
  - intros [= <- <-]. split.
    + destruct (d !! _) eqn:E; [exfalso; apply Hex; eauto | reflexivity].
    + exists name. split; [left | reflexivity].
Qed.

Lemma mkstemp_inner_available (dir pre suf : string) (names : list string)
    (d : gmap string string) :
  (exists name, name ∈ names /\ d !! path_join dir (pre +:+ name +:+ suf) = None) ->
  exists file rest, mkstemp_inner dir pre suf names d = Some (file, rest).
Proof.
  induction names as [|name names IH]; intros (n & Hn & Hfree).
  - now apply elem_of_nil in Hn.
  - simpl. unfold path_exists. case_bool_decide as Hex; [|eauto].
    apply IH. exists n. split; [|exact Hfree].
    apply elem_of_cons in Hn as [->|Hn]; [|exact Hn].
    rewrite Hfree in Hex. now destruct Hex.
Qed.

(** ** The argument encoder, option by option *)

Lemma encode_options_app (kw1 kw2 : kwargs) (st : St) :
  Tf.encode_options (kw1 ++ kw2) st
  = match Tf.encode_options kw1 st with
    | (Ok t1, st1) =>
        match Tf.encode_options kw2 st1 with
        | (Ok t2, st2) => (Ok (t1 ++ t2)%list, st2)
        | (Raise e, st2) => (Raise e, st2)
        end
    | (Raise e, st1) => (Raise e, st1)
    end.
Proof.
  revert st. induction kw1 as [|[o v] kw1 IH]; intros st; simpl.
  - unfold ret. destruct (Tf.encode_options kw2 st) as [[t2|e] st2]; reflexivity.
  - unfold bind, ret.
    destruct (Tf.encode_option o v st) as [[t|e] st1]; [|reflexivity].
    rewrite IH.
    destruct (Tf.encode_options kw1 st1) as [[t1|e] st2]; [|reflexivity].
    destruct (Tf.encode_options kw2 st2) as [[t2|e] st3]; [|reflexivity].
    now rewrite app_assoc.
Qed.

(** The line [generate_cmd_string] returns: the opening tokens, the
    tokens of the options, the positional arguments left. *)
Lemma generate_cmd_string_frame (cmd : string) (args : list string)
    (kw : kwargs) (st : St) :
  Tf.generate_cmd_string cmd args kw st
  = match cmd_frame cmd args (terraform_bin_path (self st)) with
    | None => (Raise IndexError, st)
    | Some (h, tl) =>
        match Tf.encode_options kw st with
        | (Ok opts, st') => (Ok (h ++ opts ++ tl)%list, st')
        | (Raise e, st') => (Raise e, st')
        end
    end.
Proof.
  unfold Tf.generate_cmd_string, cmd_frame, bind, gets, ret, raise.
  destruct (bool_decide (cmd ∈ COMMAND_WITH_SUBCOMMANDS)).
  - destruct args as [|a rest]; [reflexivity|].
    destruct (Tf.encode_options kw st) as [[opts|e] st']; reflexivity.
  - destruct (Tf.encode_options kw st) as [[opts|e] st']; reflexivity.
Qed.

(** One option of the mapping and the line: its tokens stand between
    those of the options before it and those of the options after it. *)
Lemma generate_cmd_string_splice (cmd : string) (args : list string)
    (kw1 kw2 : kwargs) (option : string) (v : value) (st sa sb sc : St)
    (h tl t1 t t2 : list string) :
  cmd_frame cmd args (terraform_bin_path (self st)) = Some (h, tl) ->
  Tf.encode_options kw1 st = (Ok t1, sa) ->
  Tf.encode_option option v sa = (Ok t, sb) ->
  Tf.encode_options kw2 sb = (Ok t2, sc) ->
  Tf.generate_cmd_string cmd args (kw1 ++ (option, v) :: kw2) st
  = (Ok (h ++ t1 ++ t ++ t2 ++ tl)%list, sc).
Proof.
  intros Hframe H1 Ho H2.
  rewrite generate_cmd_string_frame, Hframe, encode_options_app, H1.
  simpl. unfold bind, ret. rewrite Ho, H2.
  now rewrite <- !app_assoc.
Qed.

(** C6, as the code has it: an option of the mapping whose value is a
    [list] puts one token [-name=element] per element on the command
    line, in the order of the list, between the tokens of the options
    before it and those of the options after it, and no token when the
    list is empty. A sequence that is no [list] is not taken apart: a
    [tuple] puts the single token [-name=<str of the tuple>] there. *)
Theorem sequence_option_tokens (cmd : string) (args : list string)
    (kw1 kw2 : kwargs) (option : string) (l : list scalar) (st sa sb : St)
    (h tl t1 t2 : list string) :
  cmd_frame cmd args (terraform_bin_path (self st)) = Some (h, tl) ->
  Tf.encode_options kw1 st = (Ok t1, sa) ->
  Tf.encode_options kw2 sa = (Ok t2, sb) ->
  Tf.generate_cmd_string cmd args (kw1 ++ (option, VList l) :: kw2) st
  = (Ok (h ++ t1 ++ list_tokens option l ++ t2 ++ tl)%list, sb)
  /\ length (list_tokens option l) = length l
  /\ (forall i x, l !! i = Some x ->
        list_tokens option l !! i
        = Some ("-" +:+ Tf.normalize option +:+ "=" +:+ str_scalar x))
  /\ Tf.generate_cmd_string cmd args (kw1 ++ (option, VList []) :: kw2) st
     = (Ok (h ++ t1 ++ t2 ++ tl)%list, sb)
  /\ Tf.generate_cmd_string cmd args (kw1 ++ (option, VTuple l) :: kw2) st
     = (Ok (h ++ t1
            ++ ["-" +:+ Tf.normalize option +:+ "=" +:+ str_tuple l]
            ++ t2 ++ tl)%list, sb).
Proof.
  intros Hframe H1 H2.
  split; [|split; [|split; [|split]]].
  - now apply (generate_cmd_string_splice _ _ _ _ _ _ _ _ sa _ _ _ _ _ _
                 Hframe H1).
  - unfold list_tokens. now rewrite length_map.
  - intros i x Hi. unfold list_tokens. now rewrite list_lookup_fmap, Hi.
  - now apply (generate_cmd_string_splice _ _ _ _ _ _ _ _ sa _ _ _ _ [] _
                 Hframe H1).
  - now apply (generate_cmd_string_splice _ _ _ _ _ _ _ _ sa _ _ _ _ _ _
                 Hframe H1).
Qed.

Lemma sequence_option_tokens_witness :
  Tf.generate_cmd_string "plan" ["infra"]
    ([("no_color", VFlag IsFlagged)]
       ++ ("target", VList [PyStr "a"; PyStr "b"])
       :: [("input", VScalar (PyBool false))])
    (Demo.st_of (Demo.child 0 "" ""))
  = (Ok (["terraform"; "plan"] ++ ["-no-color"] ++ ["-target=a"; "-target=b"]
         ++ ["-input=false"] ++ ["infra"]),
     Demo.st_of (Demo.child 0 "" ""))
  /\ list_tokens "target" [PyStr "a"; PyStr "b"] !! 1%nat = Some "-target=b".
Proof.
  destruct (sequence_option_tokens "plan" ["infra"]
              [("no_color", VFlag IsFlagged)] [("input", VScalar (PyBool false))]
              "target" [PyStr "a"; PyStr "b"]
              (Demo.st_of (Demo.child 0 "" "")) (Demo.st_of (Demo.child 0 "" ""))
              (Demo.st_of (Demo.child 0 "" ""))
              ["terraform"; "plan"] ["infra"] ["-no-color"] ["-input=false"]
              eq_refl eq_refl eq_refl) as (Hline & _ & Hnth & _).
  split; [exact Hline|].
  exact (Hnth 1%nat (PyStr "b") eq_refl).
Defined.

(** C6 as stated fails: a sequence that is no [list] is one token. The
    two targets of a [tuple] give [-target=('a', 'b')], not [-target=a]
    and [-target=b], and the empty [tuple] gives the token
    [-target=()]. *)
Lemma tuple_option_is_one_token :
  Tf.generate_cmd_string "plan" []
    [("target", VTuple [PyStr "a"; PyStr "b"])] (Demo.st_of (Demo.child 0 "" ""))
  = (Ok ["terraform"; "plan"; "-target=('a', 'b')"],
     Demo.st_of (Demo.child 0 "" ""))
  /\ Tf.generate_cmd_string "plan" []
       [("target", VTuple [])] (Demo.st_of (Demo.child 0 "" ""))
     = (Ok ["terraform"; "plan"; "-target=()"], Demo.st_of (Demo.child 0 "" "")).
Proof. split; reflexivity. Qed.

(** C7: an option of the mapping whose value is [Flagged] puts the bare
    token [-name] on the command line, between the tokens of the options
    before it and those of the options after it; an absent value ([None])
    or [NotFlagged] puts nothing there; a boolean puts [-name=true] or
    [-name=false] there. *)
Theorem flag_none_bool_tokens (cmd : string) (args : list string)
    (kw1 kw2 : kwargs) (option : string) (st sa sb : St)
    (h tl t1 t2 : list string) :
  cmd_frame cmd args (terraform_bin_path (self st)) = Some (h, tl) ->
  Tf.encode_options kw1 st = (Ok t1, sa) ->
  Tf.encode_options kw2 sa = (Ok t2, sb) ->
  let line value :=
    Tf.generate_cmd_string cmd args (kw1 ++ (option, value) :: kw2) st in
  line (VFlag IsFlagged)
  = (Ok (h ++ t1 ++ ["-" +:+ Tf.normalize option] ++ t2 ++ tl)%list, sb)
  /\ line (VScalar PyNone) = (Ok (h ++ t1 ++ t2 ++ tl)%list, sb)
  /\ line (VFlag IsNotFlagged) = (Ok (h ++ t1 ++ t2 ++ tl)%list, sb)
  /\ line (VScalar (PyBool true))
     = (Ok (h ++ t1 ++ ["-" +:+ Tf.normalize option +:+ "=true"] ++ t2 ++ tl)%list,
        sb)
  /\ line (VScalar (PyBool false))
     = (Ok (h ++ t1 ++ ["-" +:+ Tf.normalize option +:+ "=false"] ++ t2 ++ tl)%list,
        sb).
Proof.
  intros Hframe H1 H2 line. subst line.
  split; [|split; [|split; [|split]]].
  - now apply (generate_cmd_string_splice _ _ _ _ _ _ _ _ sa _ _ _ _ _ _
                 Hframe H1).
  - now apply (generate_cmd_string_splice _ _ _ _ _ _ _ _ sa _ _ _ _ [] _
                 Hframe H1).
  - now apply (generate_cmd_string_splice _ _ _ _ _ _ _ _ sa _ _ _ _ [] _
                 Hframe H1).
  - now apply (generate_cmd_string_splice _ _ _ _ _ _ _ _ sa _ _ _ _ _ _
                 Hframe H1).
  - now apply (generate_cmd_string_splice _ _ _ _ _ _ _ _ sa _ _ _ _ _ _
                 Hframe H1).
Qed.

Lemma flag_none_bool_tokens_witness :
  let line value :=
    Tf.generate_cmd_string "workspace" ["new"; "staging"]
      ([("target", VList [PyStr "a"])] ++ ("lock_state", value)
         :: [("input", VScalar (PyBool false))])
      (Demo.st_of (Demo.child 0 "" "")) in
  line (VFlag IsFlagged)
  = (Ok ["terraform"; "workspace"; "new"; "-target=a"; "-lock-state";
         "-input=false"; "staging"], Demo.st_of (Demo.child 0 "" ""))
  /\ line (VScalar PyNone)
     = (Ok ["terraform"; "workspace"; "new"; "-target=a"; "-input=false";
            "staging"], Demo.st_of (Demo.child 0 "" ""))
  /\ line (VFlag IsNotFlagged)
     = (Ok ["terraform"; "workspace"; "new"; "-target=a"; "-input=false";
            "staging"], Demo.st_of (Demo.child 0 "" ""))
  /\ line (VScalar (PyBool true))
     = (Ok ["terraform"; "workspace"; "new"; "-target=a"; "-lock-state=true";
            "-input=false"; "staging"], Demo.st_of (Demo.child 0 "" ""))
  /\ line (VScalar (PyBool false))
     = (Ok ["terraform"; "workspace"; "new"; "-target=a"; "-lock-state=false";
            "-input=false"; "staging"], Demo.st_of (Demo.child 0 "" "")).
Proof.
  exact (flag_none_bool_tokens "workspace" ["new"; "staging"]
           [("target", VList [PyStr "a"])] [("input", VScalar (PyBool false))]
           "lock_state"
           (Demo.st_of (Demo.child 0 "" "")) (Demo.st_of (Demo.child 0 "" ""))
           (Demo.st_of (Demo.child 0 "" ""))
           ["terraform"; "workspace"; "new"] ["staging"]
           ["-target=a"] ["-input=false"] eq_refl eq_refl eq_refl).
Defined.

(** C5: for a command of the compound-command set and a non-empty
    list of positional arguments, the first argument comes right after
    the command tokens, and the other arguments come, in order, after the
    tokens of the options. *)
Theorem compound_command_splice (cmd a : string) (rest : list string)
    (kw : kwargs) (st st' : St) (opts : list string) :
  cmd ∈ COMMAND_WITH_SUBCOMMANDS ->
  Tf.encode_options kw st = (Ok opts, st') ->
  Tf.generate_cmd_string cmd (a :: rest) kw st
  = (Ok ([terraform_bin_path (self st); cmd] ++ [a] ++ opts ++ rest)%list, st')
  /\ Py.split cmd = [cmd].
Proof.
  intros Hin Hopts.
  unfold Tf.generate_cmd_string, bind, gets. simpl.
  rewrite bool_decide_eq_true_2 by exact Hin.
  apply elem_of_singleton in Hin. subst cmd.
  unfold ret. rewrite Hopts. simpl. split; reflexivity.
Qed.

Lemma compound_command_splice_witness :
  Tf.generate_cmd_string "workspace" ["select"; "staging"]
    [("no_color", VFlag IsFlagged)] (Demo.st_of (Demo.child 0 "" ""))
  = (Ok ["terraform"; "workspace"; "select"; "-no-color"; "staging"],
     Demo.st_of (Demo.child 0 "" ""))
  /\ Py.split "workspace" = ["workspace"].
Proof.
  apply (compound_command_splice "workspace" "select" ["staging"]
           [("no_color", VFlag IsFlagged)] (Demo.st_of (Demo.child 0 "" ""))
           (Demo.st_of (Demo.child 0 "" "")) ["-no-color"]).
  - apply elem_of_singleton. reflexivity.
  - reflexivity.
Defined.

(** ** Variable maps *)

Lemma create_available (variables : dict string) (st : St) :
  tmp_available (world st) ->
  exists path rest,
    mkstemp_inner (tempdir (world st)) "tmp" ".tfvars.json"
      (tmp_names (world st)) (disk (world st)) = Some (path, rest)
    /\ disk (world st) !! path = None
    /\ VarFiles.create variables st
       = (Ok path,
          mkSt (set_temp_var_files
                  (mkVariableFiles (files (temp_var_files (self st)) ++ [path]))
                  (self st))
               (log (EvCreate path)
                  (set_disk (<[path := Json.dumps variables]> (disk (world st)))
                     (set_tmp_names rest (world st))))).
Proof.
  intros Hav.
  destruct (mkstemp_inner_available (tempdir (world st)) "tmp" ".tfvars.json"
              (tmp_names (world st)) (disk (world st)) Hav) as (path & rest & Hmk).
  exists path, rest. split; [exact Hmk|]. split.
  - apply (mkstemp_inner_fresh _ _ _ _ _ _ _ Hmk).
  - unfold VarFiles.create. now rewrite Hmk.
Qed.

(** C4: for the option [var] of the mapping holding a map. An empty map
    puts no token on the command line and makes no file: the options
    after it are encoded from the state the options before it left. A
    non-empty map makes exactly one new file, at a path which did not
    exist before, is now tracked, and whose content parsed as JSON is
    the map, and puts exactly the token [-var-file=<path>] on the line,
    between the tokens of the options before it and those of the options
    after it. *)
Theorem var_map_one_file (cmd : string) (args : list string)
    (kw1 kw2 : kwargs) (d : dict string) (st sa : St)
    (h tl t1 : list string) :
  cmd_frame cmd args (terraform_bin_path (self st)) = Some (h, tl) ->
  Tf.encode_options kw1 st = (Ok t1, sa) ->
  (forall t2 sb,
     Tf.encode_options kw2 sa = (Ok t2, sb) ->
     Tf.generate_cmd_string cmd args (kw1 ++ ("var", VDict []) :: kw2) st
     = (Ok (h ++ t1 ++ t2 ++ tl)%list, sb))
  /\ (d <> [] -> Dict.wf d -> tmp_available (world sa) ->
      exists path sc content,
        disk (world sa) !! path = None
        /\ disk (world sc) = <[path := content]> (disk (world sa))
        /\ files (temp_var_files (self sc))
           = files (temp_var_files (self sa)) ++ [path]
        /\ new_events (world sa) (world sc) = [EvCreate path]
        /\ Json.loads_flat content = Some d
        /\ forall t2 sb,
             Tf.encode_options kw2 sc = (Ok t2, sb) ->
             Tf.generate_cmd_string cmd args (kw1 ++ ("var", VDict d) :: kw2) st
             = (Ok (h ++ t1 ++ ["-var-file=" +:+ path] ++ t2 ++ tl)%list, sb)).
Proof.
  intros Hframe H1. split.
  - intros t2 sb H2.
    now apply (generate_cmd_string_splice _ _ _ _ _ _ _ _ sa _ _ _ _ [] _
                 Hframe H1).
  - intros Hne Hwf Hav.
    destruct (create_available d sa Hav) as (path & rest & _ & Hfresh & Hcreate).
    assert (Hopt : Tf.encode_option "var" (VDict d) sa
                   = (Ok ["-var-file=" +:+ path],
                      snd (VarFiles.create d sa))).
    { destruct d as [|kv d]; [congruence|].
      change (Tf.encode_option "var" (VDict (kv :: d)) sa)
        with (bind (VarFiles.create (kv :: d))
                (fun filename => ret ["-var-file=" +:+ filename]) sa).
      unfold bind. rewrite Hcreate. reflexivity. }
    exists path, (snd (VarFiles.create d sa)), (Json.dumps d).
    rewrite Hcreate in *. simpl.
    split; [exact Hfresh|]. split; [reflexivity|]. split; [reflexivity|].
    split; [unfold new_events; simpl; apply drop_app_length|].
    split; [apply loads_flat_dumps, Hwf|].
    intros t2 sb H2.
    exact (generate_cmd_string_splice _ _ _ _ _ _ _ _ _ _ _ _ _ _ _
             Hframe H1 Hopt H2).
Qed.

Lemma var_map_one_file_witness :
  Tf.generate_cmd_string "apply" ["infra"]
    ([("no_color", VFlag IsFlagged)] ++ ("var", VDict [])
       :: [("input", VScalar (PyBool false))])
    (Demo.st_of (Demo.child 0 "" ""))
  = (Ok (["terraform"; "apply"] ++ ["-no-color"] ++ ["-input=false"]
         ++ ["infra"]),
     Demo.st_of (Demo.child 0 "" ""))
  /\ exists path sc content,
       disk (world (Demo.st_of (Demo.child 0 "" ""))) !! path = None
       /\ disk (world sc)
          = <[path := content]> (disk (world (Demo.st_of (Demo.child 0 "" ""))))
       /\ files (temp_var_files (self sc))
          = files (temp_var_files (self (Demo.st_of (Demo.child 0 "" "")))) ++ [path]
       /\ new_events (world (Demo.st_of (Demo.child 0 "" ""))) (world sc)
          = [EvCreate path]
       /\ Json.loads_flat content = Some [("a", "b")]
       /\ Tf.generate_cmd_string "apply" ["infra"]
            ([("no_color", VFlag IsFlagged)] ++ ("var", VDict [("a", "b")])
               :: [("input", VScalar (PyBool false))])
            (Demo.st_of (Demo.child 0 "" ""))
          = (Ok (["terraform"; "apply"] ++ ["-no-color"]
                 ++ ["-var-file=" +:+ path] ++ ["-input=false"] ++ ["infra"]),
             sc).
Proof.
  destruct (var_map_one_file "apply" ["infra"]
              [("no_color", VFlag IsFlagged)]
              [("input", VScalar (PyBool false))] [("a", "b")]
              (Demo.st_of (Demo.child 0 "" ""))
              (Demo.st_of (Demo.child 0 "" ""))
              ["terraform"; "apply"] ["infra"] ["-no-color"]
              eq_refl eq_refl) as [Hempty Hfull].
  split.
  - exact (Hempty ["-input=false"] (Demo.st_of (Demo.child 0 "" "")) eq_refl).
  - destruct Hfull
      as (path & sc & content & Hfree & Hdisk & Hfiles & Hev & Hload & Hline).
    + discriminate.
    + unfold Dict.wf. simpl. apply NoDup_cons.
      split; [apply not_elem_of_nil | apply NoDup_nil_2].
    + exists "k3x9q2ab". split; [left | reflexivity].
    + exists path, sc, content. repeat split; try assumption.
      exact (Hline ["-input=false"] sc eq_refl).
Defined.

(** ** What each step does to the object and to the world *)

Lemma after_creates_nil (st : St) :
  after_creates st [] (disk (world st)) (tmp_names (world st)) = st.
Proof.
  destruct st as [[? ? ? ? ? ? ? ? [fs] ?] [? ? ? ? tr]].
  unfold after_creates, set_temp_var_files; simpl.
  now rewrite !app_nil_r.
Qed.

Lemma after_creates_twice (st : St) (c1 c2 : list string)
    (d1 d2 : gmap string string) (n1 n2 : list string) :
  after_creates (after_creates st c1 d1 n1) c2 d2 n2
  = after_creates st (c1 ++ c2) d2 n2.
Proof.
  unfold after_creates, set_temp_var_files; simpl.
  now rewrite map_app, !app_assoc.
Qed.

Lemma create_effect (variables : dict string) (st : St) :
  exists created d names,
    snd (VarFiles.create variables st) = after_creates st created d names.
Proof.
  unfold VarFiles.create.
  destruct (mkstemp_inner _ _ _ _ _) as [[name rest]|]; simpl.
  - exists [name]. eexists. eexists. reflexivity.
  - exists []. eexists. eexists. symmetry. apply after_creates_nil.
Qed.

Lemma encode_option_effect (option : string) (v : value) (st : St) :
  exists created d names,
    snd (Tf.encode_option option v st) = after_creates st created d names.
Proof.
  assert (Hid : exists created d names, st = after_creates st created d names).
  { exists []. eexists. eexists. symmetry. apply after_creates_nil. }
  unfold Tf.encode_option.
  destruct v as [[|]|[|b|n|s]|l|tu|d]; try exact Hid.
  destruct (Py.contains "backend-config" (Tf.normalize option)); [exact Hid|].
  destruct (String.eqb (Tf.normalize option) "var"); [|exact Hid].
  destruct (truthy (VDict d)); [|exact Hid].
  unfold bind, ret.
  destruct (create_effect d st) as (created & d' & names & Hc).
  destruct (VarFiles.create d st) as [[name|e] st1]; simpl in *; eauto.
Qed.

Lemma encode_options_effect (kw : kwargs) (st : St) :
  exists created d names,
    snd (Tf.encode_options kw st) = after_creates st created d names.
Proof.
  revert st. induction kw as [|[o v] kw IH]; intros st; simpl.
  - exists []. eexists. eexists. symmetry. apply after_creates_nil.
  - unfold bind, ret.
    destruct (encode_option_effect o v st) as (c1 & d1 & n1 & H1).
    destruct (Tf.encode_option o v st) as [[t|e] st1]; simpl in *; [|eauto].
    destruct (IH st1) as (c2 & d2 & n2 & H2).
    destruct (Tf.encode_options kw st1) as [[t2|e] st2]; simpl in *;
      subst; rewrite after_creates_twice; eauto.
Qed.

Lemma generate_cmd_string_effect (cmd : string) (args : list string)
    (kw : kwargs) (st : St) :
  exists created d names,
    snd (Tf.generate_cmd_string cmd args kw st) = after_creates st created d names.
Proof.
  assert (Hid : exists created d names, st = after_creates st created d names).
  { exists []. eexists. eexists. symmetry. apply after_creates_nil. }
  unfold Tf.generate_cmd_string, bind, gets, ret, raise.
  destruct (bool_decide (cmd ∈ COMMAND_WITH_SUBCOMMANDS)).
  - destruct args as [|a rest]; [exact Hid|].
    destruct (encode_options_effect kw st) as (c & d & n & H).
    destruct (Tf.encode_options kw st) as [[t|e] st1]; simpl in *; eauto.
  - destruct (encode_options_effect kw st) as (c & d & n & H).
    destruct (Tf.encode_options kw st) as [[t|e] st1]; simpl in *; eauto.
Qed.

(** The command line starts with the binary and the words of the
    command. *)
Lemma generate_cmd_string_head (cmd : string) (args : list string)
    (kw : kwargs) (st st1 : St) (cmds : list string) :
  Tf.generate_cmd_string cmd args kw st = (Ok cmds, st1) ->
  exists tail, cmds = terraform_bin_path (self st) :: Py.split cmd ++ tail.
Proof.
  unfold Tf.generate_cmd_string, bind, gets, ret, raise.
  destruct (bool_decide (cmd ∈ COMMAND_WITH_SUBCOMMANDS)).
  - destruct args as [|a rest]; [discriminate|].
    destruct (Tf.encode_options kw st) as [[t|e] st2]; [|discriminate].
    simpl. intros [= <- <-]. rewrite <- app_assoc. eauto.
  - destruct (Tf.encode_options kw st) as [[t|e] st2]; [|discriminate].
    simpl. intros [= <- <-]. eauto.
Qed.

Lemma unlinked_lookup_notin (fs : list string) (d : gmap string string) (f : string) :
  f ∉ fs -> unlinked fs d !! f = d !! f.
Proof.
  revert d. induction fs as [|g fs IH]; intros d Hf; [reflexivity|].
  apply not_elem_of_cons in Hf as [Hne Hf]. simpl.
  rewrite (IH _ Hf). now apply lookup_delete_ne.
Qed.

Lemma unlinked_lookup_in (fs : list string) (d : gmap string string) (f : string) :
  f ∈ fs -> unlinked fs d !! f = None.
Proof.
  revert d. induction fs as [|g fs IH]; intros d Hf.
  - now apply elem_of_nil in Hf.
  - simpl. destruct (decide (f ∈ fs)) as [Hin|Hnin]; [now apply IH|].
    apply elem_of_cons in Hf as [->|Hf]; [|contradiction].
    rewrite (unlinked_lookup_notin _ _ _ Hnin). apply lookup_delete_eq.
Qed.

Lemma unlink_all_effect (fs : list string) (st : St) :
  exists gone d,
    snd (VarFiles.unlink_all fs st) = after_unlinks st gone d
    /\ (fst (VarFiles.unlink_all fs st) = Ok tt
        \/ exists f, f ∈ fs
             /\ fst (VarFiles.unlink_all fs st) = Raise (FileNotFoundError f)).
Proof.
  revert st. induction fs as [|f fs IH]; intros st; simpl.
  - exists [], (disk (world st)). split; [|now left].
    destruct st as [t [? ? ? ? tr]]. unfold after_unlinks; simpl.
    now rewrite app_nil_r.
  - unfold bind, VarFiles.unlink.
    destruct (path_exists f (disk (world st))).
    + destruct (IH (mkSt (self st)
                      (log (EvUnlink f)
                         (set_disk (delete f (disk (world st))) (world st)))))
        as (gone & d & Hs & Hr).
      exists (f :: gone), d. split.
      * rewrite Hs. unfold after_unlinks; simpl. now rewrite <- app_assoc.
      * destruct Hr as [Hr|(g & Hg & Hr)]; [now left|].
        right. exists g. split; [now right | exact Hr].
    + exists [], (disk (world st)). split.
      * destruct st as [t [? ? ? ? tr]]. unfold after_unlinks; simpl.
        now rewrite app_nil_r.
      * right. exists f. split; [left | reflexivity].
Qed.

Lemma unlink_all_ok (fs : list string) (st : St) :
  unlinkable fs (disk (world st)) ->
  VarFiles.unlink_all fs st
  = (Ok tt, after_unlinks st fs (unlinked fs (disk (world st)))).
Proof.
  revert st. induction fs as [|f fs IH]; intros st [Hnd Hex]; simpl.
  - destruct st as [t [? ? ? ? tr]]. unfold ret, after_unlinks; simpl.
    now rewrite app_nil_r.
  - unfold bind, VarFiles.unlink, path_exists.
    rewrite bool_decide_eq_true_2 by (apply Hex; left).
    apply NoDup_cons in Hnd as [Hf Hnd].
    rewrite IH.
    + unfold after_unlinks; simpl. now rewrite <- app_assoc.
    + split; [exact Hnd|]. intros g Hg. simpl.
      rewrite lookup_delete_ne by (intros ->; contradiction).
      apply Hex. now right.
Qed.

Lemma unlink_all_missing (fs : list string) (st : St) (f : string) :
  f ∈ fs -> disk (world st) !! f = None ->
  exists g, g ∈ fs /\ fst (VarFiles.unlink_all fs st) = Raise (FileNotFoundError g).
Proof.
  revert st. induction fs as [|h fs IH]; intros st Hf Hmiss.
  - now apply elem_of_nil in Hf.
  - simpl. unfold bind, VarFiles.unlink, path_exists.
    case_bool_decide as Hex.
    + assert (Hfs : f ∈ fs).
      { apply elem_of_cons in Hf as [->|Hf]; [|exact Hf].
        rewrite Hmiss in Hex. now destruct Hex. }
      destruct (IH (mkSt (self st)
                      (log (EvUnlink h)
                         (set_disk (delete h (disk (world st))) (world st))))
                  Hfs) as (g & Hg & Hr).
      { simpl. destruct (decide (h = f)) as [->|Hne];
          [apply lookup_delete_eq | now rewrite lookup_delete_ne]. }
      exists g. split; [now right | exact Hr].
    + exists h. split; [left | reflexivity].
Qed.

Lemma clean_up_ok (st : St) :
  unlinkable (files (temp_var_files (self st))) (disk (world st)) ->
  VarFiles.clean_up st
  = (Ok tt,
     mkSt (set_temp_var_files (mkVariableFiles []) (self st))
          (after_clean_up st (files (temp_var_files (self st)))
             (unlinked (files (temp_var_files (self st))) (disk (world st))))).
Proof.
  intros Hun. unfold VarFiles.clean_up, bind, modify_world, gets, modify_self.
  simpl. rewrite unlink_all_ok by exact Hun.
  unfold after_unlinks, after_clean_up; simpl. now rewrite <- app_assoc.
Qed.

Lemma clean_up_effect (st : St) :
  exists gone d,
    world (snd (VarFiles.clean_up st)) = after_clean_up st gone d
    /\ ((fst (VarFiles.clean_up st) = Ok tt
         /\ self (snd (VarFiles.clean_up st))
            = set_temp_var_files (mkVariableFiles []) (self st))
        \/ (exists f, f ∈ files (temp_var_files (self st))
              /\ fst (VarFiles.clean_up st) = Raise (FileNotFoundError f))
           /\ self (snd (VarFiles.clean_up st)) = self st).
Proof.
  unfold VarFiles.clean_up, bind, modify_world, gets, modify_self. simpl.
  destruct (unlink_all_effect (files (temp_var_files (self st)))
              (mkSt (self st) (log EvCleanUp (world st))))
    as (gone & d & Hs & Hr).
  exists gone, d.
  destruct (VarFiles.unlink_all _ _) as [[[]|e] st1]; simpl in *; subst st1.
  - split; [|now left].
    unfold after_unlinks, after_clean_up; simpl. now rewrite <- app_assoc.
  - split.
    + unfold after_unlinks, after_clean_up; simpl. now rewrite <- app_assoc.
    + right. destruct Hr as [Hr|(f & Hf & Hr)]; [discriminate|].
      split; [|reflexivity]. exists f. split; [exact Hf | exact Hr].
Qed.

Lemma clean_up_missing (st : St) (f : string) :
  f ∈ files (temp_var_files (self st)) -> disk (world st) !! f = None ->
  exists g, g ∈ files (temp_var_files (self st))
    /\ fst (VarFiles.clean_up st) = Raise (FileNotFoundError g)
    /\ self (snd (VarFiles.clean_up st)) = self st.
Proof.
  intros Hf Hmiss.
  destruct (unlink_all_missing (files (temp_var_files (self st)))
              (mkSt (self st) (log EvCleanUp (world st))) f Hf Hmiss)
    as (g & Hg & Hr).
  destruct (unlink_all_effect (files (temp_var_files (self st)))
              (mkSt (self st) (log EvCleanUp (world st))))
    as (gone & d & Hs & _).
  exists g. split; [exact Hg|].
  unfold VarFiles.clean_up, bind, modify_world, gets, modify_self. simpl.
  destruct (VarFiles.unlink_all _ _) as [[[]|e] st1]; simpl in *;
    [discriminate|].
  split; [exact Hr|]. now subst st1.
Qed.

(** C9, as the code has it: when every tracked file is still on disk (in
    particular when none is tracked) [clean_up] removes them all, empties
    the list, leaves the other files alone and does not raise, and a second
    [clean_up] right after changes neither the disk nor the object; when a
    tracked file is no longer on disk, [clean_up] raises
    [FileNotFoundError] and the list stays as it was. *)
Theorem clean_up_removes_existing_files (st : St) :
  (unlinkable (files (temp_var_files (self st))) (disk (world st)) ->
   exists st1 st2,
     VarFiles.clean_up st = (Ok tt, st1)
     /\ files (temp_var_files (self st1)) = []
     /\ (forall f, f ∈ files (temp_var_files (self st)) ->
           disk (world st1) !! f = None)
     /\ (forall f, f ∉ files (temp_var_files (self st)) ->
           disk (world st1) !! f = disk (world st) !! f)
     /\ VarFiles.clean_up st1 = (Ok tt, st2)
     /\ self st2 = self st1 /\ disk (world st2) = disk (world st1))
  /\ (forall f, f ∈ files (temp_var_files (self st)) ->
        disk (world st) !! f = None ->
        exists g, g ∈ files (temp_var_files (self st))
          /\ fst (VarFiles.clean_up st) = Raise (FileNotFoundError g)
          /\ files (temp_var_files (self (snd (VarFiles.clean_up st))))
             = files (temp_var_files (self st))).
Proof.
  split.
  - intros Hun. eexists. eexists.
    split; [apply clean_up_ok, Hun|].
    split; [reflexivity|].
    split; [intros f Hf; simpl; now apply unlinked_lookup_in|].
    split; [intros f Hf; simpl; now apply unlinked_lookup_notin|].
    split; [|split].
    + rewrite clean_up_ok; [reflexivity|].
      split; [apply NoDup_nil_2 | intros f Hf; now apply elem_of_nil in Hf].
    + reflexivity.
    + reflexivity.
  - intros f Hf Hmiss.
    destruct (clean_up_missing st f Hf Hmiss) as (g & Hg & Hr & Hs).
    exists g. now rewrite Hs.
Qed.

Lemma clean_up_removes_existing_files_witness :
  (exists st1 st2,
     VarFiles.clean_up
       (Demo.st_tracking {[ Demo.var_path := "{}" ]} (Demo.child 0 "" ""))
     = (Ok tt, st1)
     /\ files (temp_var_files (self st1)) = []
     /\ (forall f, f ∈ [Demo.var_path] -> disk (world st1) !! f = None)
     /\ (forall f, f ∉ [Demo.var_path] ->
           disk (world st1) !! f
           = ({[ Demo.var_path := "{}" ]} : gmap string string) !! f)
     /\ VarFiles.clean_up st1 = (Ok tt, st2)
     /\ self st2 = self st1 /\ disk (world st2) = disk (world st1))
  /\ (exists g, g ∈ [Demo.var_path]
        /\ fst (VarFiles.clean_up (Demo.st_tracking ∅ (Demo.child 0 "" "")))
           = Raise (FileNotFoundError g)
        /\ files (temp_var_files (self (snd (VarFiles.clean_up
                    (Demo.st_tracking ∅ (Demo.child 0 "" ""))))))
           = [Demo.var_path]).
Proof.
  split.
  - refine (proj1 (clean_up_removes_existing_files
             (Demo.st_tracking {[ Demo.var_path := "{}" ]} (Demo.child 0 "" ""))) _).
    split.
    + apply NoDup_cons. split; [apply not_elem_of_nil | apply NoDup_nil_2].
    + intros f Hf. apply list_elem_of_singleton in Hf. subst f.
      exists "{}". reflexivity.
  - refine (proj2 (clean_up_removes_existing_files
             (Demo.st_tracking ∅ (Demo.child 0 "" ""))) Demo.var_path _ _).
    + left.
    + reflexivity.
Defined.

(** C9 as stated fails: with a tracked file already removed from disk,
    [clean_up] raises, and inside [cmd] that exception replaces the
    outcome of a child that exited with code 0. *)
Lemma clean_up_raises_on_removed_file :
  (fst (VarFiles.clean_up (Demo.st_tracking ∅ (Demo.child 0 "" "")))
   = Raise (FileNotFoundError Demo.var_path))
  /\ fst (Tf.cmd Demo.decode_ascii Demo.loads "apply" []
            (VScalar (PyBool true)) (VScalar (PyBool true))
            (VScalar (PyBool true)) [("var", VDict [("a", "b")])]
            (Demo.st_of (Demo.child_wiping 0)))
     = Raise (FileNotFoundError Demo.var_path).
Proof. split; reflexivity. Qed.

(** ** Counting events *)

Lemma count_event_app (p : event -> bool) (l1 l2 : list event) :
  count_event p (l1 ++ l2) = (count_event p l1 + count_event p l2)%nat.
Proof. unfold count_event. now rewrite filter_app, length_app. Qed.

Lemma count_event_cons (p : event -> bool) (e : event) (l : list event) :
  count_event p (e :: l)
  = ((if p e then 1 else 0) + count_event p l)%nat.
Proof.
  unfold count_event. rewrite filter_cons.
  destruct (p e) eqn:E; case_decide; try congruence; reflexivity.
Qed.

Lemma count_event_none (p : event -> bool) (l : list event) :
  (forall e, e ∈ l -> p e = false) -> count_event p l = 0%nat.
Proof.
  induction l as [|e l IH]; intros H; [reflexivity|].
  rewrite count_event_cons, (H e) by left.
  rewrite IH; [reflexivity|]. intros e' He'. apply H. now right.
Qed.

Lemma count_creates (p : event -> bool) (l : list string) :
  (forall x, p (EvCreate x) = false) -> count_event p (map EvCreate l) = 0%nat.
Proof.
  intros H. apply count_event_none. intros e He.
  apply list_elem_of_fmap in He as (x & -> & _). apply H.
Qed.

Lemma count_unlinks (p : event -> bool) (l : list string) :
  (forall x, p (EvUnlink x) = false) -> count_event p (map EvUnlink l) = 0%nat.
Proof.
  intros H. apply count_event_none. intros e He.
  apply list_elem_of_fmap in He as (x & -> & _). apply H.
Qed.

Lemma new_events_app (w w' : World) (evs : list event) :
  trace w' = trace w ++ evs -> new_events w w' = evs.
Proof. intros H. unfold new_events. rewrite H. apply drop_app_length. Qed.

(** ** The executor *)

Section Executor.

Variable decode : list Byte.byte -> option string.
Variable json_loads : string -> option Json.

Lemma read_state_file_effect (file_path : option string) (st : St) :
  world (snd (Tf.read_state_file json_loads file_path st))
  = log (EvReadState (Tf.state_path file_path st)) (world st)
  /\ ((fst (Tf.read_state_file json_loads file_path st) = Ok tt
       /\ exists t, self (snd (Tf.read_state_file json_loads file_path st))
                    = set_tfstate (Some t) (self st))
      \/ (fst (Tf.read_state_file json_loads file_path st)
          = Raise JSONDecodeError
          /\ self (snd (Tf.read_state_file json_loads file_path st))
             = self st)).
Proof.
  unfold Tf.read_state_file, bind, gets, modify_world, modify_self,
    Tf.load_file. simpl.
  destruct (disk (world st) !! Tf.state_path file_path st) as [text|]; simpl.
  - destruct (json_loads text); simpl; split; eauto.
  - split; eauto.
Qed.

Lemma cmd_synchronous (cmd : string) (args : list string)
    (capture_output raise_on_error synchronous : value) (kw : kwargs)
    (st st1 : St) (cmds : list string) (c : Completed) :
  truthy synchronous = true ->
  Tf.generate_cmd_string cmd args kw st = (Ok cmds, st1) ->
  spawn st1 cmds = Spawned c ->
  Tf.cmd decode json_loads cmd args capture_output raise_on_error
    synchronous kw st
  = match (if returncode c =? 0
           then Tf.read_state_file json_loads None (waited st1 cmds c)
           else (Ok tt, waited st1 cmds c)) with
    | (Raise e, st3) => (Raise e, st3)
    | (Ok _, st3) =>
        match VarFiles.clean_up st3 with
        | (Raise e, st4) => (Raise e, st4)
        | (Ok _, st4) => (outcome decode capture_output raise_on_error cmds c, st4)
        end
    end.
Proof.
  intros Hsync Hgen Hspawn.
  unfold Tf.cmd. unfold bind at 1. rewrite Hgen.
  unfold bind at 1 2 3, gets, Tf.Popen. simpl.
  unfold spawn in Hspawn. rewrite Hspawn, Hsync. simpl.
  unfold bind at 1.
  assert (Hcomm : Tf.communicate c (Tf.stream_of capture_output)
                    (mkSt (self st1) (log (EvPopen cmds) (world st1)))
                  = (Ok (if Tf.is_True capture_output
                         then (Some (out_bytes c), Some (err_bytes c), returncode c)
                         else (None, None, returncode c)),
                     waited st1 cmds c)).
  { unfold Tf.communicate, bind, modify_world, ret, waited. simpl.
    destruct capture_output as [f|[|[]|n|s]|l|tu|d]; simpl; try reflexivity.
    destruct (String.eqb s "framework"); reflexivity. }
  rewrite Hcomm. clear Hcomm.
  unfold outcome.
  assert (Htail : forall st3,
    (VarFiles.clean_up ;;
     let* oe :=
       (if Tf.is_True capture_output then
          let* out := Tf.decode_stream decode
                        (fst (fst (if Tf.is_True capture_output
                          then (Some (out_bytes c), Some (err_bytes c), returncode c)
                          else (None, None, returncode c)))) in
          let* err := Tf.decode_stream decode
                        (snd (fst (if Tf.is_True capture_output
                          then (Some (out_bytes c), Some (err_bytes c), returncode c)
                          else (None, None, returncode c)))) in
          ret (Some out, Some err)
        else ret (None, None)) in
     let '(out, err) := oe in
     if (returncode c >? 0) && truthy raise_on_error
     then raise (TerraformCommandError (returncode c) (Py.join " " cmds) out err)
     else ret (Some (returncode c), out, err)) st3
    = match VarFiles.clean_up st3 with
      | (Raise e, st4) => (Raise e, st4)
      | (Ok _, st4) => (outcome decode capture_output raise_on_error cmds c, st4)
      end).
  { intros st3. unfold bind at 1.
    destruct (VarFiles.clean_up st3) as [[[]|e] st4]; [|reflexivity].
    unfold outcome, bind, ret, raise, Tf.decode_stream.
    destruct (Tf.is_True capture_output); simpl.
    - destruct (decode (out_bytes c)); [|reflexivity].
      destruct (decode (err_bytes c)); [|reflexivity].
      destruct ((returncode c >? 0) && truthy raise_on_error); reflexivity.
    - destruct ((returncode c >? 0) && truthy raise_on_error); reflexivity. }
  unfold outcome in Htail.
  destruct (Tf.is_True capture_output); simpl in Htail |- *;
    unfold bind at 1;
    (destruct (returncode c =? 0);
     [ destruct (Tf.read_state_file json_loads None (waited st1 cmds c))
         as [[[]|e] st3]; [apply Htail | reflexivity]
     | unfold ret at 1; apply Htail ]).
Qed.

(** C8: in a synchronous invocation whose child was spawned, the state
    file is read exactly once when the child exits with code 0; when it
    exits with another code the state file is not read and the stored
    state is the one from before the invocation. *)
Theorem state_reload_iff_exit_zero (cmd : string) (args : list string)
    (capture_output raise_on_error synchronous : value) (kw : kwargs)
    (st st1 : St) (cmds : list string) (c : Completed) :
  truthy synchronous = true ->
  Tf.generate_cmd_string cmd args kw st = (Ok cmds, st1) ->
  spawn st1 cmds = Spawned c ->
  let st' := snd (Tf.cmd decode json_loads cmd args capture_output
                    raise_on_error synchronous kw st) in
  (returncode c = 0 ->
     count_event is_read_state (new_events (world st) (world st')) = 1%nat)
  /\ (returncode c <> 0 ->
      count_event is_read_state (new_events (world st) (world st')) = 0%nat
      /\ tfstate (self st') = tfstate (self st)).
Proof.
  intros Hsync Hgen Hspawn st'. subst st'.
  rewrite (cmd_synchronous _ _ _ _ _ _ _ _ _ _ Hsync Hgen Hspawn).
  destruct (generate_cmd_string_effect cmd args kw st)
    as (created & d & names & Hst1).
  rewrite Hgen in Hst1. simpl in Hst1. subst st1.
  split.
  - intros Hz. rewrite Hz. simpl.
    destruct (read_state_file_effect None
                (waited (after_creates st created d names) cmds c))
      as (Hw & Hr).
    destruct (Tf.read_state_file json_loads None _) as [[[]|e] st3];
      simpl in *.
    + destruct (clean_up_effect st3) as (gone & d4 & Hw4 & _).
      destruct (VarFiles.clean_up st3) as [[[]|e] st4]; simpl in *;
        rewrite (new_events_app _ _
                   (map EvCreate created ++ [EvPopen cmds]
                    ++ [EvReadState (Tf.state_path None
                          (waited (after_creates st created d names) cmds c))]
                    ++ EvCleanUp :: map EvUnlink gone));
        try (rewrite Hw4; unfold after_clean_up; rewrite Hw; simpl;
             now rewrite <- !app_assoc).
      all: rewrite !count_event_app, count_creates by reflexivity.
      all: rewrite !count_event_cons, count_unlinks by reflexivity.
      all: reflexivity.
    + rewrite (new_events_app _ _
                 (map EvCreate created ++ [EvPopen cmds]
                  ++ [EvReadState (Tf.state_path None
                        (waited (after_creates st created d names) cmds c))])).
      * rewrite !count_event_app, count_creates by reflexivity. reflexivity.
      * rewrite Hw. simpl. now rewrite <- !app_assoc.
  - intros Hnz. apply Z.eqb_neq in Hnz. rewrite Hnz.
    destruct (clean_up_effect (waited (after_creates st created d names) cmds c))
      as (gone & d4 & Hw4 & Hself).
    destruct (VarFiles.clean_up _) as [[[]|e] st4]; simpl in *.
    all: rewrite (new_events_app _ _
                   (map EvCreate created ++ [EvPopen cmds]
                    ++ EvCleanUp :: map EvUnlink gone))
      by (rewrite Hw4; unfold after_clean_up; simpl;
          now rewrite <- !app_assoc).
    all: rewrite !count_event_app, count_creates by reflexivity.
    all: rewrite !count_event_cons, count_unlinks by reflexivity.
    all: split; [reflexivity|].
    all: destruct Hself as [[_ ->]|[_ ->]]; reflexivity.
Qed.

(** C1, as the code has it: in a synchronous invocation whose command
    line was built, whose child was spawned and whose state reload (on
    exit code 0) returned, [clean_up] is invoked exactly once, after the
    child was spawned, whatever the exit code, whether
    [clean_up] itself returns or raises, and whether [cmd] then returns
    the outcome tuple or raises: what the invocation does is the spawn
    and the steps before [clean_up], then [clean_up], then nothing but
    the unlinks of [clean_up]. When the tracked files are all still on
    disk, no file is tracked afterwards, every file tracked before the
    cleanup is gone, and [cmd] ends with its own outcome. *)
Theorem clean_up_once_after_wait (cmd : string) (args : list string)
    (capture_output raise_on_error synchronous : value) (kw : kwargs)
    (st st1 : St) (cmds : list string) (c : Completed) :
  truthy synchronous = true ->
  Tf.generate_cmd_string cmd args kw st = (Ok cmds, st1) ->
  spawn st1 cmds = Spawned c ->
  (returncode c = 0 ->
   fst (Tf.read_state_file json_loads None (waited st1 cmds c)) = Ok tt) ->
  let run := Tf.cmd decode json_loads cmd args capture_output
               raise_on_error synchronous kw st in
  count_event is_clean_up (new_events (world st) (world (snd run))) = 1%nat
  /\ (exists before gone,
        new_events (world st) (world (snd run))
        = before ++ EvCleanUp :: map EvUnlink gone
        /\ EvPopen cmds ∈ before
        /\ count_event is_clean_up before = 0%nat)
  /\ (unlinkable (files (temp_var_files (self st1))) (disk_after c) ->
      files (temp_var_files (self (snd run))) = []
      /\ (forall f, f ∈ files (temp_var_files (self st1)) ->
            disk (world (snd run)) !! f = None)
      /\ fst run = outcome decode capture_output raise_on_error cmds c).
Proof.
  intros Hsync Hgen Hspawn Hread run. subst run.
  rewrite (cmd_synchronous _ _ _ _ _ _ _ _ _ _ Hsync Hgen Hspawn).
  destruct (generate_cmd_string_effect cmd args kw st)
    as (created & d & names & Hst1).
  rewrite Hgen in Hst1. simpl in Hst1.
  assert (Hgoal : forall st3 reads,
    self st3 = self st1 \/ (exists t, self st3 = set_tfstate (Some t) (self st1)) ->
    world st3 = mkWorld (disk_after c) (tempdir (world st1))
                  (tmp_names (world st1)) (os_popen (world st1))
                  (trace (world st) ++ map EvCreate created
                   ++ [EvPopen cmds] ++ reads) ->
    (forall e, e ∈ reads -> is_clean_up e = false) ->
    let run := match VarFiles.clean_up st3 with
               | (Raise e, st4) => (Raise e, st4)
               | (Ok _, st4) => (outcome decode capture_output raise_on_error cmds c, st4)
               end in
    count_event is_clean_up (new_events (world st) (world (snd run))) = 1%nat
    /\ (exists before gone,
          new_events (world st) (world (snd run))
          = before ++ EvCleanUp :: map EvUnlink gone
          /\ EvPopen cmds ∈ before
          /\ count_event is_clean_up before = 0%nat)
    /\ (unlinkable (files (temp_var_files (self st1))) (disk_after c) ->
        files (temp_var_files (self (snd run))) = []
        /\ (forall f, f ∈ files (temp_var_files (self st1)) ->
              disk (world (snd run)) !! f = None)
        /\ fst run = outcome decode capture_output raise_on_error cmds c)).
  { intros st3 reads Hself Hworld Hreads run.
    assert (Hfiles : files (temp_var_files (self st3))
                     = files (temp_var_files (self st1))).
    { destruct Hself as [->|[t ->]]; reflexivity. }
    destruct (clean_up_effect st3) as (gone & d4 & Hw4 & _).
    assert (Hbefore : count_event is_clean_up
                        (map EvCreate created ++ [EvPopen cmds] ++ reads) = 0%nat).
    { rewrite !count_event_app, count_creates by reflexivity.
      rewrite (count_event_none _ reads Hreads). reflexivity. }
    assert (Hev : new_events (world st) (world (snd run))
                  = (map EvCreate created ++ [EvPopen cmds] ++ reads)
                    ++ EvCleanUp :: map EvUnlink gone).
    { apply new_events_app. subst run.
      destruct (VarFiles.clean_up st3) as [[[]|e] st4]; simpl in *;
        rewrite Hw4; unfold after_clean_up; rewrite Hworld; simpl;
        now rewrite <- !app_assoc. }
    split; [|split].
    - rewrite Hev, count_event_app, Hbefore.
      rewrite count_event_cons, count_unlinks by reflexivity. reflexivity.
    - exists (map EvCreate created ++ [EvPopen cmds] ++ reads), gone.
      split; [exact Hev|]. split; [|exact Hbefore].
      apply elem_of_app. right. apply elem_of_app. left. left.
    - intros Hun.
      assert (Hun3 : unlinkable (files (temp_var_files (self st3)))
                       (disk (world st3))).
      { rewrite Hfiles, Hworld. exact Hun. }
      subst run. rewrite (clean_up_ok st3 Hun3). simpl.
      split; [reflexivity|]. split; [|reflexivity].
      intros f Hf. rewrite Hfiles, Hworld. simpl.
      now apply unlinked_lookup_in. }
  destruct (returncode c =? 0) eqn:Hz.
  - apply Z.eqb_eq in Hz. specialize (Hread Hz).
    destruct (read_state_file_effect None (waited st1 cmds c)) as (Hw & Hr).
    destruct (Tf.read_state_file json_loads None (waited st1 cmds c))
      as [[[]|e] st3]; simpl in *; [|discriminate].
    apply (Hgoal st3 [EvReadState (Tf.state_path None (waited st1 cmds c))]).
    + destruct Hr as [[_ Ht]|[Hr _]]; [right; exact Ht | discriminate].
    + rewrite Hw. subst st1. unfold log, set_disk. simpl.
      now rewrite <- !app_assoc.
    + intros e He. apply list_elem_of_singleton in He. now subst e.
  - apply (Hgoal (waited st1 cmds c) []).
    + now left.
    + subst st1. unfold waited, log, set_disk. simpl.
      rewrite ?app_nil_r, <- ?app_assoc. reflexivity.
    + intros e He. now apply elem_of_nil in He.
Qed.

(** With a positive return code and [raise_on_error] set, the error
    carries what the tuple would have held. *)
Lemma positive_return_code_raised (capture_output raise_on_error : value)
    (cmds : list string) (c : Completed) (out err : option string) :
  returncode c > 0 -> truthy raise_on_error = true ->
  outcome decode capture_output (VScalar (PyBool false)) cmds c
  = Ok (Some (returncode c), out, err) ->
  outcome decode capture_output raise_on_error cmds c
  = Raise (TerraformCommandError (returncode c) (Py.join " " cmds) out err).
Proof.
  intros Hpos Hroe. unfold outcome. rewrite Hroe.
  assert (Hgt : (returncode c >? 0) = true) by (apply Z.gtb_lt; lia).
  rewrite Hgt. simpl.
  destruct (Tf.is_True capture_output).
  - destruct (decode (out_bytes c)); [|discriminate].
    destruct (decode (err_bytes c)); [|discriminate].
    now intros [= <- <-].
  - now intros [= <- <-].
Qed.

(** Without [raise_on_error] the outcome is never
    [TerraformCommandError]. *)
Lemma no_error_without_raise_on_error (capture_output : value)
    (cmds : list string) (c : Completed) rc line out err :
  outcome decode capture_output (VScalar (PyBool false)) cmds c
  <> Raise (TerraformCommandError rc line out err).
Proof.
  unfold outcome. simpl. rewrite andb_false_r.
  destruct (Tf.is_True capture_output); [|discriminate].
  destruct (decode (out_bytes c)); [|discriminate].
  destruct (decode (err_bytes c)); discriminate.
Qed.

(** The only process [cmd] spawns is the command line it built. *)
Lemma cmd_trace (cmd : string) (args : list string)
    (capture_output raise_on_error synchronous : value) (kw : kwargs)
    (st : St) :
  exists created rest,
    trace (world (snd (Tf.cmd decode json_loads cmd args capture_output
                         raise_on_error synchronous kw st)))
    = trace (world st) ++ map EvCreate created ++ rest
    /\ (rest = []
        \/ exists cmds st1 more,
             Tf.generate_cmd_string cmd args kw st = (Ok cmds, st1)
             /\ rest = EvPopen cmds :: more
             /\ forall e, e ∈ more -> is_popen e = false).
Proof.
  destruct (generate_cmd_string_effect cmd args kw st)
    as (created & d & names & Hst1).
  exists created.
  destruct (Tf.generate_cmd_string cmd args kw st) as [[cmds|e] st1] eqn:Hgen;
    simpl in Hst1; subst st1.
  2:{ exists []. unfold Tf.cmd, bind. rewrite Hgen. simpl.
      split; [now rewrite app_nil_r | now left]. }
  destruct (spawn (after_creates st created d names) cmds) as [e|c] eqn:Hspawn.
  { exists [EvPopen cmds]. unfold Tf.cmd, bind at 1. rewrite Hgen.
    unfold bind, gets, Tf.Popen. simpl. unfold spawn in Hspawn. simpl in Hspawn.
    rewrite Hspawn. simpl. split; [now rewrite <- app_assoc|].
    right. exists cmds, (after_creates st created d names), [].
    repeat split. intros e0 He0. now apply elem_of_nil in He0. }
  destruct (truthy synchronous) eqn:Hsync.
  2:{ exists [EvPopen cmds]. unfold Tf.cmd, bind at 1. rewrite Hgen.
      unfold bind, gets, Tf.Popen. simpl. unfold spawn in Hspawn. simpl in Hspawn.
      rewrite Hspawn, Hsync. simpl. split; [now rewrite <- app_assoc|].
      right. exists cmds, (after_creates st created d names), [].
      repeat split. intros e0 He0. now apply elem_of_nil in He0. }
  rewrite (cmd_synchronous _ _ _ _ _ _ _ _ _ _ Hsync Hgen Hspawn).
  assert (Hclean : forall st3 reads,
    trace (world st3)
    = trace (world st) ++ map EvCreate created ++ EvPopen cmds :: reads ->
    (forall e, e ∈ reads -> is_popen e = false) ->
    exists rest,
      trace (world (snd (match VarFiles.clean_up st3 with
                         | (Raise e, st4) => (Raise e, st4)
                         | (Ok _, st4) =>
                             (outcome decode capture_output raise_on_error cmds c, st4)
                         end)))
      = trace (world st) ++ map EvCreate created ++ rest
      /\ (rest = []
          \/ exists cmds0 st1 more,
               (Ok cmds, after_creates st created d names) = (Ok cmds0, st1)
               /\ rest = EvPopen cmds0 :: more
               /\ forall e, e ∈ more -> is_popen e = false)).
  { intros st3 reads Htr Hreads.
    destruct (clean_up_effect st3) as (gone & d4 & Hw4 & _).
    exists (EvPopen cmds :: reads ++ EvCleanUp :: map EvUnlink gone).
    split.
    - destruct (VarFiles.clean_up st3) as [[[]|e] st4]; simpl in *;
        rewrite Hw4; unfold after_clean_up; simpl; rewrite Htr;
        now rewrite <- !app_assoc.
    - right. exists cmds, (after_creates st created d names),
        (reads ++ EvCleanUp :: map EvUnlink gone).
      repeat split. intros e He. apply elem_of_app in He as [He|He].
      + now apply Hreads.
      + apply elem_of_cons in He as [->|He]; [reflexivity|].
        apply list_elem_of_fmap in He as (x & -> & _). reflexivity. }
  destruct (returncode c =? 0).
  - destruct (read_state_file_effect None
                (waited (after_creates st created d names) cmds c)) as (Hw & _).
    destruct (Tf.read_state_file json_loads None _) as [[[]|e] st3];
      simpl in Hw.
    + apply (Hclean st3 [EvReadState (Tf.state_path None
               (waited (after_creates st created d names) cmds c))]).
      * rewrite Hw. unfold waited, log, set_disk. simpl.
        now rewrite <- !app_assoc.
      * intros e He. apply list_elem_of_singleton in He. now subst e.
    + exists [EvPopen cmds; EvReadState (Tf.state_path None
               (waited (after_creates st created d names) cmds c))].
      split.
      * simpl. rewrite Hw. unfold waited, log, set_disk. simpl.
        now rewrite <- !app_assoc.
      * right. exists cmds, (after_creates st created d names),
          [EvReadState (Tf.state_path None
             (waited (after_creates st created d names) cmds c))].
        repeat split. intros e0 He0.
        apply list_elem_of_singleton in He0. now subst e0.
  - apply (Hclean (waited (after_creates st created d names) cmds c) []).
    + unfold waited, log, set_disk. simpl. now rewrite <- !app_assoc.
    + intros e He. now apply elem_of_nil in He.
Qed.

End Executor.

(** ** The shims *)

Section Shims.

Variable decode : list Byte.byte -> option string.
Variable json_loads : string -> option Json.

(** C10: [apply] with [skip_plan] false runs no [apply] command: it is
    the call [plan(dir_or_plan=dir_or_plan, **kwargs)], with the same
    outcome and the same final state, and the one process it may spawn
    is the binary with the command [plan]. *)
Theorem apply_without_skip_plan_is_plan (dir_or_plan : option string)
    (input no_color : value) (kw : kwargs) (st : St) :
  Tf.apply decode json_loads dir_or_plan input false no_color kw st
  = Tf.call_plan decode json_loads dir_or_plan kw st
  /\ forall cmds,
       EvPopen cmds
       ∈ new_events (world st)
           (world (snd (Tf.apply decode json_loads dir_or_plan input false
                          no_color kw st))) ->
       exists tail, cmds = terraform_bin_path (self st) :: "plan" :: tail.
Proof.
  split; [reflexivity|].
  intros cmds. unfold Tf.apply. simpl.
  unfold Tf.call_plan, Tf.plan, bind at 1, Tf._generate_default_options,
    bind at 1, gets, ret, Tf.call_cmd.
  match goal with
  | |- context [Tf.cmd decode json_loads ?c ?a ?co ?roe ?sy ?k st] =>
      destruct (cmd_trace decode json_loads c a co roe sy k st)
        as (created & rest & Htr & Hrest)
  end.
  rewrite (new_events_app _ _ _ Htr).
  intros Hin. apply elem_of_app in Hin as [Hin|Hin].
  { apply list_elem_of_fmap in Hin as (x & Hx & _). discriminate. }
  destruct Hrest as [->|(cmds0 & st1 & more & Hgen & -> & Hmore)].
  { now apply elem_of_nil in Hin. }
  apply elem_of_cons in Hin as [Heq|Hin].
  - injection Heq as ->.
    destruct (generate_cmd_string_head _ _ _ _ _ _ Hgen) as [tail ->].
    eauto.
  - specialize (Hmore _ Hin). discriminate.
Qed.

End Shims.

(** ** Evaluations *)

(** [Terraform()] in a world without state file is the sample object,
    its state file looked for once. *)
Example default_object :
  Tf.__init__ Demo.loads None None None None None (VScalar PyNone) None true
    (Demo.world_of Demo.no_binary)
  = (Ok tt,
     mkSt Demo.tf
       (log (EvReadState "terraform.tfstate") (Demo.world_of Demo.no_binary))).
Proof. reflexivity. Qed.

(** C1 as stated fails: when the binary cannot be started, [cmd] ends
    with that exception, [clean_up] is not invoked, and the variable file
    made for the invocation is still tracked and still on disk. *)
Lemma clean_up_skipped_when_spawn_fails :
  let run := Tf.cmd Demo.decode_ascii Demo.loads "apply" []
               (VScalar (PyBool true)) (VScalar (PyBool true))
               (VScalar (PyBool true)) [("var", VDict [("a", "b")])]
               (Demo.st_of Demo.no_binary) in
  fst run = Raise (OSError "No such file or directory: 'terraform'")
  /\ count_event is_clean_up
       (new_events (world (Demo.st_of Demo.no_binary)) (world (snd run))) = 0%nat
  /\ files (temp_var_files (self (snd run))) = [Demo.var_path]
  /\ disk (world (snd run)) !! Demo.var_path = Some (Json.dumps [("a", "b")]).
Proof. repeat split. Qed.

(** C2 at a child ended by a signal: the return code is -9, not zero,
    [raise_on_error] is set, and [cmd] returns the tuple instead of
    raising. *)
Theorem negative_return_code_not_raised :
  fst (Tf.cmd Demo.decode_ascii Demo.loads "apply" []
         (VScalar (PyBool true)) (VScalar (PyBool true))
         (VScalar (PyBool true)) [] (Demo.st_of (Demo.child (-9) "" "Killed")))
  = Ok (Some (-9), Some "", Some "Killed").
Proof. reflexivity. Qed.

(** C3 at a child that exits with code 1: [output], called with its
    defaults, raises [TerraformCommandError] instead of returning
    [None]. *)
Theorem output_raises_on_exit_one :
  fst (Tf.output Demo.decode_ascii Demo.loads [] (VScalar (PyBool true)) []
         (Demo.st_of (Demo.child 1 "" "Error: no outputs")))
  = Raise (TerraformCommandError 1 "terraform output -json"
             (Some "") (Some "Error: no outputs")).
Proof. reflexivity. Qed.

Lemma state_reload_iff_exit_zero_witness :
  count_event is_read_state
    (new_events (world (Demo.st_of (Demo.child 0 "" "")))
       (world (snd (Tf.cmd Demo.decode_ascii Demo.loads "apply" []
                      (VScalar (PyBool true)) (VScalar (PyBool true))
                      (VScalar (PyBool true)) []
                      (Demo.st_of (Demo.child 0 "" "")))))) = 1%nat
  /\ (count_event is_read_state
        (new_events (world (Demo.st_of (Demo.child 1 "" "")))
           (world (snd (Tf.cmd Demo.decode_ascii Demo.loads "apply" []
                          (VScalar (PyBool true)) (VScalar (PyBool true))
                          (VScalar (PyBool true)) []
                          (Demo.st_of (Demo.child 1 "" "")))))) = 0%nat
      /\ tfstate (self (snd (Tf.cmd Demo.decode_ascii Demo.loads "apply" []
                               (VScalar (PyBool true)) (VScalar (PyBool true))
                               (VScalar (PyBool true)) []
                               (Demo.st_of (Demo.child 1 "" "")))))
         = tfstate (self (Demo.st_of (Demo.child 1 "" "")))).
Proof.
  split.
  - apply (proj1 (state_reload_iff_exit_zero Demo.decode_ascii Demo.loads
                    "apply" [] (VScalar (PyBool true)) (VScalar (PyBool true))
                    (VScalar (PyBool true)) []
                    (Demo.st_of (Demo.child 0 "" ""))
                    (Demo.st_of (Demo.child 0 "" "")) ["terraform"; "apply"]
                    (mkCompleted 0 [] [] ∅) eq_refl eq_refl eq_refl)).
    reflexivity.
  - apply (proj2 (state_reload_iff_exit_zero Demo.decode_ascii Demo.loads
                    "apply" [] (VScalar (PyBool true)) (VScalar (PyBool true))
                    (VScalar (PyBool true)) []
                    (Demo.st_of (Demo.child 1 "" ""))
                    (Demo.st_of (Demo.child 1 "" "")) ["terraform"; "apply"]
                    (mkCompleted 1 [] [] ∅) eq_refl eq_refl eq_refl)).
    discriminate.
Defined.

Lemma clean_up_once_after_wait_witness :
  let run := Tf.cmd Demo.decode_ascii Demo.loads "apply" []
               (VScalar (PyBool true)) (VScalar (PyBool true))
               (VScalar (PyBool true)) [("var", VDict [("a", "b")])]
               (Demo.st_of (Demo.child 1 "" "Error")) in
  let lost := Tf.cmd Demo.decode_ascii Demo.loads "apply" []
                (VScalar (PyBool true)) (VScalar (PyBool true))
                (VScalar (PyBool true)) [("var", VDict [("a", "b")])]
                (Demo.st_of (Demo.child_wiping 1)) in
  count_event is_clean_up
    (new_events (world (Demo.st_of (Demo.child 1 "" "Error"))) (world (snd run)))
  = 1%nat
  /\ files (temp_var_files (self (snd run))) = []
  /\ disk (world (snd run)) !! Demo.var_path = None
  /\ fst run
     = Raise (TerraformCommandError 1
                "terraform apply -var-file=/tmp/tmpk3x9q2ab.tfvars.json"
                (Some "") (Some "Error"))
  /\ count_event is_clean_up
       (new_events (world (Demo.st_of (Demo.child_wiping 1))) (world (snd lost)))
     = 1%nat
  /\ fst lost = Raise (FileNotFoundError Demo.var_path).
Proof.
  destruct (clean_up_once_after_wait Demo.decode_ascii Demo.loads
              "apply" [] (VScalar (PyBool true)) (VScalar (PyBool true))
              (VScalar (PyBool true)) [("var", VDict [("a", "b")])]
              (Demo.st_of (Demo.child 1 "" "Error"))
              (snd (Tf.generate_cmd_string "apply" []
                      [("var", VDict [("a", "b")])]
                      (Demo.st_of (Demo.child 1 "" "Error"))))
              ["terraform"; "apply"; "-var-file=/tmp/tmpk3x9q2ab.tfvars.json"]
              (mkCompleted 1 (list_byte_of_string "") (list_byte_of_string "Error")
                 (<[Demo.var_path := Json.dumps [("a", "b")]]> ∅))
              eq_refl eq_refl eq_refl) as (H1 & _ & H).
  - discriminate.
  - destruct (clean_up_once_after_wait Demo.decode_ascii Demo.loads
                "apply" [] (VScalar (PyBool true)) (VScalar (PyBool true))
                (VScalar (PyBool true)) [("var", VDict [("a", "b")])]
                (Demo.st_of (Demo.child_wiping 1))
                (snd (Tf.generate_cmd_string "apply" []
                        [("var", VDict [("a", "b")])]
                        (Demo.st_of (Demo.child_wiping 1))))
                ["terraform"; "apply"; "-var-file=/tmp/tmpk3x9q2ab.tfvars.json"]
                (mkCompleted 1 [] [] ∅)
                eq_refl eq_refl eq_refl) as (H5 & _ & _).
    + discriminate.
    + destruct H as (H2 & H3 & H4).
      * split.
        -- apply NoDup_cons. split; [apply not_elem_of_nil | apply NoDup_nil_2].
        -- intros f Hf. apply list_elem_of_singleton in Hf. subst f.
           exists (Json.dumps [("a", "b")]). reflexivity.
      * intros run lost. split; [exact H1|]. split; [exact H2|].
        split; [apply (H3 Demo.var_path); left|].
        split; [exact H4|]. split; [exact H5 | reflexivity].
Defined.

Lemma apply_without_skip_plan_is_plan_witness :
  exists tail,
    ["terraform"; "plan"; "-no-color"; "-input=false"; "-detailed-exitcode"; "infra"]
    = terraform_bin_path (self (Demo.st_of (Demo.child 0 "" "")))
      :: "plan" :: tail.
Proof.
  apply (proj2 (apply_without_skip_plan_is_plan Demo.decode_ascii Demo.loads
                  (Some "infra") (VScalar (PyBool true)) (VFlag IsFlagged) []
                  (Demo.st_of (Demo.child 0 "" "")))).
  vm_compute. left.
Defined.


(** * Further properties of the code *)

(** ** Option names *)

Lemma prefix_nil (s : string) : String.prefix "" s = true.
Proof. now destruct s. Qed.

Lemma contains_char_cons (c a : ascii) (s : string) :
  Py.contains (String c "") (String a s)
  = Ascii.eqb c a || Py.contains (String c "") s.
Proof.
  simpl. destruct (ascii_dec c a) as [->|Hne].
  - now rewrite prefix_nil, Ascii.eqb_refl.
  - apply Ascii.eqb_neq in Hne. now rewrite Hne.
Qed.

Lemma replace_char_no_source (a b : ascii) (s : string) :
  a <> b -> Py.contains (String a "") (Py.replace_char a b s) = false.
Proof.
  intros Hne. induction s as [|c s IH]; [reflexivity|].
  simpl Py.replace_char. rewrite contains_char_cons, IH, orb_false_r.
  destruct (Ascii.eqb_spec c a) as [->|Hca].
  - now apply Ascii.eqb_neq.
  - apply Ascii.eqb_neq. congruence.
Qed.

Lemma replace_char_length (a b : ascii) (s : string) :
  String.length (Py.replace_char a b s) = String.length s.
Proof. induction s as [|c s IH]; simpl; [reflexivity | now rewrite IH]. Qed.

Lemma normalize_no_underscore (option : string) :
  Py.contains "_" (Tf.normalize option) = false.
Proof.
  unfold Tf.normalize. destruct (Py.contains "_" option) eqn:E; [|exact E].
  now apply replace_char_no_source.
Qed.

Lemma replace_char_absent (a b : ascii) (s : string) :
  Py.contains (String a "") s = false -> Py.replace_char a b s = s.
Proof.
  induction s as [|c s IH]; [reflexivity|].
  rewrite contains_char_cons. intros H.
  apply orb_false_iff in H as [Hc Hs]. simpl.
  rewrite (IH Hs). f_equal.
  destruct (Ascii.eqb_spec c a) as [->|_]; [|reflexivity].
  now rewrite Ascii.eqb_refl in Hc.
Qed.

Lemma get_replace_char (a b : ascii) (s : string) (i : nat) :
  String.get i (Py.replace_char a b s)
  = match String.get i s with
    | Some c => Some (if Ascii.eqb c a then b else c)
    | None => None
    end.
Proof.
  revert i. induction s as [|c s IH]; intros i; [reflexivity|].
  destruct i as [|i]; simpl; [reflexivity | apply IH].
Qed.

Lemma normalize_replace (option : string) :
  Tf.normalize option = Py.replace_char "_" "-" option.
Proof.
  unfold Tf.normalize. destruct (Py.contains "_" option) eqn:E; [reflexivity|].
  symmetry. now apply replace_char_absent.
Qed.

(** X1: the name an option of the mapping has on the command line is
    its key with every underscore turned into a dash and every other
    character kept: a flagged option puts the token [-name] there and an
    option holding a text puts [-name=text] there, where [name] has the
    length of the key, holds a dash wherever the key holds an underscore
    and the character of the key everywhere else, so it holds no
    underscore, and is the key itself when the key holds none. *)
Theorem option_names_use_dashes (cmd : string) (args : list string)
    (kw1 kw2 : kwargs) (option text : string) (st sa sb : St)
    (h tl t1 t2 : list string) :
  cmd_frame cmd args (terraform_bin_path (self st)) = Some (h, tl) ->
  Tf.encode_options kw1 st = (Ok t1, sa) ->
  Tf.encode_options kw2 sa = (Ok t2, sb) ->
  exists name,
    Tf.generate_cmd_string cmd args
      (kw1 ++ (option, VFlag IsFlagged) :: kw2) st
    = (Ok (h ++ t1 ++ ["-" +:+ name] ++ t2 ++ tl)%list, sb)
    /\ Tf.generate_cmd_string cmd args
         (kw1 ++ (option, VScalar (PyStr text)) :: kw2) st
       = (Ok (h ++ t1 ++ ["-" +:+ name +:+ "=" +:+ text] ++ t2 ++ tl)%list, sb)
    /\ String.length name = String.length option
    /\ (forall i,
          String.get i name
          = match String.get i option with
            | Some c => Some (if Ascii.eqb c "_" then "-"%char else c)
            | None => None
            end)
    /\ Py.contains "_" name = false
    /\ (Py.contains "_" option = false -> name = option).
Proof.
  intros Hframe H1 H2. exists (Tf.normalize option).
  split; [|split; [|split; [|split; [|split]]]].
  - now apply (generate_cmd_string_splice _ _ _ _ _ _ _ _ sa _ _ _ _ _ _
                 Hframe H1).
  - now apply (generate_cmd_string_splice _ _ _ _ _ _ _ _ sa _ _ _ _ _ _
                 Hframe H1).
  - rewrite normalize_replace. apply replace_char_length.
  - intros i. rewrite normalize_replace. apply get_replace_char.
  - apply normalize_no_underscore.
  - intros E. unfold Tf.normalize. now rewrite E.
Qed.

Lemma option_names_use_dashes_witness :
  exists name,
    Tf.generate_cmd_string "plan" ["infra"]
      ([("no_color", VFlag IsFlagged)] ++ ("lock_timeout_s", VFlag IsFlagged)
         :: [("input", VScalar (PyBool false))])
      (Demo.st_of (Demo.child 0 "" ""))
    = (Ok (["terraform"; "plan"] ++ ["-no-color"] ++ ["-" +:+ name]
           ++ ["-input=false"] ++ ["infra"]),
       Demo.st_of (Demo.child 0 "" ""))
    /\ Tf.generate_cmd_string "plan" ["infra"]
         ([("no_color", VFlag IsFlagged)]
            ++ ("lock_timeout_s", VScalar (PyStr "30")) 
            :: [("input", VScalar (PyBool false))])
         (Demo.st_of (Demo.child 0 "" ""))
       = (Ok (["terraform"; "plan"] ++ ["-no-color"]
              ++ ["-" +:+ name +:+ "=" +:+ "30"]
              ++ ["-input=false"] ++ ["infra"]),
          Demo.st_of (Demo.child 0 "" ""))
    /\ String.length name = String.length "lock_timeout_s"
    /\ (forall i,
          String.get i name
          = match String.get i "lock_timeout_s" with
            | Some c => Some (if Ascii.eqb c "_" then "-"%char else c)
            | None => None
            end)
    /\ Py.contains "_" name = false
    /\ (Py.contains "_" "lock_timeout_s" = false -> name = "lock_timeout_s").
Proof.
  exact (option_names_use_dashes "plan" ["infra"]
           [("no_color", VFlag IsFlagged)] [("input", VScalar (PyBool false))]
           "lock_timeout_s" "30"
           (Demo.st_of (Demo.child 0 "" "")) (Demo.st_of (Demo.child 0 "" ""))
           (Demo.st_of (Demo.child 0 "" ""))
           ["terraform"; "plan"] ["infra"] ["-no-color"] ["-input=false"]
           eq_refl eq_refl eq_refl).
Defined.

(** ** Attribute dispatch *)






Section Dispatch.

Variable decode : list Byte.byte -> option string.
Variable json_loads : string -> option Json.


End Dispatch.


(** ** Merging option mappings *)

Lemma dict_keys_set {V} (k : string) (v : V) (d : dict V) :
  Dict.keys (Dict.set k v d)
  = if bool_decide (k ∈ Dict.keys d) then Dict.keys d else Dict.keys d ++ [k].
Proof.
  induction d as [|[k' v'] d IH]; [reflexivity|].
  simpl. destruct (String.eqb_spec k' k) as [->|Hne].
  - rewrite bool_decide_eq_true_2 by left. reflexivity.
  - simpl. rewrite IH. unfold Dict.keys. simpl.
    destruct (bool_decide (k ∈ map fst d)) eqn:E.
    + apply bool_decide_eq_true in E.
      rewrite bool_decide_eq_true_2 by now right. reflexivity.
    + apply bool_decide_eq_false in E.
      rewrite bool_decide_eq_false_2; [reflexivity|].
      intros Hin. apply elem_of_cons in Hin as [->|Hin]; congruence.
Qed.

Lemma dict_set_wf {V} (k : string) (v : V) (d : dict V) :
  Dict.wf d -> Dict.wf (Dict.set k v d).
Proof.
  unfold Dict.wf. intros Hwf. rewrite dict_keys_set.
  case_bool_decide as Hk; [exact Hwf|].
  apply NoDup_app. split; [exact Hwf|]. split.
  - intros x Hx Hx'. apply list_elem_of_singleton in Hx'. now subst.
  - apply NoDup_singleton.
Qed.

Lemma dict_key_of_elem {V} (k : string) (v : V) (d : dict V) :
  (k, v) ∈ d -> k ∈ Dict.keys d.
Proof.
  intros H. unfold Dict.keys. apply list_elem_of_fmap. now exists (k, v).
Qed.

Lemma dict_set_elem {V} (k : string) (v : V) (d : dict V) (k' : string) (v' : V) :
  Dict.wf d ->
  (k', v') ∈ Dict.set k v d
  <-> (k' = k /\ v' = v) \/ (k' <> k /\ (k', v') ∈ d).
Proof.
  induction d as [|[k0 v0] d IH]; intros Hwf; simpl.
  - rewrite list_elem_of_singleton. split.
    + intros [= -> ->]. now left.
    + intros [[-> ->]|[_ H]]; [reflexivity | now apply elem_of_nil in H].
  - apply NoDup_cons in Hwf as [Hk0 Hwf]. fold (Dict.keys d) in Hk0.
    destruct (String.eqb_spec k0 k) as [->|Hne].
    + rewrite !elem_of_cons. split.
      * intros [[= -> ->]|Hin]; [now left|].
        right. split; [|now right].
        intros ->. apply Hk0. eapply dict_key_of_elem, Hin.
      * intros [[-> ->]|[Hk [[= -> ->]|Hin]]];
          [now left | congruence | now right].
    + rewrite !elem_of_cons, (IH Hwf). split.
      * intros [[= -> ->]|[[-> ->]|[Hk Hin]]].
        -- right. split; [congruence | now left].
        -- now left.
        -- right. split; [exact Hk | now right].
      * intros [[-> ->]|[Hk [[= -> ->]|Hin]]].
        -- right. now left.
        -- now left.
        -- right. right. now split.
Qed.

Lemma dict_update_wf_elem {V} (other d : dict V) :
  Dict.wf d -> Dict.wf other ->
  Dict.wf (Dict.update d other)
  /\ forall k v,
       (k, v) ∈ Dict.update d other
       <-> (k, v) ∈ other \/ ((k, v) ∈ d /\ k ∉ Dict.keys other).
Proof.
  revert d. induction other as [|[k0 v0] other IH]; intros d Hd Ho.
  - split; [exact Hd|]. intros k v. unfold Dict.update; simpl. split.
    + intros H. right. split; [exact H | apply not_elem_of_nil].
    + intros [H|[H _]]; [now apply elem_of_nil in H | exact H].
  - apply NoDup_cons in Ho as [Hk0 Ho]. fold (Dict.keys other) in Hk0.
    destruct (IH (Dict.set k0 v0 d) (dict_set_wf k0 v0 d Hd) Ho) as [Hwf Helem].
    split; [exact Hwf|]. intros k v.
    change (Dict.update d ((k0, v0) :: other))
      with (Dict.update (Dict.set k0 v0 d) other).
    rewrite Helem, (dict_set_elem k0 v0 d k v Hd), elem_of_cons.
    unfold Dict.keys; simpl. rewrite not_elem_of_cons. split.
    + intros [H|[[[-> ->]|[Hne H]] Hk]].
      * left. now right.
      * left. now left.
      * right. repeat split; assumption.
    + intros [[[= -> ->]|H]|[H [Hne Hk]]].
      * right. split; [now left | exact Hk0].
      * now left.
      * right. split; [right; now split | exact Hk].
Qed.

Lemma default_options_wf (t : Terraform) : Dict.wf (default_options t).
Proof.
  unfold Dict.wf, default_options, Dict.keys; simpl.
  repeat (apply NoDup_cons; split;
          [rewrite ?not_elem_of_cons; repeat split;
             try discriminate; apply not_elem_of_nil|]).
  apply NoDup_nil_2.
Qed.

(** X3: the options a shim passes on are the caller's options plus the
    seven defaults for the keys the caller left out: an option of the
    caller always wins over the default of the same key, every key occurs
    once, and the object and the world are not touched. *)
Theorem default_options_caller_wins (input_options : kwargs) (st : St) :
  Dict.wf input_options ->
  exists options,
    Tf._generate_default_options input_options st = (Ok options, st)
    /\ Dict.wf options
    /\ forall k v,
         (k, v) ∈ options
         <-> (k, v) ∈ input_options
             \/ ((k, v) ∈ default_options (self st)
                 /\ k ∉ Dict.keys input_options).
Proof.
  intros Hwf. eexists. split; [reflexivity|].
  apply (dict_update_wf_elem input_options (default_options (self st))
           (default_options_wf (self st)) Hwf).
Qed.

Lemma default_options_caller_wins_witness :
  exists options,
    Tf._generate_default_options [("input", VScalar (PyBool true))]
      (Demo.st_of (Demo.child 0 "" ""))
    = (Ok options, Demo.st_of (Demo.child 0 "" ""))
    /\ Dict.wf options
    /\ forall k v,
         (k, v) ∈ options
         <-> (k, v) ∈ [("input", VScalar (PyBool true))]
             \/ ((k, v) ∈ default_options (self (Demo.st_of (Demo.child 0 "" "")))
                 /\ k ∉ Dict.keys [("input", VScalar (PyBool true))]).
Proof.
  apply (default_options_caller_wins [("input", VScalar (PyBool true))]
           (Demo.st_of (Demo.child 0 "" ""))).
  apply NoDup_singleton.
Defined.

(** ** What building a command line does *)

Lemma fresh_files_nil (d : gmap string string) : fresh_files d [] d.
Proof.
  split; [apply NoDup_nil_2|]. split.
  - intros f Hf. now apply elem_of_nil in Hf.
  - reflexivity.
Qed.

Lemma fresh_files_app (d0 d1 d2 : gmap string string) (c1 c2 : list string) :
  fresh_files d0 c1 d1 -> fresh_files d1 c2 d2 -> fresh_files d0 (c1 ++ c2) d2.
Proof.
  intros (Hn1 & Hin1 & Hout1) (Hn2 & Hin2 & Hout2).
  assert (Hdisj : forall f, f ∈ c1 -> f ∉ c2).
  { intros f Hf1 Hf2. destruct (Hin1 f Hf1) as [_ [x Hx]].
    destruct (Hin2 f Hf2) as [Hnone _]. congruence. }
  split; [apply NoDup_app; repeat split; assumption|]. split.
  - intros f Hf. apply elem_of_app in Hf as [Hf|Hf].
    + destruct (Hin1 f Hf) as [H0 Hs]. split; [exact H0|].
      now rewrite (Hout2 f (Hdisj f Hf)).
    + destruct (Hin2 f Hf) as [H1 Hs]. split; [|exact Hs].
      rewrite <- (Hout1 f); [exact H1|].
      intros Hf1. now apply (Hdisj f Hf1).
  - intros f Hf. apply not_elem_of_app in Hf as [Hf1 Hf2].
    now rewrite (Hout2 f Hf2), (Hout1 f Hf1).
Qed.

Lemma create_creates (variables : dict string) (st : St) :
  exists created d names,
    snd (VarFiles.create variables st) = after_creates st created d names
    /\ fresh_files (disk (world st)) created d
    /\ (length created <= 1)%nat.
Proof.
  unfold VarFiles.create.
  destruct (mkstemp_inner _ _ _ _ _) as [[name rest]|] eqn:Hmk; simpl.
  - destruct (mkstemp_inner_fresh _ _ _ _ _ _ _ Hmk) as [Hfree _].
    exists [name], (<[name := Json.dumps variables]> (disk (world st))), rest.
    split; [reflexivity|]. split; [|simpl; lia].
    split; [apply NoDup_singleton|]. split.
    + intros f Hf. apply list_elem_of_singleton in Hf. subst f.
      split; [exact Hfree|]. rewrite lookup_insert_eq. eauto.
    + intros f Hf. apply lookup_insert_ne. intros ->. apply Hf. left.
  - exists []. eexists. eexists.
    split; [symmetry; apply after_creates_nil|].
    split; [apply fresh_files_nil | simpl; lia].
Qed.

Lemma contains_char_replaced (a b : ascii) (s : string) :
  Py.contains (String a "") s = true ->
  Py.contains (String b "") (Py.replace_char a b s) = true.
Proof.
  induction s as [|c s IH]; [discriminate|].
  simpl Py.replace_char. rewrite !contains_char_cons.
  destruct (Ascii.eqb_spec a c) as [->|Hne]; simpl.
  - intros _. now rewrite Ascii.eqb_refl, Ascii.eqb_refl.
  - intros H. rewrite (IH H). apply orb_true_r.
Qed.

Lemma normalize_var (option : string) :
  Tf.normalize option = "var" -> option = "var".
Proof.
  unfold Tf.normalize. destruct (Py.contains "_" option) eqn:E; [|easy].
  intros H. pose proof (contains_char_replaced "_" "-" option E) as Hc.
  rewrite H in Hc. discriminate.
Qed.

(** The options that can make a file: a non-empty variable map under
    the key [var]. *)
Lemma encode_option_creates (option : string) (v : value) (st : St) :
  (exists tokens, forall st0, Tf.encode_option option v st0 = (Ok tokens, st0))
  \/ (option = "var" /\ exists d, v = VDict d /\ d <> []
      /\ Tf.encode_option option v st
         = bind (VarFiles.create d)
             (fun filename => ret ["-var-file=" +:+ filename]) st).
Proof.
  unfold Tf.encode_option.
  destruct v as [[|]|[|b|n|s]|l|tu|d]; try (left; eexists; reflexivity).
  destruct (Py.contains "backend-config" (Tf.normalize option));
    [left; eexists; reflexivity|].
  destruct (String.eqb_spec (Tf.normalize option) "var") as [Hvar|_];
    [|left; eexists; reflexivity].
  destruct d as [|kv d]; [left; eexists; reflexivity|].
  right. split; [now apply normalize_var|].
  exists (kv :: d). repeat split. discriminate.
Qed.

Lemma encode_option_fresh (option : string) (v : value) (st : St) :
  exists created d names,
    snd (Tf.encode_option option v st) = after_creates st created d names
    /\ fresh_files (disk (world st)) created d
    /\ (length created <= 1)%nat
    /\ (created <> [] -> option = "var").
Proof.
  destruct (encode_option_creates option v st)
    as [[tokens Hpure]|(Hvar & d & -> & Hne & Henc)].
  - exists []. eexists. eexists. rewrite Hpure. simpl.
    split; [symmetry; apply after_creates_nil|].
    split; [apply fresh_files_nil|]. split; [simpl; lia | congruence].
  - rewrite Henc. unfold bind, ret.
    destruct (create_creates d st) as (created & d' & names & Hs & Hf & Hl).
    exists created, d', names.
    destruct (VarFiles.create d st) as [[name|e] st1]; simpl in *; eauto.
Qed.

Lemma encode_options_fresh (kw : kwargs) (st : St) :
  exists created d names,
    snd (Tf.encode_options kw st) = after_creates st created d names
    /\ fresh_files (disk (world st)) created d
    /\ (Dict.wf kw -> (length created <= 1)%nat)
    /\ ("var" ∉ Dict.keys kw -> created = []).
Proof.
  revert st. induction kw as [|[o v] kw IH]; intros st; simpl.
  - exists []. eexists. eexists.
    split; [symmetry; apply after_creates_nil|].
    split; [apply fresh_files_nil|]. split; [simpl; lia | reflexivity].
  - unfold bind, ret.
    destruct (encode_option_fresh o v st) as (c1 & d1 & n1 & H1 & Hf1 & Hl1 & Hv1).
    destruct (Tf.encode_option o v st) as [[t|e] st1]; simpl in *.
    + destruct (IH st1) as (c2 & d2 & n2 & H2 & Hf2 & Hl2 & Hv2).
      exists (c1 ++ c2), d2, n2.
      assert (Hstate : snd (let (r, st') := Tf.encode_options kw st1 in
                            match r with
                            | Ok a => (Ok (t ++ a), st')
                            | Raise e => (Raise e, st')
                            end) = after_creates st (c1 ++ c2) d2 n2).
      { destruct (Tf.encode_options kw st1) as [[t2|e] st2]; simpl in *;
          subst; now rewrite after_creates_twice. }
      split; [exact Hstate|]. subst st1. simpl in Hf2.
      split; [now apply (fresh_files_app _ d1)|]. split.
      * intros Hwf. apply NoDup_cons in Hwf as [Ho Hwf].
        fold (Dict.keys kw) in Ho. rewrite length_app.
        destruct c1 as [|f1 c1].
        -- simpl. now apply Hl2.
        -- rewrite Hv2; [simpl in *; lia|].
           rewrite <- (Hv1 ltac:(discriminate)). exact Ho.
      * unfold Dict.keys; simpl. intros Hnot.
        apply not_elem_of_cons in Hnot as [Hne Hnot].
        rewrite (Hv2 Hnot), app_nil_r.
        destruct c1 as [|f1 c1]; [reflexivity|].
        exfalso. apply Hne. symmetry. apply Hv1. discriminate.
    + exists c1, d1, n1. split; [exact H1|]. split; [exact Hf1|]. split.
      * intros _. exact Hl1.
      * unfold Dict.keys; simpl. intros Hnot.
        apply not_elem_of_cons in Hnot as [Hne _].
        destruct c1 as [|f1 c1]; [reflexivity|].
        exfalso. apply Hne. symmetry. apply Hv1. discriminate.
Qed.

Lemma generate_cmd_string_fresh (cmd : string) (args : list string)
    (kw : kwargs) (st : St) :
  exists created d names,
    snd (Tf.generate_cmd_string cmd args kw st) = after_creates st created d names
    /\ fresh_files (disk (world st)) created d
    /\ (Dict.wf kw -> (length created <= 1)%nat).
Proof.
  assert (Hid : exists created d names,
            st = after_creates st created d names
            /\ fresh_files (disk (world st)) created d
            /\ (Dict.wf kw -> (length created <= 1)%nat)).
  { exists []. eexists. eexists.
    split; [symmetry; apply after_creates_nil|].
    split; [apply fresh_files_nil | simpl; lia]. }
  unfold Tf.generate_cmd_string, bind, gets, ret, raise.
  destruct (encode_options_fresh kw st) as (c & d & n & H & Hf & Hl & _).
  destruct (bool_decide (cmd ∈ COMMAND_WITH_SUBCOMMANDS)).
  - destruct args as [|a rest]; [exact Hid|].
    exists c, d, n.
    destruct (Tf.encode_options kw st) as [[t|e] st1]; simpl in *; eauto.
  - exists c, d, n.
    destruct (Tf.encode_options kw st) as [[t|e] st1]; simpl in *; eauto.
Qed.

(** X4: building a command line changes nothing but this: it may make
    new files, each at a path that was free, each on disk and tracked (in
    the order made) afterwards; every other file, the configuration and
    the stored state of the object are as before, and nothing is recorded
    but the creations: no process is spawned, no state is read. *)
Theorem build_only_creates_fresh_files (cmd : string) (args : list string)
    (kw : kwargs) (st : St) :
  exists created d names,
    snd (Tf.generate_cmd_string cmd args kw st)
    = mkSt (set_temp_var_files
              (mkVariableFiles (files (temp_var_files (self st)) ++ created))
              (self st))
           (mkWorld d (tempdir (world st)) names (os_popen (world st))
              (trace (world st) ++ map EvCreate created))
    /\ NoDup created
    /\ (forall f, f ∈ created ->
          disk (world st) !! f = None /\ is_Some (d !! f))
    /\ (forall f, f ∉ created -> d !! f = disk (world st) !! f).
Proof.
  destruct (generate_cmd_string_fresh cmd args kw st)
    as (created & d & names & Hs & Hf & _).
  exists created, d, names. split; [exact Hs | exact Hf].
Qed.

(** X5: one build makes at most one variable file: the keys of an
    option mapping are distinct, and only the key [var] makes a file. *)
Theorem one_variable_file_per_build (cmd : string) (args : list string)
    (kw : kwargs) (st : St) :
  Dict.wf kw ->
  (length (files (temp_var_files
                    (self (snd (Tf.generate_cmd_string cmd args kw st)))))
   <= length (files (temp_var_files (self st))) + 1)%nat.
Proof.
  intros Hwf.
  destruct (generate_cmd_string_fresh cmd args kw st)
    as (created & d & names & Hs & _ & Hl).
  rewrite Hs. simpl. rewrite length_app. specialize (Hl Hwf). lia.
Qed.

Lemma one_variable_file_per_build_witness :
  (length (files (temp_var_files
                    (self (snd (Tf.generate_cmd_string "apply" []
                                  [("var", VDict [("a", "b")]);
                                   ("var_file", VScalar (PyStr "x.tfvars"))]
                                  (Demo.st_of (Demo.child 0 "" "")))))))
   <= length (files (temp_var_files (self (Demo.st_of (Demo.child 0 "" ""))))) + 1)%nat.
Proof.
  apply (one_variable_file_per_build "apply" []
           [("var", VDict [("a", "b")]); ("var_file", VScalar (PyStr "x.tfvars"))]
           (Demo.st_of (Demo.child 0 "" ""))).
  apply NoDup_cons. split.
  - rewrite not_elem_of_cons. split; [discriminate | apply not_elem_of_nil].
  - apply NoDup_singleton.
Defined.

Lemma encode_options_pure (kw : kwargs) :
  (forall d, ("var", VDict d) ∈ kw -> d = []) ->
  exists opts, forall st, Tf.encode_options kw st = (Ok opts, st).
Proof.
  induction kw as [|[o v] kw IH]; intros Hvar.
  - exists []. reflexivity.
  - destruct IH as [opts Hopts].
    { intros d Hd. apply Hvar. now right. }
    assert (Hpure : exists tokens,
              forall st0, Tf.encode_option o v st0 = (Ok tokens, st0)).
    { destruct (encode_option_creates o v (mkSt Demo.tf (Demo.world_of Demo.no_binary)))
        as [H|(-> & d & -> & Hne & _)]; [exact H|].
      exfalso. apply Hne, Hvar. left. }
    destruct Hpure as [tokens Htok].
    exists (tokens ++ opts). intros st. simpl. unfold bind, ret.
    now rewrite Htok, Hopts.
Qed.

Lemma encode_options_pure_tokens (kw : kwargs) :
  (forall d, ("var", VDict d) ∈ kw -> d = []) ->
  exists toks,
    Forall2 (fun kv t =>
               forall st, Tf.encode_option (fst kv) (snd kv) st = (Ok t, st))
      kw toks
    /\ forall st, Tf.encode_options kw st = (Ok (concat toks), st).
Proof.
  induction kw as [|[o v] kw IH]; intros Hvar.
  - exists []. split; [constructor | reflexivity].
  - destruct IH as (toks & Hall & Hopts).
    { intros d Hd. apply Hvar. now right. }
    assert (Hpure : exists tokens,
              forall st0, Tf.encode_option o v st0 = (Ok tokens, st0)).
    { destruct (encode_option_creates o v (mkSt Demo.tf (Demo.world_of Demo.no_binary)))
        as [H|(-> & d & -> & Hne & _)]; [exact H|].
      exfalso. apply Hne, Hvar. left. }
    destruct Hpure as [tokens Htok].
    exists (tokens :: toks). split; [constructor; assumption|].
    intros st. simpl. unfold bind, ret. now rewrite Htok, Hopts.
Qed.

(** X6: for a mapping that Python can bind to the keyword parameter
    (no key [cmd] or [self]: a call with such a keyword raises [TypeError]
    before the body runs) and that holds no non-empty variable map,
    building the command line of a command outside the compound-command
    set cannot fail and leaves the object and the world untouched: the
    line is the binary, the words of the command, then for each option
    of the mapping, in the order of the mapping, the tokens the encoder
    gives for that option on every state, then the positional
    arguments. *)
Theorem build_without_variable_map (kw : kwargs) :
  (forall d, ("var", VDict d) ∈ kw -> d = []) ->
  "cmd" ∉ Dict.keys kw ->
  "self" ∉ Dict.keys kw ->
  exists toks,
    Forall2 (fun kv t =>
               forall st, Tf.encode_option (fst kv) (snd kv) st = (Ok t, st))
      kw toks
    /\ forall cmd args st,
         cmd ∉ COMMAND_WITH_SUBCOMMANDS ->
         Tf.generate_cmd_string cmd args kw st
         = (Ok (terraform_bin_path (self st) :: Py.split cmd
                ++ concat toks ++ args), st).
Proof.
  intros Hvar _ _.
  destruct (encode_options_pure_tokens kw Hvar) as (toks & Hall & Hopts).
  exists toks. split; [exact Hall|]. intros cmd args st Hcmd.
  unfold Tf.generate_cmd_string, bind, gets, ret.
  rewrite bool_decide_eq_false_2 by exact Hcmd.
  now rewrite Hopts.
Qed.

Lemma build_without_variable_map_witness :
  exists toks,
    Forall2 (fun kv t =>
               forall st, Tf.encode_option (fst kv) (snd kv) st = (Ok t, st))
      [("var", VDict []); ("no_color", VFlag IsFlagged);
       ("lock", VScalar (PyBool false))] toks
    /\ forall cmd args st,
         cmd ∉ COMMAND_WITH_SUBCOMMANDS ->
         Tf.generate_cmd_string cmd args
           [("var", VDict []); ("no_color", VFlag IsFlagged);
            ("lock", VScalar (PyBool false))] st
         = (Ok (terraform_bin_path (self st) :: Py.split cmd
                ++ concat toks ++ args), st).
Proof.
  apply (build_without_variable_map
           [("var", VDict []); ("no_color", VFlag IsFlagged);
            ("lock", VScalar (PyBool false))]).
  - intros d Hd.
    apply elem_of_cons in Hd as [Hd|Hd]; [congruence|].
    apply elem_of_cons in Hd as [Hd|Hd]; [discriminate|].
    apply list_elem_of_singleton in Hd. discriminate.
  - unfold Dict.keys. simpl. rewrite !not_elem_of_cons.
    repeat split; try discriminate. apply not_elem_of_nil.
  - unfold Dict.keys. simpl. rewrite !not_elem_of_cons.
    repeat split; try discriminate. apply not_elem_of_nil.
Defined.

Section Invocation.

Variable decode : list Byte.byte -> option string.
Variable json_loads : string -> option Json.

(** X7: a command of the compound-command set called without positional
    argument raises [IndexError] at once: no file is made, no process is
    spawned, the object and the world are untouched. *)
Theorem compound_command_needs_subcommand (cmd : string)
    (capture_output raise_on_error synchronous : value) (kw : kwargs)
    (st : St) :
  cmd ∈ COMMAND_WITH_SUBCOMMANDS ->
  Tf.cmd decode json_loads cmd [] capture_output raise_on_error synchronous
    kw st
  = (Raise IndexError, st).
Proof.
  intros Hin. unfold Tf.cmd, Tf.generate_cmd_string, bind, gets, raise.
  now rewrite bool_decide_eq_true_2 by exact Hin.
Qed.

Lemma cmd_asynchronous (cmd : string) (args : list string)
    (capture_output raise_on_error synchronous : value) (kw : kwargs)
    (st st1 : St) (cmds : list string) (c : Completed) :
  truthy synchronous = false ->
  Tf.generate_cmd_string cmd args kw st = (Ok cmds, st1) ->
  spawn st1 cmds = Spawned c ->
  Tf.cmd decode json_loads cmd args capture_output raise_on_error
    synchronous kw st
  = (Ok (None, None, None),
     mkSt (self st1) (log (EvPopen cmds) (world st1))).
Proof.
  intros Hsync Hgen Hspawn.
  unfold Tf.cmd. unfold bind at 1. rewrite Hgen.
  unfold bind, gets, Tf.Popen. simpl.
  unfold spawn in Hspawn. now rewrite Hspawn, Hsync.
Qed.

(** X8: a fire-and-forget invocation (synchronous false) whose child is
    spawned returns [(None, None, None)] without waiting: the state file
    is not read, [clean_up] is not invoked, the stored state is as
    before, and every variable file made for the command line is still
    tracked and still on disk. *)
Theorem fire_and_forget_keeps_files (cmd : string) (args : list string)
    (capture_output raise_on_error synchronous : value) (kw : kwargs)
    (st st1 : St) (cmds : list string) (c : Completed) :
  truthy synchronous = false ->
  Tf.generate_cmd_string cmd args kw st = (Ok cmds, st1) ->
  spawn st1 cmds = Spawned c ->
  let run := Tf.cmd decode json_loads cmd args capture_output
               raise_on_error synchronous kw st in
  fst run = Ok (None, None, None)
  /\ count_event is_clean_up (new_events (world st) (world (snd run))) = 0%nat
  /\ count_event is_read_state (new_events (world st) (world (snd run))) = 0%nat
  /\ tfstate (self (snd run)) = tfstate (self st)
  /\ exists created,
       files (temp_var_files (self (snd run)))
       = files (temp_var_files (self st)) ++ created
       /\ forall f, f ∈ created -> is_Some (disk (world (snd run)) !! f).
Proof.
  intros Hsync Hgen Hspawn run. subst run.
  rewrite (cmd_asynchronous _ _ _ _ _ _ _ _ _ _ Hsync Hgen Hspawn).
  destruct (generate_cmd_string_fresh cmd args kw st)
    as (created & d & names & Hs & (_ & Hin & _) & _).
  rewrite Hgen in Hs. simpl in Hs. subst st1. simpl.
  assert (Hev : new_events (world st)
                  (log (EvPopen cmds)
                     (mkWorld d (tempdir (world st)) names (os_popen (world st))
                        (trace (world st) ++ map EvCreate created)))
                = map EvCreate created ++ [EvPopen cmds]).
  { apply new_events_app. simpl. now rewrite <- app_assoc. }
  rewrite Hev. split; [reflexivity|].
  split; [now rewrite count_event_app, count_creates|].
  split; [now rewrite count_event_app, count_creates|].
  split; [reflexivity|].
  exists created. split; [reflexivity|].
  intros f Hf. apply (Hin f Hf).
Qed.

Lemma unlinked_fresh (d0 d : gmap string string) (created : list string) :
  fresh_files d0 created d -> unlinked created d = d0.
Proof.
  intros (_ & Hin & Hout). apply map_eq. intros f.
  destruct (decide (f ∈ created)) as [Hf|Hf].
  - rewrite (unlinked_lookup_in _ _ _ Hf). symmetry. apply (Hin f Hf).
  - rewrite (unlinked_lookup_notin _ _ _ Hf). apply (Hout f Hf).
Qed.

Lemma fresh_files_unlinkable (d0 d : gmap string string) (created : list string) :
  fresh_files d0 created d -> unlinkable created d.
Proof.
  intros (Hnd & Hin & _). split; [exact Hnd|]. intros f Hf. apply (Hin f Hf).
Qed.

(** X9: a fire-and-forget invocation leaves its variable files to
    [__exit__]. On an object that tracked no file before, whatever the
    child that is still running has made of the disk by the time
    [__exit__] is called, as long as the variable files made for the
    command line are still there: [__exit__] does not raise, nothing is
    tracked afterwards, those files are gone, and every other path holds
    what it held when [__exit__] was called. *)
Theorem exit_cleans_after_fire_and_forget (cmd : string) (args : list string)
    (capture_output raise_on_error synchronous : value) (kw : kwargs)
    (st st1 : St) (cmds : list string) (c : Completed)
    (later : gmap string string) :
  files (temp_var_files (self st)) = [] ->
  truthy synchronous = false ->
  Tf.generate_cmd_string cmd args kw st = (Ok cmds, st1) ->
  spawn st1 cmds = Spawned c ->
  (forall f, f ∈ files (temp_var_files (self st1)) -> is_Some (later !! f)) ->
  let st' := snd (Tf.cmd decode json_loads cmd args capture_output
                    raise_on_error synchronous kw st) in
  exists st2,
    Tf.__exit__ (mkSt (self st') (set_disk later (world st'))) = (Ok tt, st2)
    /\ files (temp_var_files (self st2)) = []
    /\ forall f,
         disk (world st2) !! f
         = if bool_decide (f ∈ files (temp_var_files (self st1)))
           then None else later !! f.
Proof.
  intros Hnone Hsync Hgen Hspawn Hkept st'. subst st'.
  rewrite (cmd_asynchronous _ _ _ _ _ _ _ _ _ _ Hsync Hgen Hspawn).
  destruct (generate_cmd_string_fresh cmd args kw st)
    as (created & d & names & Hs & (Hnd & _ & _) & _).
  rewrite Hgen in Hs. simpl in Hs.
  assert (Hfiles : files (temp_var_files (self st1)) = created).
  { subst st1. simpl. now rewrite Hnone. }
  unfold Tf.__exit__. eexists. split.
  - apply clean_up_ok. simpl. rewrite Hfiles.
    split; [exact Hnd|]. intros f Hf. apply Hkept. now rewrite Hfiles.
  - simpl. split; [reflexivity|]. intros f. case_bool_decide as Hf.
    + now apply unlinked_lookup_in.
    + now apply unlinked_lookup_notin.
Qed.

End Invocation.

Section Waiting.

Variable decode : list Byte.byte -> option string.
Variable json_loads : string -> option Json.

(** X10: a synchronous invocation on an object that tracked no file,
    whose child leaves the variable files in place and whose state reload
    returns, removes exactly the variable files it made: nothing is
    tracked afterwards, those files are gone, every other path holds what
    the child left there, and the cleanup does not disturb the outcome. *)
Theorem cmd_removes_exactly_its_files (cmd : string) (args : list string)
    (capture_output raise_on_error synchronous : value) (kw : kwargs)
    (st st1 : St) (cmds : list string) (c : Completed) :
  files (temp_var_files (self st)) = [] ->
  truthy synchronous = true ->
  Tf.generate_cmd_string cmd args kw st = (Ok cmds, st1) ->
  spawn st1 cmds = Spawned c ->
  (forall f, f ∈ files (temp_var_files (self st1)) ->
     is_Some (disk_after c !! f)) ->
  (returncode c = 0 ->
   fst (Tf.read_state_file json_loads None (waited st1 cmds c)) = Ok tt) ->
  let run := Tf.cmd decode json_loads cmd args capture_output
               raise_on_error synchronous kw st in
  fst run = outcome decode capture_output raise_on_error cmds c
  /\ files (temp_var_files (self (snd run))) = []
  /\ forall f,
       disk (world (snd run)) !! f
       = if bool_decide (f ∈ files (temp_var_files (self st1)))
         then None else disk_after c !! f.
Proof.
  intros Hnone Hsync Hgen Hspawn Hkept Hread run. subst run.
  rewrite (cmd_synchronous _ _ _ _ _ _ _ _ _ _ _ _ Hsync Hgen Hspawn).
  destruct (generate_cmd_string_fresh cmd args kw st)
    as (created & d & names & Hs & (Hnd & _ & _) & _).
  rewrite Hgen in Hs. simpl in Hs.
  assert (Hfiles : files (temp_var_files (self st1)) = created).
  { subst st1. simpl. now rewrite Hnone. }
  assert (Hun : unlinkable (files (temp_var_files (self st1))) (disk_after c)).
  { split; [now rewrite Hfiles | exact Hkept]. }
  assert (Hgoal : forall st3,
    files (temp_var_files (self st3)) = files (temp_var_files (self st1)) ->
    disk (world st3) = disk_after c ->
    let run := match VarFiles.clean_up st3 with
               | (Raise e, st4) => (Raise e, st4)
               | (Ok _, st4) =>
                   (outcome decode capture_output raise_on_error cmds c, st4)
               end in
    fst run = outcome decode capture_output raise_on_error cmds c
    /\ files (temp_var_files (self (snd run))) = []
    /\ forall f,
         disk (world (snd run)) !! f
         = if bool_decide (f ∈ files (temp_var_files (self st1)))
           then None else disk_after c !! f).
  { intros st3 Hf3 Hd3 run. subst run.
    rewrite clean_up_ok by (rewrite Hf3, Hd3; exact Hun). simpl.
    split; [reflexivity|]. split; [reflexivity|].
    intros f. rewrite Hf3, Hd3. case_bool_decide as Hf.
    - now apply unlinked_lookup_in.
    - now apply unlinked_lookup_notin. }
  destruct (returncode c =? 0) eqn:Hz.
  - apply Z.eqb_eq in Hz. specialize (Hread Hz).
    destruct (read_state_file_effect json_loads None (waited st1 cmds c))
      as (Hw & Hr).
    destruct (Tf.read_state_file json_loads None (waited st1 cmds c))
      as [[[]|e] st3]; simpl in *; [|discriminate].
    apply Hgoal.
    + destruct Hr as [[_ [t ->]]|[Hr _]]; [reflexivity | discriminate].
    + now rewrite Hw.
  - apply Hgoal; reflexivity.
Qed.

Lemma cmd_spawn_error (cmd : string) (args : list string)
    (capture_output raise_on_error synchronous : value) (kw : kwargs)
    (st st1 : St) (cmds : list string) (e : exn) :
  Tf.generate_cmd_string cmd args kw st = (Ok cmds, st1) ->
  spawn st1 cmds = SpawnError e ->
  Tf.cmd decode json_loads cmd args capture_output raise_on_error
    synchronous kw st
  = (Raise e, mkSt (self st1) (log (EvPopen cmds) (world st1))).
Proof.
  intros Hgen Hspawn.
  unfold Tf.cmd. unfold bind at 1. rewrite Hgen.
  unfold bind, gets, Tf.Popen. simpl.
  unfold spawn in Hspawn. now rewrite Hspawn.
Qed.

(** X11: [raise_on_error] changes nothing of what an invocation does,
    only how it ends: the final object and world are those of the same
    invocation with [raise_on_error] false, and the result is the same
    too, except that a returned tuple with a positive code becomes a
    [TerraformCommandError] with that code, the joined command line and
    the two streams of the tuple. *)
Theorem raise_on_error_only_changes_the_result (cmd : string)
    (args : list string) (capture_output raise_on_error synchronous : value)
    (kw : kwargs) (st : St) :
  let quiet := Tf.cmd decode json_loads cmd args capture_output
                 (VScalar (PyBool false)) synchronous kw st in
  let run := Tf.cmd decode json_loads cmd args capture_output
               raise_on_error synchronous kw st in
  snd run = snd quiet
  /\ fst run
     = match fst quiet with
       | Ok (Some ret_code, out, err) =>
           if (ret_code >? 0) && truthy raise_on_error
           then Raise (TerraformCommandError ret_code
                         (command_line cmd args kw st) out err)
           else fst quiet
       | r => r
       end.
Proof.
  intros quiet run. subst quiet run. unfold command_line.
  destruct (Tf.generate_cmd_string cmd args kw st) as [[cmds|e] st1] eqn:Hgen.
  2:{ unfold Tf.cmd, bind. rewrite Hgen. split; reflexivity. }
  destruct (spawn st1 cmds) as [e|c] eqn:Hspawn.
  { rewrite !(cmd_spawn_error _ _ _ _ _ _ _ _ _ _ Hgen Hspawn).
    split; reflexivity. }
  destruct (truthy synchronous) eqn:Hsync.
  2:{ rewrite !(cmd_asynchronous _ _ _ _ _ _ _ _ _ _ _ _ Hsync Hgen Hspawn).
      split; reflexivity. }
  rewrite !(cmd_synchronous _ _ _ _ _ _ _ _ _ _ _ _ Hsync Hgen Hspawn).
  destruct (if returncode c =? 0 then _ else _) as [[[]|e] st3];
    [|split; reflexivity].
  destruct (VarFiles.clean_up st3) as [[[]|e] st4]; [|split; reflexivity].
  simpl. split; [reflexivity|].
  unfold outcome. simpl. rewrite andb_false_r.
  destruct (Tf.is_True capture_output).
  - destruct (decode (out_bytes c)); [|reflexivity].
    destruct (decode (err_bytes c)); [|reflexivity].
    destruct ((returncode c >? 0) && truthy raise_on_error); reflexivity.
  - destruct ((returncode c >? 0) && truthy raise_on_error); reflexivity.
Qed.

(** X12: one invocation is at most one child process, and none at all
    when the command line cannot be built. *)
Theorem cmd_spawns_at_most_once (cmd : string) (args : list string)
    (capture_output raise_on_error synchronous : value) (kw : kwargs)
    (st : St) :
  let run := Tf.cmd decode json_loads cmd args capture_output
               raise_on_error synchronous kw st in
  (count_event is_popen (new_events (world st) (world (snd run))) <= 1)%nat
  /\ (forall e, fst (Tf.generate_cmd_string cmd args kw st) = Raise e ->
      fst run = Raise e
      /\ count_event is_popen (new_events (world st) (world (snd run))) = 0%nat).
Proof.
  intros run. subst run.
  destruct (cmd_trace decode json_loads cmd args capture_output
              raise_on_error synchronous kw st)
    as (created & rest & Htr & Hrest).
  rewrite (new_events_app _ _ _ Htr), count_event_app, count_creates
    by reflexivity.
  split.
  - destruct Hrest as [->|(cmds & st1 & more & _ & -> & Hmore)].
    + change (count_event is_popen []) with 0%nat. lia.
    + rewrite count_event_cons, (count_event_none _ more Hmore). simpl. lia.
  - intros e He. split.
    + unfold Tf.cmd, bind.
      destruct (Tf.generate_cmd_string cmd args kw st) as [[cmds|e0] st1];
        simpl in He; [discriminate|]. now injection He as ->.
    + destruct Hrest as [->|(cmds & st1 & more & Hgen & _)]; [reflexivity|].
      rewrite Hgen in He. discriminate.
Qed.

(** X13: in a synchronous invocation without capture ([capture_output]
    other than [True]) nothing is decoded: whatever the child wrote, the
    invocation does not end in [UnicodeDecodeError], a returned tuple
    holds [None] for both streams, and so does a raised
    [TerraformCommandError]. *)
Theorem no_capture_no_streams (cmd : string) (args : list string)
    (capture_output raise_on_error synchronous : value) (kw : kwargs)
    (st st1 : St) (cmds : list string) (c : Completed) :
  Tf.is_True capture_output = false ->
  truthy synchronous = true ->
  Tf.generate_cmd_string cmd args kw st = (Ok cmds, st1) ->
  spawn st1 cmds = Spawned c ->
  let r := fst (Tf.cmd decode json_loads cmd args capture_output
                  raise_on_error synchronous kw st) in
  r <> Raise UnicodeDecodeError
  /\ (forall code out err, r = Ok (code, out, err) -> out = None /\ err = None)
  /\ (forall code line out err,
        r = Raise (TerraformCommandError code line out err) ->
        out = None /\ err = None).
Proof.
  intros Hcap Hsync Hgen Hspawn r. subst r.
  rewrite (cmd_synchronous _ _ _ _ _ _ _ _ _ _ _ _ Hsync Hgen Hspawn).
  assert (Hout : outcome decode capture_output raise_on_error cmds c
                 <> Raise UnicodeDecodeError
                 /\ (forall code out err,
                       outcome decode capture_output raise_on_error cmds c
                       = Ok (code, out, err) -> out = None /\ err = None)
                 /\ (forall code line out err,
                       outcome decode capture_output raise_on_error cmds c
                       = Raise (TerraformCommandError code line out err) ->
                       out = None /\ err = None)).
  { unfold outcome. rewrite Hcap.
    destruct ((returncode c >? 0) && truthy raise_on_error).
    - split; [discriminate|]. split; [discriminate|].
      now intros code line out err [= _ _ <- <-].
    - split; [discriminate|]. split; [|discriminate].
      now intros code out err [= _ <- <-]. }
  assert (Hclean : forall st3,
    let r := fst (match VarFiles.clean_up st3 with
                  | (Raise e, st4) => (Raise e, st4)
                  | (Ok _, st4) =>
                      (outcome decode capture_output raise_on_error cmds c, st4)
                  end) in
    r <> Raise UnicodeDecodeError
    /\ (forall code out err, r = Ok (code, out, err) -> out = None /\ err = None)
    /\ (forall code line out err,
          r = Raise (TerraformCommandError code line out err) ->
          out = None /\ err = None)).
  { intros st3 r. subst r.
    destruct (clean_up_effect st3) as (gone & d4 & _ & Hr).
    destruct (VarFiles.clean_up st3) as [[[]|e] st4]; simpl in *; [exact Hout|].
    destruct Hr as [[Hr _]|[(f & _ & Hr) _]]; [discriminate|].
    injection Hr as ->. repeat split; discriminate. }
  destruct (returncode c =? 0); [|apply Hclean].
  destruct (read_state_file_effect json_loads None (waited st1 cmds c))
    as (_ & Hr).
  destruct (Tf.read_state_file json_loads None (waited st1 cmds c))
    as [[[]|e] st3]; simpl in *; [apply Hclean|].
  destruct Hr as [[Hr _]|[Hr _]]; [discriminate|].
  injection Hr as ->. repeat split; discriminate.
Qed.

End Waiting.

(** ** The shims and their command lines *)

Lemma dict_set_in {V} (k : string) (v : V) (d : dict V) :
  (k, v) ∈ Dict.set k v d.
Proof.
  induction d as [|[k' v'] d IH]; simpl; [left|].
  destruct (String.eqb_spec k' k) as [->|_]; [left | now right].
Qed.

Lemma dict_remove_in {V} (k k' : string) (v : V) (d : dict V) :
  k <> k' -> (k, v) ∈ d -> (k, v) ∈ Dict.remove k' d.
Proof.
  intros Hne. induction d as [|[k0 v0] d IH]; intros Hin; simpl.
  - now apply elem_of_nil in Hin.
  - apply elem_of_cons in Hin as [[= <- <-]|Hin].
    + destruct (String.eqb_spec k k') as [?|_]; [congruence | left].
    + destruct (String.eqb k0 k'); [now apply IH | right; now apply IH].
Qed.

Lemma dict_get_set_other {V} (k k' : string) (v : V) (d : dict V) :
  k <> k' -> Dict.get k' (Dict.set k v d) = Dict.get k' d.
Proof.
  intros Hne. induction d as [|[k0 v0] d IH]; simpl.
  - destruct (String.eqb_spec k k'); [congruence | reflexivity].
  - destruct (String.eqb_spec k0 k) as [->|Hk0]; simpl.
    + destruct (String.eqb_spec k k'); [congruence | reflexivity].
    + destruct (String.eqb k0 k'); [reflexivity | exact IH].
Qed.

Lemma options_of_in (k : string) (v : value) (kw : kwargs) :
  k <> "capture_output" -> k <> "raise_on_error" -> k <> "synchronous" ->
  (k, v) ∈ kw -> (k, v) ∈ options_of kw.
Proof.
  intros H1 H2 H3 Hin. unfold options_of.
  now apply dict_remove_in, dict_remove_in, dict_remove_in.
Qed.

Lemma encode_options_member (kw : kwargs) (st st' : St) (opts : list string)
    (o : string) (v : value) (t : list string) :
  Tf.encode_options kw st = (Ok opts, st') ->
  (o, v) ∈ kw ->
  (forall st0, Tf.encode_option o v st0 = (Ok t, st0)) ->
  exists a b, opts = a ++ t ++ b.
Proof.
  revert st opts. induction kw as [|[o0 v0] kw IH]; intros st opts Henc Hin Hpure.
  - now apply elem_of_nil in Hin.
  - simpl in Henc. unfold bind, ret in Henc.
    destruct (Tf.encode_option o0 v0 st) as [[t0|e] st1] eqn:H0; [|discriminate].
    destruct (Tf.encode_options kw st1) as [[t1|e] st2] eqn:H1; [|discriminate].
    injection Henc as <- <-.
    apply elem_of_cons in Hin as [[= <- <-]|Hin].
    + rewrite Hpure in H0. injection H0 as <- <-. exists [], t1. reflexivity.
    + destruct (IH st1 t1 H1 Hin Hpure) as (a & b & ->).
      exists (t0 ++ a), b. now rewrite <- app_assoc.
Qed.

Lemma generate_cmd_string_member (cmd : string) (args : list string)
    (kw : kwargs) (st st' : St) (cmds : list string)
    (o : string) (v : value) (t : list string) :
  Tf.generate_cmd_string cmd args kw st = (Ok cmds, st') ->
  (o, v) ∈ kw ->
  (forall st0, Tf.encode_option o v st0 = (Ok t, st0)) ->
  exists a b, cmds = a ++ t ++ b.
Proof.
  unfold Tf.generate_cmd_string, bind, gets, ret, raise.
  intros Hgen Hin Hpure.
  destruct (bool_decide (cmd ∈ COMMAND_WITH_SUBCOMMANDS)).
  - destruct args as [|x rest]; [discriminate|].
    destruct (Tf.encode_options kw st) as [[opts|e] st1] eqn:He; [|discriminate].
    injection Hgen as <- <-.
    destruct (encode_options_member _ _ _ _ _ _ _ He Hin Hpure) as (a & b & ->).
    cbn [fst snd].
    exists (((terraform_bin_path (self st) :: Py.split cmd) ++ [x]) ++ a),
      (b ++ rest).
    now rewrite <- !app_assoc.
  - destruct (Tf.encode_options kw st) as [[opts|e] st1] eqn:He; [|discriminate].
    injection Hgen as <- <-.
    destruct (encode_options_member _ _ _ _ _ _ _ He Hin Hpure) as (a & b & ->).
    cbn [fst snd].
    exists ((terraform_bin_path (self st) :: Py.split cmd) ++ a), (b ++ args).
    now rewrite <- !app_assoc.
Qed.

(** The line of a compound command, read back. *)
Lemma generate_cmd_string_compound (a : string) (rest : list string)
    (kw : kwargs) (st st' : St) (cmds : list string) :
  Tf.generate_cmd_string "workspace" (a :: rest) kw st = (Ok cmds, st') ->
  exists opts,
    Tf.encode_options kw st = (Ok opts, st')
    /\ cmds = [terraform_bin_path (self st); "workspace"; a] ++ opts ++ rest.
Proof.
  unfold Tf.generate_cmd_string, bind, gets, ret.
  rewrite bool_decide_eq_true_2
    by (unfold COMMAND_WITH_SUBCOMMANDS; now apply elem_of_singleton).
  destruct (Tf.encode_options kw st) as [[opts|e] st1]; [|discriminate].
  intros [= <- <-]. now exists opts.
Qed.

Section ShimLines.

Variable decode : list Byte.byte -> option string.
Variable json_loads : string -> option Json.

Lemma call_cmd_spawned (command : string) (args : list string) (kw : kwargs)
    (st : St) (cmds : list string) :
  spawned st (snd (Tf.call_cmd decode json_loads command args kw st)) cmds ->
  exists st1,
    Tf.generate_cmd_string command args (options_of kw) st = (Ok cmds, st1).
Proof.
  unfold spawned, Tf.call_cmd. fold (options_of kw).
  match goal with
  | |- context [Tf.cmd decode json_loads ?c ?a ?co ?roe ?sy ?k st] =>
      destruct (cmd_trace decode json_loads c a co roe sy k st)
        as (created & rest & Htr & Hrest)
  end.
  rewrite (new_events_app _ _ _ Htr).
  intros Hin. apply elem_of_app in Hin as [Hin|Hin].
  { apply list_elem_of_fmap in Hin as (x & Hx & _). discriminate. }
  destruct Hrest as [->|(cmds0 & st1 & more & Hgen & -> & Hmore)].
  { now apply elem_of_nil in Hin. }
  apply elem_of_cons in Hin as [Heq|Hin].
  - injection Heq as ->. now exists st1.
  - specialize (Hmore _ Hin). discriminate.
Qed.

(** X14: every shim runs the command of its name. Whatever options are
    passed, a process spawned by [apply] (with [skip_plan]), [destroy],
    [plan] or [init] is the binary followed by that word. *)
Theorem shims_run_their_command (dir_or_plan : option string)
    (v1 v2 v3 : value) (kw : kwargs) (st : St) (cmds : list string) :
  (spawned st (snd (Tf.apply decode json_loads dir_or_plan v1 true v2 kw st)) cmds ->
   exists tail, cmds = terraform_bin_path (self st) :: "apply" :: tail)
  /\ (spawned st (snd (Tf.destroy decode json_loads dir_or_plan v1 kw st)) cmds ->
      exists tail, cmds = terraform_bin_path (self st) :: "destroy" :: tail)
  /\ (spawned st (snd (Tf.plan decode json_loads dir_or_plan v1 kw st)) cmds ->
      exists tail, cmds = terraform_bin_path (self st) :: "plan" :: tail)
  /\ (spawned st (snd (Tf.init decode json_loads dir_or_plan v1 v2 v3 kw st)) cmds ->
      exists tail, cmds = terraform_bin_path (self st) :: "init" :: tail).
Proof.
  assert (Hword : forall word a k,
    spawned st (snd (Tf.call_cmd decode json_loads word a k st)) cmds ->
    Py.split word = [word] ->
    exists tail, cmds = terraform_bin_path (self st) :: word :: tail).
  { intros word a k Hsp Hsplit.
    destruct (call_cmd_spawned _ _ _ _ _ Hsp) as [st1 Hgen].
    destruct (generate_cmd_string_head _ _ _ _ _ _ Hgen) as [tail ->].
    rewrite Hsplit. eauto. }
  repeat split.
  - intros Hsp. now apply (Hword "apply" _ _ Hsp).
  - intros Hsp. now apply (Hword "destroy" _ _ Hsp).
  - intros Hsp. now apply (Hword "plan" _ _ Hsp).
  - intros Hsp. now apply (Hword "init" _ _ Hsp).
Qed.

(** X22: the workspace shims run the compound command: a process
    spawned by [set_workspace], [create_workspace] or [delete_workspace]
    is the binary, [workspace], the sub-command ([select], [new],
    [delete]), then the option tokens, then the workspace name and the
    other positional arguments; [show_workspace] spawns the binary,
    [workspace], [show], then the option tokens. The option tokens are
    those the encoder gives for the options of the call (its keywords
    other than the three parameters of [cmd]): the tokens of every
    option that makes no file stand there, next to each other. *)
Theorem workspace_shims_lines (workspace : string) (args : list string)
    (kw : kwargs) (st : St) (cmds : list string) :
  let line sub rest :=
    exists opts st1,
      Tf.encode_options (options_of kw) st = (Ok opts, st1)
      /\ (forall o v t,
            (o, v) ∈ options_of kw ->
            (forall s, Tf.encode_option o v s = (Ok t, s)) ->
            exists a b, opts = a ++ t ++ b)
      /\ cmds = [terraform_bin_path (self st); "workspace"; sub] ++ opts ++ rest in
  (spawned st (snd (Tf.set_workspace decode json_loads workspace args kw st)) cmds ->
   line "select" (workspace :: args))
  /\ (spawned st (snd (Tf.create_workspace decode json_loads workspace args kw st)) cmds ->
      line "new" (workspace :: args))
  /\ (spawned st (snd (Tf.delete_workspace decode json_loads workspace args kw st)) cmds ->
      line "delete" (workspace :: args))
  /\ (spawned st (snd (Tf.show_workspace decode json_loads kw st)) cmds ->
      line "show" []).
Proof.
  intros line.
  assert (Hws : forall sub rest,
    spawned st (snd (Tf.call_cmd decode json_loads "workspace" (sub :: rest) kw st))
      cmds ->
    line sub rest).
  { intros sub rest Hsp.
    destruct (call_cmd_spawned _ _ _ _ _ Hsp) as [st1 Hgen].
    destruct (generate_cmd_string_compound _ _ _ _ _ _ Hgen) as (opts & He & ->).
    exists opts, st1. split; [exact He|]. split; [|reflexivity].
    intros o v t Hin Hpure.
    exact (encode_options_member _ _ _ _ _ _ _ He Hin Hpure). }
  repeat split.
  - intros Hsp. now apply (Hws "select" _ Hsp).
  - intros Hsp. now apply (Hws "new" _ Hsp).
  - intros Hsp. now apply (Hws "delete" _ Hsp).
  - intros Hsp. now apply (Hws "show" [] Hsp).
Qed.

End ShimLines.

(** ** [output] and [init] *)

Section OutputAndInit.

Variable decode : list Byte.byte -> option string.
Variable json_loads : string -> option Json.

Lemma output_unfold (args : list string) (capture_output : value)
    (kw : kwargs) (st : St) :
  capture_output <> VScalar (PyBool false) ->
  Tf.output decode json_loads args capture_output kw st
  = bind (Tf.call_cmd decode json_loads "output" args
            (Dict.set "json" (VFlag IsFlagged) kw))
      (fun r =>
         let '(ret_, out, _) := r in
         let nonzero := match ret_ with
                        | Some n => negb (n =? 0)
                        | None => false
                        end in
         if nonzero then ret None
         else match out with
              | None => raise AttributeError
              | Some text =>
                  match json_loads (Py.lstrip text) with
                  | Some j => ret (Some j)
                  | None => raise JSONDecodeError
                  end
              end) st.
Proof.
  intros Hco. unfold Tf.output.
  destruct capture_output as [f|[|[|]|n|s]|l|tu|d]; try reflexivity.
  congruence.
Qed.

Lemma output_final_state (args : list string) (capture_output : value)
    (kw : kwargs) (st : St) :
  capture_output <> VScalar (PyBool false) ->
  snd (Tf.output decode json_loads args capture_output kw st)
  = snd (Tf.call_cmd decode json_loads "output" args
           (Dict.set "json" (VFlag IsFlagged) kw) st).
Proof.
  intros Hco. rewrite (output_unfold _ _ _ _ Hco). unfold bind.
  destruct (Tf.call_cmd decode json_loads "output" args _ st)
    as [[[[ret_ out] err]|e] st']; [|reflexivity].
  destruct ret_ as [n|]; simpl.
  - destruct (negb (n =? 0)); [reflexivity|].
    destruct out as [text|]; [|reflexivity].
    destruct (json_loads (Py.lstrip text)); reflexivity.
  - destruct out as [text|]; [|reflexivity].
    destruct (json_loads (Py.lstrip text)); reflexivity.
Qed.

(** X15: [output] refuses to run without capture: with [capture_output]
    false it raises [ValueError] before anything is built or spawned.
    Any other value of [capture_output] only passes this guard and is
    then dropped (the command runs as with [True]); the process spawned
    is the binary followed by [output], and its line holds the flag
    [-json] whatever options the caller gave. *)
Theorem output_forces_json (args : list string) (capture_output : value)
    (kw : kwargs) (st : St) :
  Tf.output decode json_loads args (VScalar (PyBool false)) kw st
  = (Raise (ValueError "capture_output is required for this method"), st)
  /\ (capture_output <> VScalar (PyBool false) ->
      Tf.output decode json_loads args capture_output kw st
      = Tf.output decode json_loads args (VScalar (PyBool true)) kw st
      /\ forall cmds,
           spawned st
             (snd (Tf.output decode json_loads args capture_output kw st)) cmds ->
           (exists tail, cmds = terraform_bin_path (self st) :: "output" :: tail)
           /\ "-json" ∈ cmds).
Proof.
  split; [reflexivity|].
  intros Hco. split.
  { rewrite (output_unfold _ _ _ _ Hco). symmetry. now apply output_unfold. }
  intros cmds. rewrite (output_final_state _ _ _ _ Hco). intros Hsp.
  destruct (call_cmd_spawned decode json_loads _ _ _ _ _ Hsp) as [st1 Hgen].
  split.
  - destruct (generate_cmd_string_head _ _ _ _ _ _ Hgen) as [tail ->]. eauto.
  - destruct (generate_cmd_string_member _ _ _ _ _ _ "json" (VFlag IsFlagged)
                ["-json"] Hgen) as (a & b & ->).
    + apply options_of_in; try discriminate. apply dict_set_in.
    + reflexivity.
    + apply elem_of_app. right. left.
Qed.

(** A synchronous invocation whose reload returns and whose tracked
    files are in place ends with its own outcome. *)
Lemma cmd_outcome (cmd : string) (args : list string)
    (capture_output raise_on_error synchronous : value) (kw : kwargs)
    (st st1 : St) (cmds : list string) (c : Completed) :
  truthy synchronous = true ->
  Tf.generate_cmd_string cmd args kw st = (Ok cmds, st1) ->
  spawn st1 cmds = Spawned c ->
  (returncode c = 0 ->
   fst (Tf.read_state_file json_loads None (waited st1 cmds c)) = Ok tt) ->
  unlinkable (files (temp_var_files (self st1))) (disk_after c) ->
  fst (Tf.cmd decode json_loads cmd args capture_output raise_on_error
         synchronous kw st)
  = outcome decode capture_output raise_on_error cmds c.
Proof.
  intros Hsync Hgen Hspawn Hread Hun.
  rewrite (cmd_synchronous _ _ _ _ _ _ _ _ _ _ _ _ Hsync Hgen Hspawn).
  destruct (returncode c =? 0) eqn:Hz.
  - apply Z.eqb_eq in Hz. specialize (Hread Hz).
    destruct (read_state_file_effect json_loads None (waited st1 cmds c))
      as (Hw & Hr).
    destruct (Tf.read_state_file json_loads None (waited st1 cmds c))
      as [[[]|e] st3]; simpl in *; [|discriminate].
    rewrite clean_up_ok; [reflexivity|].
    rewrite Hw. simpl.
    destruct Hr as [[_ [t ->]]|[Hr _]]; [exact Hun | discriminate].
  - rewrite clean_up_ok; [reflexivity | exact Hun].
Qed.

(** X18: what [output] returns after a synchronous captured run whose
    reload and cleanup go through and whose streams decode. Exit code 0:
    the parsed JSON of the standard output without its leading white
    space, or [JSONDecodeError] when that text is no JSON. A positive
    code with [raise_on_error] left on: the [TerraformCommandError] of
    [cmd] passes through. Any other code (negative, or positive with
    [raise_on_error] off): [None]. *)
Theorem output_result (args : list string) (capture_output : value)
    (kw : kwargs) (st st1 : St) (cmds : list string) (c : Completed)
    (out err : string) :
  capture_output <> VScalar (PyBool false) ->
  Dict.get "capture_output" kw = None ->
  truthy (Tf.get_default "synchronous" (VScalar (PyBool true)) kw) = true ->
  Tf.generate_cmd_string "output" args
    (options_of (Dict.set "json" (VFlag IsFlagged) kw)) st = (Ok cmds, st1) ->
  spawn st1 cmds = Spawned c ->
  (returncode c = 0 ->
   fst (Tf.read_state_file json_loads None (waited st1 cmds c)) = Ok tt) ->
  unlinkable (files (temp_var_files (self st1))) (disk_after c) ->
  decode (out_bytes c) = Some out ->
  decode (err_bytes c) = Some err ->
  fst (Tf.output decode json_loads args capture_output kw st)
  = if returncode c =? 0 then
      match json_loads (Py.lstrip out) with
      | Some j => Ok (Some j)
      | None => Raise JSONDecodeError
      end
    else if (returncode c >? 0)
            && truthy (Tf.get_default "raise_on_error" (VScalar (PyBool true)) kw)
    then Raise (TerraformCommandError (returncode c) (Py.join " " cmds)
                  (Some out) (Some err))
    else Ok None.
Proof.
  intros Hco Hcap Hsync Hgen Hspawn Hread Hun Hout Herr.
  rewrite (output_unfold _ _ _ _ Hco). unfold bind.
  pose proof (cmd_outcome "output" args
                (Tf.get_default "capture_output" (VScalar (PyBool true))
                   (Dict.set "json" (VFlag IsFlagged) kw))
                (Tf.get_default "raise_on_error" (VScalar (PyBool true))
                   (Dict.set "json" (VFlag IsFlagged) kw))
                (Tf.get_default "synchronous" (VScalar (PyBool true))
                   (Dict.set "json" (VFlag IsFlagged) kw))
                (options_of (Dict.set "json" (VFlag IsFlagged) kw))
                st st1 cmds c) as Hcmd.
  unfold Tf.get_default in Hcmd, Hsync |- *.
  rewrite !dict_get_set_other in Hcmd by discriminate.
  rewrite Hcap in Hcmd.
  specialize (Hcmd Hsync Hgen Hspawn Hread Hun).
  unfold outcome in Hcmd. simpl in Hcmd. rewrite Hout, Herr in Hcmd.
  unfold Tf.call_cmd, Tf.get_default. fold (options_of (Dict.set "json" (VFlag IsFlagged) kw)).
  rewrite !dict_get_set_other by discriminate. rewrite Hcap.
  destruct (Tf.cmd decode json_loads "output" args _ _ _ _ st) as [r st'].
  simpl in Hcmd. subst r.
  destruct (returncode c =? 0) eqn:Hz.
  - apply Z.eqb_eq in Hz. rewrite Hz. simpl.
    destruct (json_loads (Py.lstrip out)); reflexivity.
  - destruct ((returncode c >? 0) && _); [reflexivity|].
    simpl. now rewrite Hz.
Qed.

(** X16: [init] puts its three parameters on the command line: one
    token [-backend-config=key=value] per entry of the backend
    configuration, in the order of the mapping and next to each other,
    the flag [-reconfigure], and [-backend=true] or [-backend=false]. *)
Theorem init_passes_backend_config (dir_or_plan : option string)
    (d : dict string) (backend : bool) (kw : kwargs) (st : St)
    (cmds : list string) :
  Dict.wf kw ->
  spawned st
    (snd (Tf.init decode json_loads dir_or_plan (VDict d) (VFlag IsFlagged)
            (VScalar (PyBool backend)) kw st)) cmds ->
  (exists a b,
     cmds = a ++ map (fun kv => "-backend-config=" +:+ fst kv +:+ "=" +:+ snd kv) d
              ++ b)
  /\ "-reconfigure" ∈ cmds
  /\ ("-backend=" +:+ (if backend then "true" else "false")) ∈ cmds.
Proof.
  intros Hwf Hsp.
  set (lit := [("backend_config", VDict d); ("reconfigure", VFlag IsFlagged);
               ("backend", VScalar (PyBool backend))]).
  assert (Hlit : Dict.wf lit).
  { unfold Dict.wf, lit, Dict.keys; simpl.
    repeat (apply NoDup_cons; split;
            [rewrite ?not_elem_of_cons; repeat split;
               try discriminate; apply not_elem_of_nil|]).
    apply NoDup_nil_2. }
  destruct (dict_update_wf_elem lit kw Hwf Hlit) as [Hwf1 Hel1].
  destruct (dict_update_wf_elem (Dict.update kw lit) (default_options (self st))
              (default_options_wf (self st)) Hwf1) as [_ Hel2].
  change (Tf.init decode json_loads dir_or_plan (VDict d) (VFlag IsFlagged)
            (VScalar (PyBool backend)) kw st)
    with (Tf.call_cmd decode json_loads "init"
            (Tf._generate_default_args dir_or_plan)
            (Dict.update (default_options (self st)) (Dict.update kw lit)) st)
    in Hsp.
  destruct (call_cmd_spawned decode json_loads _ _ _ _ _ Hsp) as [st1 Hgen].
  assert (Hmem : forall k v t,
    (k, v) ∈ lit ->
    k <> "capture_output" -> k <> "raise_on_error" -> k <> "synchronous" ->
    (forall st0, Tf.encode_option k v st0 = (Ok t, st0)) ->
    exists a b, cmds = a ++ t ++ b).
  { intros k v t Hin H1 H2 H3 Hpure.
    apply (generate_cmd_string_member _ _ _ _ _ _ k v t Hgen); [|exact Hpure].
    apply options_of_in; try assumption.
    apply Hel2. left. apply Hel1. now left. }
  split; [|split].
  - apply (Hmem "backend_config" (VDict d)); [left | discriminate.. | reflexivity].
  - destruct (Hmem "reconfigure" (VFlag IsFlagged) ["-reconfigure"])
      as (a & b & ->); [right; left | discriminate.. | reflexivity |].
    apply elem_of_app. right. left.
  - destruct (Hmem "backend" (VScalar (PyBool backend))
                ["-backend=" +:+ (if backend then "true" else "false")])
      as (a & b & ->); [right; right; left | discriminate.. | reflexivity |].
    apply elem_of_app. right. left.
Qed.

End OutputAndInit.

(** ** The state file a successful command reloads *)

Lemma state_path_none (st : St) :
  Tf.state_path None st
  = let wd := Tf.or_empty (working_dir (self st)) in
    let default :=
      if path_exists (path_join wd ".terraform/terraform.tfstate") (disk (world st))
      then path_join wd ".terraform/terraform.tfstate"
      else path_join wd "terraform.tfstate" in
    match state (self st) with
    | Some s => if Py.is_empty s then default else path_join wd s
    | None => default
    end.
Proof.
  unfold Tf.state_path.
  assert (Hwd : Tf.or_empty (Tf.or_else (working_dir (self st)) (Some ""))
                = Tf.or_empty (working_dir (self st))).
  { destruct (working_dir (self st)) as [[|a w]|]; reflexivity. }
  rewrite Hwd. cbv zeta.
  destruct (state (self st)) as [s|]; simpl.
  - destruct (Py.is_empty s) eqn:Hs; simpl.
    + change (path_join (path_join "" ".terraform") "terraform.tfstate")
        with ".terraform/terraform.tfstate".
      change (path_join "" "terraform.tfstate") with "terraform.tfstate".
      now destruct (path_exists _ _).
    + rewrite Hs. reflexivity.
  - change (path_join (path_join "" ".terraform") "terraform.tfstate")
      with ".terraform/terraform.tfstate".
    change (path_join "" "terraform.tfstate") with "terraform.tfstate".
    now destruct (path_exists _ _).
Qed.

Section Reload.

Variable decode : list Byte.byte -> option string.
Variable json_loads : string -> option Json.

(** X17: the state file a synchronous invocation reads after exit code 0
    is fixed by the object and by the files the child left, not by the
    options of the command (an option [state] only reaches the command
    line): it is the [state] of the object under its working folder when
    that is set and not empty, else [.terraform/terraform.tfstate] under
    the working folder when the child left a file there, else
    [terraform.tfstate] under the working folder. No other state file is
    read. *)
Theorem reload_reads_configured_state (cmd : string) (args : list string)
    (capture_output raise_on_error synchronous : value) (kw : kwargs)
    (st st1 : St) (cmds : list string) (c : Completed) :
  truthy synchronous = true ->
  Tf.generate_cmd_string cmd args kw st = (Ok cmds, st1) ->
  spawn st1 cmds = Spawned c ->
  returncode c = 0 ->
  let wd := Tf.or_empty (working_dir (self st)) in
  let default :=
    if path_exists (path_join wd ".terraform/terraform.tfstate") (disk_after c)
    then path_join wd ".terraform/terraform.tfstate"
    else path_join wd "terraform.tfstate" in
  forall p,
    EvReadState p
      ∈ new_events (world st)
          (world (snd (Tf.cmd decode json_loads cmd args capture_output
                         raise_on_error synchronous kw st)))
    <-> p = match state (self st) with
            | Some s => if Py.is_empty s then default else path_join wd s
            | None => default
            end.
Proof.
  intros Hsync Hgen Hspawn Hz wd default p.
  rewrite (cmd_synchronous _ _ _ _ _ _ _ _ _ _ _ _ Hsync Hgen Hspawn).
  rewrite Hz. simpl.
  destruct (generate_cmd_string_effect cmd args kw st)
    as (created & d & names & Hst1).
  rewrite Hgen in Hst1. simpl in Hst1. subst st1.
  pose proof (state_path_none (waited (after_creates st created d names) cmds c))
    as Hpath.
  simpl in Hpath. fold wd in Hpath. fold default in Hpath.
  destruct (read_state_file_effect json_loads None
              (waited (after_creates st created d names) cmds c)) as (Hw & _).
  rewrite Hpath in Hw. clear Hpath.
  assert (Hin : forall more,
    (forall e, e ∈ more -> is_read_state e = false) ->
    forall q,
      EvReadState p ∈ map EvCreate created ++ [EvPopen cmds]
                      ++ [EvReadState q] ++ more
      <-> p = q).
  { intros more Hmore q. rewrite !elem_of_app, list_elem_of_fmap.
    rewrite !list_elem_of_singleton. split.
    - intros [(x & Hx & _)|[Hx|[Hx|Hx]]]; try discriminate.
      + now injection Hx.
      + specialize (Hmore _ Hx). discriminate.
    - intros ->. right. right. now left. }
  destruct (Tf.read_state_file json_loads None _) as [[[]|e] st3]; simpl in *.
  - destruct (clean_up_effect st3) as (gone & d4 & Hw4 & _).
    assert (Htr : trace (world (snd (match VarFiles.clean_up st3 with
                                     | (Raise e, st4) => (Raise e, st4)
                                     | (Ok _, st4) =>
                                         (outcome decode capture_output
                                            raise_on_error cmds c, st4)
                                     end)))
                  = trace (world st) ++ map EvCreate created ++ [EvPopen cmds]
                    ++ [EvReadState
                          match state (self st) with
                          | Some s => if Py.is_empty s then default else path_join wd s
                          | None => default
                          end]
                    ++ EvCleanUp :: map EvUnlink gone).
    { destruct (VarFiles.clean_up st3) as [[[]|e] st4]; simpl in *;
        rewrite Hw4; unfold after_clean_up; rewrite Hw; simpl;
        now rewrite <- !app_assoc. }
    rewrite (new_events_app _ _ _ Htr). apply Hin.
    intros e He. apply elem_of_cons in He as [->|He]; [reflexivity|].
    apply list_elem_of_fmap in He as (x & -> & _). reflexivity.
  - rewrite (new_events_app _ _
               (map EvCreate created ++ [EvPopen cmds]
                ++ [EvReadState
                      match state (self st) with
                      | Some s => if Py.is_empty s then default else path_join wd s
                      | None => default
                      end] ++ [])).
    + apply Hin. intros e0 He0. now apply elem_of_nil in He0.
    + rewrite Hw. simpl. now rewrite <- !app_assoc.
Qed.

End Reload.

(** ** The defaults of the object on the command line *)

Lemma dict_elem_of_key {V} (k : string) (d : dict V) :
  k ∈ Dict.keys d -> exists v, (k, v) ∈ d.
Proof.
  unfold Dict.keys. intros H.
  apply list_elem_of_fmap in H as ([k' v] & -> & Hin). now exists v.
Qed.

Lemma dict_update_keys {V} (d other : dict V) (k : string) :
  Dict.wf d -> Dict.wf other ->
  k ∈ Dict.keys (Dict.update d other) ->
  k ∈ Dict.keys other \/ k ∈ Dict.keys d.
Proof.
  intros Hd Ho Hk. destruct (dict_elem_of_key _ _ Hk) as [v Hv].
  apply (proj2 (dict_update_wf_elem other d Hd Ho)) in Hv as [Hv|[Hv _]].
  - left. eapply dict_key_of_elem, Hv.
  - right. eapply dict_key_of_elem, Hv.
Qed.

Lemma dict_set_keys_other {V} (k k' : string) (v : V) (d : dict V) :
  k' <> k -> k' ∉ Dict.keys d -> k' ∉ Dict.keys (Dict.set k v d).
Proof.
  intros Hne Hk. rewrite dict_keys_set. case_bool_decide; [exact Hk|].
  rewrite not_elem_of_app. split; [exact Hk|].
  rewrite list_elem_of_singleton. exact Hne.
Qed.

Section Defaults.

Variable decode : list Byte.byte -> option string.
Variable json_loads : string -> option Json.

(** A default the caller left alone reaches the command line. *)
Lemma default_token (word : string) (args : list string) (opts : kwargs)
    (st : St) (cmds : list string) (k : string) (v : value) (t : list string) :
  Dict.wf opts ->
  spawned st
    (snd (Tf.call_cmd decode json_loads word args
            (Dict.update (default_options (self st)) opts) st)) cmds ->
  (k, v) ∈ default_options (self st) ->
  k ∉ Dict.keys opts ->
  (forall st0, Tf.encode_option k v st0 = (Ok t, st0)) ->
  exists a b, cmds = a ++ t ++ b.
Proof.
  intros Hwf Hsp Hin Hk Hpure.
  destruct (call_cmd_spawned decode json_loads _ _ _ _ _ Hsp) as [st1 Hgen].
  apply (generate_cmd_string_member _ _ _ _ _ _ k v t Hgen); [|exact Hpure].
  assert (Hkeys : k ∈ Dict.keys (default_options (self st)))
    by (eapply dict_key_of_elem, Hin).
  assert (Hnot : forall k0,
    k0 ∉ Dict.keys (default_options (self st)) -> k <> k0).
  { intros k0 Hk0 ->. now apply Hk0. }
  apply options_of_in.
  - apply Hnot. unfold default_options, Dict.keys. simpl.
    rewrite !not_elem_of_cons. repeat split; try discriminate.
    apply not_elem_of_nil.
  - apply Hnot. unfold default_options, Dict.keys. simpl.
    rewrite !not_elem_of_cons. repeat split; try discriminate.
    apply not_elem_of_nil.
  - apply Hnot. unfold default_options, Dict.keys. simpl.
    rewrite !not_elem_of_cons. repeat split; try discriminate.
    apply not_elem_of_nil.
  - apply (proj2 (dict_update_wf_elem opts (default_options (self st))
                    (default_options_wf (self st)) Hwf)).
    right. now split.
Qed.

(** X19: [plan], [destroy] and [init] put the defaults of the object on
    the command line wherever the caller does not pass the option of that
    name: when the targets of the object are a [list], one token
    [-target=t] for each of them, in order and next to each other; when
    they are a [tuple], the single token [-target=<str of the tuple>];
    [-state=s] for the state path [s] of the object; and the two fixed
    defaults [-no-color] and [-input=false]. *)
Theorem shims_pass_object_defaults (dir_or_plan : option string)
    (v1 v2 v3 : value) (kw : kwargs) (st : St) (cmds : list string) :
  Dict.wf kw ->
  spawned st (snd (Tf.plan decode json_loads dir_or_plan v1 kw st)) cmds
  \/ spawned st (snd (Tf.destroy decode json_loads dir_or_plan v1 kw st)) cmds
  \/ spawned st (snd (Tf.init decode json_loads dir_or_plan v1 v2 v3 kw st)) cmds ->
  (forall l, "target" ∉ Dict.keys kw -> targets (self st) = VList l ->
     exists a b, cmds = a ++ list_tokens "target" l ++ b)
  /\ (forall l, "target" ∉ Dict.keys kw -> targets (self st) = VTuple l ->
        ("-target=" +:+ str_tuple l) ∈ cmds)
  /\ (forall s, "state" ∉ Dict.keys kw -> state (self st) = Some s ->
        ("-state=" +:+ s) ∈ cmds)
  /\ ("no_color" ∉ Dict.keys kw -> "-no-color" ∈ cmds)
  /\ ("input" ∉ Dict.keys kw -> "-input=false" ∈ cmds).
Proof.
  intros Hwf Hsp.
  assert (Hopts : exists word args opts,
    Dict.wf opts
    /\ spawned st
         (snd (Tf.call_cmd decode json_loads word args
                 (Dict.update (default_options (self st)) opts) st)) cmds
    /\ forall k, k ∈ ["target"; "state"; "no_color"; "input"] ->
         k ∉ Dict.keys kw -> k ∉ Dict.keys opts).
  { destruct Hsp as [Hsp|[Hsp|Hsp]].
    - exists "plan", (Tf._generate_default_args dir_or_plan),
        (Dict.set "detailed_exitcode" v1 kw).
      split; [now apply dict_set_wf|]. split; [exact Hsp|].
      intros k Hk Hkw. apply dict_set_keys_other; [|exact Hkw].
      intros ->. revert Hk. rewrite !elem_of_cons. intros H.
      repeat (destruct H as [H|H]; [discriminate|]). now apply elem_of_nil in H.
    - exists "destroy", (Tf._generate_default_args dir_or_plan),
        (Dict.set "force" v1 kw).
      split; [now apply dict_set_wf|]. split; [exact Hsp|].
      intros k Hk Hkw. apply dict_set_keys_other; [|exact Hkw].
      intros ->. revert Hk. rewrite !elem_of_cons. intros H.
      repeat (destruct H as [H|H]; [discriminate|]). now apply elem_of_nil in H.
    - set (lit := [("backend_config", v1); ("reconfigure", v2); ("backend", v3)]).
      assert (Hlit : Dict.wf lit).
      { unfold Dict.wf, lit, Dict.keys; simpl.
        repeat (apply NoDup_cons; split;
                [rewrite ?not_elem_of_cons; repeat split;
                   try discriminate; apply not_elem_of_nil|]).
        apply NoDup_nil_2. }
      exists "init", (Tf._generate_default_args dir_or_plan), (Dict.update kw lit).
      split; [apply (dict_update_wf_elem lit kw Hwf Hlit)|].
      split; [exact Hsp|].
      intros k Hk Hkw Hin.
      apply (dict_update_keys kw lit k Hwf Hlit) in Hin as [Hin|Hin];
        [|now apply Hkw].
      revert Hk Hin. unfold lit, Dict.keys. simpl. rewrite !elem_of_cons.
      intros H H'.
      repeat (destruct H as [->|H];
              [repeat (destruct H' as [H'|H']; [discriminate|]);
               now apply elem_of_nil in H'|]).
      now apply elem_of_nil in H. }
  destruct Hopts as (word & args & opts & Hwfo & Hspo & Hkeys).
  pose proof (default_token word args opts st cmds) as Htok.
  split; [|split; [|split; [|split]]].
  - intros l Hk Hl.
    apply (Htok "target" (VList l)); try assumption.
    + unfold default_options. rewrite Hl. right. left.
    + apply Hkeys; [|exact Hk]. left.
    + reflexivity.
  - intros l Hk Hl.
    destruct (Htok "target" (VTuple l) ["-target=" +:+ str_tuple l])
      as (a & b & ->); try assumption.
    + unfold default_options. rewrite Hl. right. left.
    + apply Hkeys; [|exact Hk]. left.
    + reflexivity.
    + apply elem_of_app. right. left.
  - intros s Hk Hs.
    destruct (Htok "state" (VScalar (PyStr s)) ["-state=" +:+ s])
      as (a & b & ->); try assumption.
    + unfold default_options. rewrite Hs. left.
    + apply Hkeys; [|exact Hk]. right. left.
    + reflexivity.
    + apply elem_of_app. right. left.
  - intros Hk.
    destruct (Htok "no_color" (VFlag IsFlagged) ["-no-color"])
      as (a & b & ->); try assumption.
    + unfold default_options. do 5 right. left.
    + apply Hkeys; [|exact Hk]. do 2 right. left.
    + reflexivity.
    + apply elem_of_app. right. left.
  - intros Hk.
    destruct (Htok "input" (VScalar (PyBool false)) ["-input=false"])
      as (a & b & ->); try assumption.
    + unfold default_options. do 6 right. left.
    + apply Hkeys; [|exact Hk]. do 3 right. left.
    + reflexivity.
    + apply elem_of_app. right. left.
Qed.

End Defaults.

(** ** The parameters of the shims on the command line *)

(** The line of a plain command ends with the positional arguments. *)
Lemma generate_cmd_string_tail (cmd : string) (args : list string)
    (kw : kwargs) (st st' : St) (cmds : list string) :
  Tf.generate_cmd_string cmd args kw st = (Ok cmds, st') ->
  cmd ∉ COMMAND_WITH_SUBCOMMANDS ->
  exists front, cmds = front ++ args.
Proof.
  unfold Tf.generate_cmd_string, bind, gets, ret. intros Hgen Hcmd.
  rewrite bool_decide_eq_false_2 in Hgen by exact Hcmd.
  destruct (Tf.encode_options kw st) as [[opts|e] st1]; [|discriminate].
  injection Hgen as <- <-. cbn [fst snd].
  exists ((terraform_bin_path (self st) :: Py.split cmd) ++ opts).
  now rewrite <- app_assoc.
Qed.

Section ShimArguments.

Variable decode : list Byte.byte -> option string.
Variable json_loads : string -> option Json.

(** An option the shim sets reaches the command line. *)
Lemma shim_option_token (word : string) (args : list string) (opts : kwargs)
    (st : St) (cmds : list string) (k : string) (v : value) (t : list string) :
  Dict.wf opts ->
  spawned st
    (snd (Tf.call_cmd decode json_loads word args
            (Dict.update (default_options (self st)) opts) st)) cmds ->
  (k, v) ∈ opts ->
  k <> "capture_output" -> k <> "raise_on_error" -> k <> "synchronous" ->
  (forall st0, Tf.encode_option k v st0 = (Ok t, st0)) ->
  exists a b, cmds = a ++ t ++ b.
Proof.
  intros Hwf Hsp Hin H1 H2 H3 Hpure.
  destruct (call_cmd_spawned decode json_loads _ _ _ _ _ Hsp) as [st1 Hgen].
  apply (generate_cmd_string_member _ _ _ _ _ _ k v t Hgen); [|exact Hpure].
  apply options_of_in; try assumption.
  apply (proj2 (dict_update_wf_elem opts (default_options (self st))
                  (default_options_wf (self st)) Hwf)).
  now left.
Qed.

(** X20: the named parameters of the shims win over the defaults of the
    object and reach the command line: [apply] (with [skip_plan]) passes
    [-input=true] or [-input=false] as its parameter [input] says, and
    [-no-color] when [no_color] is flagged; [destroy] with [force] flagged
    passes [-force]; [plan] with [detailed_exitcode] flagged passes
    [-detailed-exitcode]. *)
Theorem shims_pass_their_parameters (dir_or_plan : option string)
    (input : bool) (no_color : TerraformFlag) (kw : kwargs) (st : St)
    (cmds : list string) :
  Dict.wf kw ->
  (spawned st
     (snd (Tf.apply decode json_loads dir_or_plan (VScalar (PyBool input)) true
             (VFlag no_color) kw st)) cmds ->
   ("-input=" +:+ (if input then "true" else "false")) ∈ cmds
   /\ (no_color = IsFlagged -> "-no-color" ∈ cmds))
  /\ (spawned st
        (snd (Tf.destroy decode json_loads dir_or_plan (VFlag IsFlagged) kw st))
        cmds ->
      "-force" ∈ cmds)
  /\ (spawned st
        (snd (Tf.plan decode json_loads dir_or_plan (VFlag IsFlagged) kw st))
        cmds ->
      "-detailed-exitcode" ∈ cmds).
Proof.
  intros Hwf.
  assert (Hone : forall word args opts k v tok,
    Dict.wf opts ->
    spawned st
      (snd (Tf.call_cmd decode json_loads word args
              (Dict.update (default_options (self st)) opts) st)) cmds ->
    (k, v) ∈ opts ->
    k <> "capture_output" -> k <> "raise_on_error" -> k <> "synchronous" ->
    (forall st0, Tf.encode_option k v st0 = (Ok [tok], st0)) ->
    tok ∈ cmds).
  { intros word args opts k v tok Ho Hsp Hin H1 H2 H3 Hpure.
    destruct (shim_option_token word args opts st cmds k v [tok]
                Ho Hsp Hin H1 H2 H3 Hpure) as (a & b & ->).
    apply elem_of_app. right. left. }
  split; [|split].
  - intros Hsp.
    assert (Ho : Dict.wf (Dict.set "no_color" (VFlag no_color)
                            (Dict.set "input" (VScalar (PyBool input)) kw)))
      by now apply dict_set_wf, dict_set_wf.
    split.
    + apply (Hone "apply" (Tf._generate_default_args dir_or_plan) _
               "input" (VScalar (PyBool input)) _ Ho Hsp);
        [|discriminate..|reflexivity].
      apply dict_set_elem; [now apply dict_set_wf|].
      right. split; [discriminate | apply dict_set_in].
    + intros ->.
      apply (Hone "apply" (Tf._generate_default_args dir_or_plan) _
               "no_color" (VFlag IsFlagged) _ Ho Hsp);
        [|discriminate..|reflexivity].
      apply dict_set_in.
  - intros Hsp.
    apply (Hone "destroy" (Tf._generate_default_args dir_or_plan)
             (Dict.set "force" (VFlag IsFlagged) kw)
             "force" (VFlag IsFlagged) _ (dict_set_wf _ _ _ Hwf) Hsp);
      [|discriminate..|reflexivity].
    apply dict_set_in.
  - intros Hsp.
    apply (Hone "plan" (Tf._generate_default_args dir_or_plan)
             (Dict.set "detailed_exitcode" (VFlag IsFlagged) kw)
             "detailed_exitcode" (VFlag IsFlagged) _ (dict_set_wf _ _ _ Hwf) Hsp);
      [|discriminate..|reflexivity].
    apply dict_set_in.
Qed.

(** X21: a directory or plan file that is given and not empty is the
    last token of the command line [apply] (with [skip_plan]),
    [destroy], [plan] and [init] spawn: every option stands before it. *)
Theorem shims_directory_last (d : string) (v1 v2 v3 : value) (kw : kwargs)
    (st : St) (cmds : list string) :
  Py.is_empty d = false ->
  spawned st (snd (Tf.apply decode json_loads (Some d) v1 true v2 kw st)) cmds
  \/ spawned st (snd (Tf.destroy decode json_loads (Some d) v1 kw st)) cmds
  \/ spawned st (snd (Tf.plan decode json_loads (Some d) v1 kw st)) cmds
  \/ spawned st (snd (Tf.init decode json_loads (Some d) v1 v2 v3 kw st)) cmds ->
  last cmds = Some d.
Proof.
  intros Hd Hsp.
  assert (Hlast : forall word k,
    spawned st
      (snd (Tf.call_cmd decode json_loads word
              (Tf._generate_default_args (Some d)) k st)) cmds ->
    word <> "workspace" ->
    last cmds = Some d).
  { intros word k Hk Hword.
    destruct (call_cmd_spawned decode json_loads _ _ _ _ _ Hk) as [st1 Hgen].
    destruct (generate_cmd_string_tail _ _ _ _ _ _ Hgen) as [front ->].
    - unfold COMMAND_WITH_SUBCOMMANDS. now rewrite elem_of_singleton.
    - unfold Tf._generate_default_args. rewrite Hd. apply last_snoc. }
  destruct Hsp as [Hsp|[Hsp|[Hsp|Hsp]]].
  - now apply (Hlast "apply" _ Hsp).
  - now apply (Hlast "destroy" _ Hsp).
  - now apply (Hlast "plan" _ Hsp).
  - now apply (Hlast "init" _ Hsp).
Qed.

End ShimArguments.

(** ** The statements at sample inputs *)

Lemma shims_pass_their_parameters_witness :
  "-input=true"
    ∈ ["terraform"; "apply"; "-no-color"; "-input=true"; "-auto-approve=true"]
  /\ "-no-color"
       ∈ ["terraform"; "apply"; "-no-color"; "-input=true"; "-auto-approve=true"].
Proof.
  assert (Hsp : spawned (Demo.st_of (Demo.child 0 "" ""))
                  (snd (Tf.apply Demo.decode_ascii Demo.loads None
                          (VScalar (PyBool true)) true (VFlag IsFlagged)
                          [("auto_approve", VScalar (PyBool true))]
                          (Demo.st_of (Demo.child 0 "" ""))))
                  ["terraform"; "apply"; "-no-color"; "-input=true";
                   "-auto-approve=true"])
    by (vm_compute; left).
  destruct (proj1 (shims_pass_their_parameters Demo.decode_ascii Demo.loads None
                     true IsFlagged [("auto_approve", VScalar (PyBool true))]
                     (Demo.st_of (Demo.child 0 "" ""))
                     ["terraform"; "apply"; "-no-color"; "-input=true";
                      "-auto-approve=true"]
                     (NoDup_singleton "auto_approve")) Hsp) as [H1 H2].
  split; [exact H1 | exact (H2 eq_refl)].
Defined.

Lemma shims_directory_last_witness :
  last ["terraform"; "destroy"; "-no-color"; "-input=false"; "-force"; "infra"]
  = Some "infra".
Proof.
  apply (shims_directory_last Demo.decode_ascii Demo.loads "infra"
           (VFlag IsFlagged) (VScalar PyNone) (VScalar PyNone) []
           (Demo.st_of (Demo.child 0 "" ""))).
  - reflexivity.
  - right. left. vm_compute. left.
Defined.

Lemma shims_run_their_command_witness :
  exists tail,
    ["terraform"; "destroy"; "-no-color"; "-input=false"; "-force"; "infra"]
    = terraform_bin_path (self (Demo.st_of (Demo.child 0 "" "")))
      :: "destroy" :: tail.
Proof.
  apply (proj1 (proj2
           (shims_run_their_command Demo.decode_ascii Demo.loads (Some "infra")
              (VFlag IsFlagged) (VScalar PyNone) (VScalar PyNone) []
              (Demo.st_of (Demo.child 0 "" ""))
              ["terraform"; "destroy"; "-no-color"; "-input=false"; "-force";
               "infra"]))).
  vm_compute. left.
Defined.

Lemma workspace_shims_lines_witness :
  exists opts st1,
    Tf.encode_options
      (options_of [("no_color", VFlag IsFlagged);
                   ("raise_on_error", VScalar (PyBool false))])
      (Demo.st_of (Demo.child 0 "" "")) = (Ok opts, st1)
    /\ (exists a b, opts = a ++ ["-no-color"] ++ b)
    /\ ["terraform"; "workspace"; "select"; "-no-color"; "staging"]
       = [terraform_bin_path (self (Demo.st_of (Demo.child 0 "" "")));
          "workspace"; "select"] ++ opts ++ ["staging"].
Proof.
  destruct (proj1 (workspace_shims_lines Demo.decode_ascii Demo.loads
                     "staging" []
                     [("no_color", VFlag IsFlagged);
                      ("raise_on_error", VScalar (PyBool false))]
                     (Demo.st_of (Demo.child 0 "" ""))
                     ["terraform"; "workspace"; "select"; "-no-color"; "staging"]))
    as (opts & st1 & He & Hmem & Hline).
  - vm_compute. left.
  - exists opts, st1. split; [exact He|]. split; [|exact Hline].
    apply (Hmem "no_color" (VFlag IsFlagged) ["-no-color"]).
    + left.
    + reflexivity.
Defined.

Lemma output_forces_json_witness :
  "-json" ∈ ["terraform"; "output"; "-json"; "region"].
Proof.
  apply (proj2 (proj2 (output_forces_json Demo.decode_ascii Demo.loads
                         ["region"] (VScalar (PyStr "framework")) []
                         (Demo.st_of (Demo.child 0 "" "")))
                  ltac:(discriminate))
           ["terraform"; "output"; "-json"; "region"]).
  vm_compute. left.
Defined.

Lemma compound_command_needs_subcommand_witness :
  Tf.cmd Demo.decode_ascii Demo.loads "workspace" []
    (VScalar (PyBool true)) (VScalar (PyBool true)) (VScalar (PyBool true))
    [("var", VDict [("a", "b")])] (Demo.st_of (Demo.child 0 "" ""))
  = (Raise IndexError, Demo.st_of (Demo.child 0 "" "")).
Proof.
  apply (compound_command_needs_subcommand Demo.decode_ascii Demo.loads).
  unfold COMMAND_WITH_SUBCOMMANDS. now apply elem_of_singleton.
Defined.

Lemma fire_and_forget_keeps_files_witness :
  let run := Tf.cmd Demo.decode_ascii Demo.loads "apply" []
               (VScalar (PyBool true)) (VScalar (PyBool true))
               (VScalar (PyBool false)) [("var", VDict [("a", "b")])]
               (Demo.st_of (Demo.child 0 "" "")) in
  fst run = Ok (None, None, None)
  /\ count_event is_clean_up
       (new_events (world (Demo.st_of (Demo.child 0 "" ""))) (world (snd run)))
     = 0%nat
  /\ count_event is_read_state
       (new_events (world (Demo.st_of (Demo.child 0 "" ""))) (world (snd run)))
     = 0%nat
  /\ tfstate (self (snd run)) = tfstate (self (Demo.st_of (Demo.child 0 "" "")))
  /\ exists created,
       files (temp_var_files (self (snd run)))
       = files (temp_var_files (self (Demo.st_of (Demo.child 0 "" "")))) ++ created
       /\ forall f, f ∈ created -> is_Some (disk (world (snd run)) !! f).
Proof.
  exact (fire_and_forget_keeps_files Demo.decode_ascii Demo.loads
           "apply" [] (VScalar (PyBool true)) (VScalar (PyBool true))
           (VScalar (PyBool false)) [("var", VDict [("a", "b")])]
           (Demo.st_of (Demo.child 0 "" ""))
           (snd (Tf.generate_cmd_string "apply" []
                   [("var", VDict [("a", "b")])]
                   (Demo.st_of (Demo.child 0 "" ""))))
           ["terraform"; "apply"; "-var-file=/tmp/tmpk3x9q2ab.tfvars.json"]
           (mkCompleted 0 (list_byte_of_string "") (list_byte_of_string "")
              (<[Demo.var_path := Json.dumps [("a", "b")]]> ∅))
           eq_refl eq_refl eq_refl).
Defined.

Lemma exit_cleans_after_fire_and_forget_witness :
  exists st2,
    Tf.__exit__
      (mkSt (self (snd (Tf.cmd Demo.decode_ascii Demo.loads "apply" []
                          (VScalar (PyBool true)) (VScalar (PyBool true))
                          (VScalar (PyBool false)) [("var", VDict [("a", "b")])]
                          (Demo.st_of (Demo.child 0 "" "")))))
            (set_disk
               (<["terraform.tfstate" := "{}"]>
                  (<[Demo.var_path := Json.dumps [("a", "b")]]> ∅))
               (world (snd (Tf.cmd Demo.decode_ascii Demo.loads "apply" []
                              (VScalar (PyBool true)) (VScalar (PyBool true))
                              (VScalar (PyBool false))
                              [("var", VDict [("a", "b")])]
                              (Demo.st_of (Demo.child 0 "" "")))))))
    = (Ok tt, st2)
    /\ files (temp_var_files (self st2)) = []
    /\ disk (world st2) !! Demo.var_path = None
    /\ disk (world st2) !! "terraform.tfstate" = Some "{}".
Proof.
  destruct (exit_cleans_after_fire_and_forget Demo.decode_ascii Demo.loads
              "apply" [] (VScalar (PyBool true)) (VScalar (PyBool true))
              (VScalar (PyBool false)) [("var", VDict [("a", "b")])]
              (Demo.st_of (Demo.child 0 "" ""))
              (snd (Tf.generate_cmd_string "apply" []
                      [("var", VDict [("a", "b")])]
                      (Demo.st_of (Demo.child 0 "" ""))))
              ["terraform"; "apply"; "-var-file=/tmp/tmpk3x9q2ab.tfvars.json"]
              (mkCompleted 0 (list_byte_of_string "") (list_byte_of_string "")
                 (<[Demo.var_path := Json.dumps [("a", "b")]]> ∅))
              (<["terraform.tfstate" := "{}"]>
                 (<[Demo.var_path := Json.dumps [("a", "b")]]> ∅))
              eq_refl eq_refl eq_refl eq_refl) as (st2 & Hexit & Hfiles & Hdisk).
  - intros f Hf. apply list_elem_of_singleton in Hf. subst f.
    exists (Json.dumps [("a", "b")]). reflexivity.
  - exists st2. split; [exact Hexit|]. split; [exact Hfiles|]. split.
    + exact (Hdisk Demo.var_path).
    + exact (Hdisk "terraform.tfstate").
Defined.

Lemma cmd_removes_exactly_its_files_witness :
  let run := Tf.cmd Demo.decode_ascii Demo.loads "apply" []
               (VScalar (PyBool true)) (VScalar (PyBool true))
               (VScalar (PyBool true)) [("var", VDict [("a", "b")])]
               (Demo.st_of (Demo.child 0 "done" "")) in
  fst run = Ok (Some 0, Some "done", Some "")
  /\ files (temp_var_files (self (snd run))) = []
  /\ disk (world (snd run)) !! Demo.var_path = None.
Proof.
  pose proof (cmd_removes_exactly_its_files Demo.decode_ascii Demo.loads
                "apply" [] (VScalar (PyBool true)) (VScalar (PyBool true))
                (VScalar (PyBool true)) [("var", VDict [("a", "b")])]
                (Demo.st_of (Demo.child 0 "done" ""))
                (snd (Tf.generate_cmd_string "apply" []
                        [("var", VDict [("a", "b")])]
                        (Demo.st_of (Demo.child 0 "done" ""))))
                ["terraform"; "apply"; "-var-file=/tmp/tmpk3x9q2ab.tfvars.json"]
                (mkCompleted 0 (list_byte_of_string "done") (list_byte_of_string "")
                   (<[Demo.var_path := Json.dumps [("a", "b")]]> ∅))
                eq_refl eq_refl eq_refl eq_refl) as H.
  destruct H as (H1 & H2 & H3).
  - intros f Hf. apply list_elem_of_singleton in Hf. subst f.
    exists (Json.dumps [("a", "b")]). reflexivity.
  - intros _. reflexivity.
  - intros run. split; [exact H1|]. split; [exact H2|].
    exact (H3 Demo.var_path).
Defined.

Lemma no_capture_no_streams_witness :
  let r := fst (Tf.cmd Demo.decode_ascii Demo.loads "apply" []
                  (VScalar (PyBool false)) (VScalar (PyBool true))
                  (VScalar (PyBool true)) []
                  (Demo.st_of (Demo.child 1 "" "Error"))) in
  r <> Raise UnicodeDecodeError
  /\ (forall code out err, r = Ok (code, out, err) -> out = None /\ err = None)
  /\ (forall code line out err,
        r = Raise (TerraformCommandError code line out err) ->
        out = None /\ err = None).
Proof.
  exact (no_capture_no_streams Demo.decode_ascii Demo.loads
           "apply" [] (VScalar (PyBool false)) (VScalar (PyBool true))
           (VScalar (PyBool true)) []
           (Demo.st_of (Demo.child 1 "" "Error"))
           (Demo.st_of (Demo.child 1 "" "Error"))
           ["terraform"; "apply"]
           (mkCompleted 1 (list_byte_of_string "") (list_byte_of_string "Error") ∅)
           eq_refl eq_refl eq_refl eq_refl).
Defined.

Lemma init_passes_backend_config_witness :
  (exists a b,
     ["terraform"; "init"; "-no-color"; "-input=false";
      "-backend-config=bucket=b1"; "-backend-config=key=k1";
      "-reconfigure"; "-backend=true"]
     = a ++ map (fun kv => "-backend-config=" +:+ fst kv +:+ "=" +:+ snd kv)
              [("bucket", "b1"); ("key", "k1")]
         ++ b)
  /\ "-reconfigure"
       ∈ ["terraform"; "init"; "-no-color"; "-input=false";
          "-backend-config=bucket=b1"; "-backend-config=key=k1";
          "-reconfigure"; "-backend=true"]
  /\ "-backend=true"
       ∈ ["terraform"; "init"; "-no-color"; "-input=false";
          "-backend-config=bucket=b1"; "-backend-config=key=k1";
          "-reconfigure"; "-backend=true"].
Proof.
  apply (init_passes_backend_config Demo.decode_ascii Demo.loads None
           [("bucket", "b1"); ("key", "k1")] true []
           (Demo.st_of (Demo.child 0 "" ""))).
  - apply NoDup_nil_2.
  - vm_compute. left.
Defined.

Lemma reload_reads_configured_state_witness :
  EvReadState "infra/prod.tfstate"
    ∈ new_events (world (Demo.st_configured (Demo.child 0 "" "")))
        (world (snd (Tf.cmd Demo.decode_ascii Demo.loads "apply" []
                       (VScalar (PyBool true)) (VScalar (PyBool true))
                       (VScalar (PyBool true))
                       [("state", VScalar (PyStr "other.tfstate"))]
                       (Demo.st_configured (Demo.child 0 "" ""))))).
Proof.
  apply (proj2 (reload_reads_configured_state Demo.decode_ascii Demo.loads
                  "apply" [] (VScalar (PyBool true)) (VScalar (PyBool true))
                  (VScalar (PyBool true))
                  [("state", VScalar (PyStr "other.tfstate"))]
                  (Demo.st_configured (Demo.child 0 "" ""))
                  (Demo.st_configured (Demo.child 0 "" ""))
                  ["terraform"; "apply"; "-state=other.tfstate"]
                  (mkCompleted 0 (list_byte_of_string "") (list_byte_of_string "") ∅)
                  eq_refl eq_refl eq_refl eq_refl "infra/prod.tfstate")).
  reflexivity.
Defined.

Lemma output_result_witness :
  fst (Tf.output Demo.decode_ascii Demo.loads [] (VScalar (PyBool true)) []
         (Demo.st_of (Demo.child 0 (Json.dumps [("region", "eu")]) "")))
  = Ok (Some (JObject [("region", JString "eu")])).
Proof.
  apply (output_result Demo.decode_ascii Demo.loads [] (VScalar (PyBool true)) []
           (Demo.st_of (Demo.child 0 (Json.dumps [("region", "eu")]) ""))
           (Demo.st_of (Demo.child 0 (Json.dumps [("region", "eu")]) ""))
           ["terraform"; "output"; "-json"]
           (mkCompleted 0 (list_byte_of_string (Json.dumps [("region", "eu")]))
              (list_byte_of_string "") ∅)
           (Json.dumps [("region", "eu")]) "").
  - discriminate.
  - reflexivity.
  - reflexivity.
  - reflexivity.
  - reflexivity.
  - intros _. reflexivity.
  - split; [apply NoDup_nil_2|]. intros f Hf. now apply elem_of_nil in Hf.
  - reflexivity.
  - reflexivity.
Defined.

Lemma shims_pass_object_defaults_witness :
  (exists a b,
     ["terraform"; "plan"; "-state=prod.tfstate"; "-target=aws_instance.web";
      "-no-color"; "-input=false"; "-detailed-exitcode"]
     = a ++ list_tokens "target" [PyStr "aws_instance.web"] ++ b)
  /\ "-state=prod.tfstate"
       ∈ ["terraform"; "plan"; "-state=prod.tfstate"; "-target=aws_instance.web";
          "-no-color"; "-input=false"; "-detailed-exitcode"]
  /\ "-no-color"
       ∈ ["terraform"; "plan"; "-state=prod.tfstate"; "-target=aws_instance.web";
          "-no-color"; "-input=false"; "-detailed-exitcode"]
  /\ "-input=false"
       ∈ ["terraform"; "plan"; "-state=prod.tfstate"; "-target=aws_instance.web";
          "-no-color"; "-input=false"; "-detailed-exitcode"]
  /\ "-target=('a', 'b')"
       ∈ ["terraform"; "destroy"; "-target=('a', 'b')"; "-no-color";
          "-input=false"; "-force"].
Proof.
  assert (Hsp : spawned (Demo.st_configured (Demo.child 0 "" ""))
                  (snd (Tf.plan Demo.decode_ascii Demo.loads None (VFlag IsFlagged)
                          [] (Demo.st_configured (Demo.child 0 "" ""))))
                  ["terraform"; "plan"; "-state=prod.tfstate";
                   "-target=aws_instance.web"; "-no-color"; "-input=false";
                   "-detailed-exitcode"])
    by (vm_compute; left).
  assert (Hsp' : spawned (Demo.st_tuple (Demo.child 0 "" ""))
                   (snd (Tf.destroy Demo.decode_ascii Demo.loads None
                           (VFlag IsFlagged) []
                           (Demo.st_tuple (Demo.child 0 "" ""))))
                   ["terraform"; "destroy"; "-target=('a', 'b')"; "-no-color";
                    "-input=false"; "-force"])
    by (vm_compute; left).
  destruct (shims_pass_object_defaults Demo.decode_ascii Demo.loads None
              (VFlag IsFlagged) (VScalar PyNone) (VScalar PyNone) []
              (Demo.st_configured (Demo.child 0 "" ""))
              ["terraform"; "plan"; "-state=prod.tfstate";
               "-target=aws_instance.web"; "-no-color"; "-input=false";
               "-detailed-exitcode"]
              (NoDup_nil_2 (A := string)) (or_introl Hsp))
    as (H1 & _ & H2 & H3 & H4).
  destruct (shims_pass_object_defaults Demo.decode_ascii Demo.loads None
              (VFlag IsFlagged) (VScalar PyNone) (VScalar PyNone) []
              (Demo.st_tuple (Demo.child 0 "" ""))
              ["terraform"; "destroy"; "-target=('a', 'b')"; "-no-color";
               "-input=false"; "-force"]
              (NoDup_nil_2 (A := string)) (or_intror (or_introl Hsp')))
    as (_ & H5 & _).
  split; [apply (H1 [PyStr "aws_instance.web"]);
            [apply not_elem_of_nil | reflexivity]|].
  split; [apply (H2 "prod.tfstate"); [apply not_elem_of_nil | reflexivity]|].
  split; [apply H3, not_elem_of_nil|].
  split; [apply H4, not_elem_of_nil|].
  apply (H5 [PyStr "a"; PyStr "b"]); [apply not_elem_of_nil | reflexivity].
Defined.
